(** * Daily training decision engine: client handlers and decision rules

    The development has three layers.

    - The data shapes declared in the store ([trainingStore]) and in the
      screens ([index.tsx], [session.tsx], [admin.tsx]).
    - The client: the zustand store and the handlers of the home and
      session screens, written in a state monad over a [World] that holds
      the store, the screens' local state, the backend and a log of the
      HTTP requests issued; and the admin screen, over a world of its
      own ([Module Admin]).
    - The decision engine behind the HTTP boundary.  Its implementation is
      not part of the sources at hand; it is modelled from the
      specification, rule by rule, in [Module Engine]. *)

From Stdlib Require Import String List Bool ZArith Lia Permutation.
From ExtLib Require Import Structures.Monad Structures.MonadState.
From ExtLib Require Import Data.Monads.StateMonad.
Import ListNotations.
Import MonadNotation.

Local Open Scope string_scope.
Local Open Scope monad_scope.

Set Implicit Arguments.

(** ** Data shapes *)

(** [day_type: 'easy' | 'medium' | 'hard'] *)
Inductive DayType := easy | medium | hard.

(** [week_mode: 'A' | 'B'] *)
Inductive WeekMode := WeekA | WeekB.

(** [power_frequency: 'weekly' | 'fortnightly'] *)
Inductive PowerFrequency := weekly | fortnightly.

Inductive Feeling := feeling_bad | feeling_ok | feeling_great.
Inductive Sleep := sleep_bad | sleep_good.
Inductive Pain := pain_none | pain_present.
Inductive TimeAvailable := t20_30 | t30_45 | t45_60.
Inductive Equipment := home | minimal | bodyweight.

(** [feedback: 'good' | 'not_good'] *)
Inductive Feedback := good | not_good.

Definition DayType_eqb (a b : DayType) : bool :=
  match a, b with
  | easy, easy | medium, medium | hard, hard => true
  | _, _ => false
  end.

(** The string a literal type is sent as. *)
Definition time_available_str (t : TimeAvailable) : string :=
  match t with t20_30 => "20-30" | t30_45 => "30-45" | t45_60 => "45-60" end.

Definition equipment_str (e : Equipment) : string :=
  match e with home => "home" | minimal => "minimal" | bodyweight => "bodyweight" end.

(** [interface Exercise] of [session.tsx] and of the store. *)
Module Exercise.
Record t := mk {
  id : string;
  name : string;
  category : string;
  prescription_type : string;
  load_level : string;
  protocol_id : string;
  protocol_name : string;
  protocol_description : string;
  sets : string;
  reps : option string;       (* For KB_STRENGTH, BW_DYNAMIC, POWER_SWING *)
  hold_time : option string;  (* For ISOMETRIC_HOLD *)
  time : option string;       (* For CARRY_TIME, CRAWL_TIME *)
  rest : string;
  tempo : option string;
  notes : option string
}.
End Exercise.

(** [interface Session] of the store. *)
Module Session.
Record t := mk {
  id : string;
  timestamp : string;
  day_type : DayType;
  priority_bucket : string;
  exercises : list Exercise.t;
  time_slot : string;
  equipment : string;
  week_mode : string
}.
End Session.

(** [interface UserState] of the store. *)
Module UserState.
Record t := mk {
  id : string;
  next_priority_bucket : string;
  week_mode : WeekMode;
  cooldown_counter : Z;
  cooldown_override : bool;   (* Bypass cooldown for day type decisions *)
  power_last_used : option string;
  last_hard_day : bool;
  power_frequency : PowerFrequency
}.
End UserState.

(** [interface QuestionnaireState] of [index.tsx]: every answer starts as
    [null]. *)
Module QuestionnaireState.
Record t := mk {
  feeling : option Feeling;
  sleep : option Sleep;
  pain : option Pain;
  time_available : option TimeAvailable;
  equipment : option Equipment
}.
End QuestionnaireState.

(** [interface Questionnaire] of the store: a questionnaire with every
    answer given. *)
Module Questionnaire.
Record t := mk {
  feeling : Feeling;
  sleep : Sleep;
  pain : Pain;
  time_available : TimeAvailable;
  equipment : Equipment
}.
End Questionnaire.

(** [interface Exercise] of [admin.tsx]: a library exercise. *)
Module ExerciseDef.
Record t := mk {
  id : string;
  name : string;
  category : string;
  equipment : list string;
  bilateral : bool;
  is_anchor : bool;
  prescription_type : string;
  is_power : bool;
  custom_protocols : option (list string)
}.
End ExerciseDef.

(** [interface Protocol] of [admin.tsx]: a library protocol. *)
Module ProtocolDef.
Record t := mk {
  id : string;
  name : string;
  prescription_type : string;
  description_short : string;
  example : option string;
  sets : string;
  reps : option string;
  hold_time : option string;
  time : option string;
  rest : string;
  tempo : option string;
  is_easy_day : bool
}.
End ProtocolDef.

(** [const PRESCRIPTION_TYPES] of [admin.tsx]. *)
Definition PRESCRIPTION_TYPES : list string :=
  ["KB_STRENGTH"; "BW_DYNAMIC"; "ISOMETRIC_HOLD"; "CARRY_TIME"; "CRAWL_TIME";
   "POWER_SWING"].

(** ** What a response carries

    [response.json()] is typed [any]: the handlers store what it yields
    without looking at it.  A body is either of the shape the endpoint
    declares, or an error object [{ detail }], the shape [admin.tsx] reads
    from a response that is not [ok]. *)
Inductive Parsed (T : Type) : Type :=
| Shaped (v : T)
| ErrorDetail (detail : string).
Arguments ErrorDetail {T} detail.

(** The outcome of [await fetch(...)] followed by [await response.json()]. *)
Inductive FetchResult (T : Type) : Type :=
| NetworkError                        (* fetch rejects *)
| NotJson (ok : bool)                 (* fetch resolves, response.json() rejects *)
| Json (ok : bool) (body : Parsed T). (* both resolve *)
Arguments NetworkError {T}.
Arguments NotJson {T} ok.

(** Reading a field of a parsed body: [undefined] on an error object. *)
Definition field {T V : Type} (f : T -> V) (p : Parsed T) : option V :=
  match p with
  | Shaped v => Some (f v)
  | ErrorDetail _ => None
  end.

(** Optional chaining [x?.f] on a value that may be [null]. *)
Definition opt_field {T V : Type} (f : T -> V) (x : option (Parsed T)) : option V :=
  match x with
  | Some p => field f p
  | None => None
  end.

(** ** HTTP requests *)

(** Body of [PUT /api/settings]; an absent key is [None]. *)
Record SettingsBody := {
  sb_week_mode : option WeekMode;
  sb_power_frequency : option PowerFrequency;
  sb_cooldown_override : option bool
}.

(** Body of [POST /api/generate]: the questionnaire spread, plus
    [override_bucket] ([undefined] is dropped by [JSON.stringify]). *)
Record GeneratePayload := {
  gp_questionnaire : QuestionnaireState.t;
  gp_override_bucket : option string
}.

(** Body of [POST /api/reroll].  The endpoint reads the questionnaire and
    the two preserve flags; a key the client does not send is [None]. *)
Record RerollBody := {
  rb_questionnaire : QuestionnaireState.t;
  rb_preserve_day_type : option bool;
  rb_preserve_priority_bucket : option bool
}.

(** Body of [POST /api/swap]. *)
Record SwapBody := {
  sw_session_id : option string;
  sw_exercise_id : string;
  sw_equipment : option string
}.

(** Body of [POST /api/complete]. *)
Record CompleteBody := {
  cb_session_id : option string;
  cb_feedback : Feedback
}.

Inductive Request :=
| GET_state
| PUT_settings (body : SettingsBody)
| POST_generate (body : GeneratePayload)
| POST_reroll (body : RerollBody)
| POST_swap (body : SwapBody)
| POST_complete (body : CompleteBody).

Definition is_complete_request (r : Request) : bool :=
  match r with POST_complete _ => true | _ => false end.

(** The backend as the client sees it: one function per endpoint, each
    threading the server's own state. *)
Record Backend (Srv : Type) := {
  api_state : Srv -> FetchResult UserState.t * Srv;
  api_settings : SettingsBody -> Srv -> FetchResult UserState.t * Srv;
  api_generate : GeneratePayload -> Srv -> FetchResult Session.t * Srv;
  api_reroll : RerollBody -> Srv -> FetchResult Session.t * Srv;
  api_swap : SwapBody -> Srv -> FetchResult Exercise.t * Srv;
  api_complete : CompleteBody -> Srv -> FetchResult UserState.t * Srv
}.

(** ** The store ([useTrainingStore]) *)

Record TrainingStore := {
  currentSession : option (Parsed Session.t);
  userState : option (Parsed UserState.t);
  lastQuestionnaire : option QuestionnaireState.t;
  overrideBucket : option string
}.

(** [create<TrainingStore>((set, get) => ({ currentSession: null, ... }))] *)
Definition initial_store : TrainingStore :=
  {| currentSession := None; userState := None;
     lastQuestionnaire := None; overrideBucket := None |}.

(** Local state of [SessionScreen]. *)
Record SessionScreen := {
  ss_loading : bool;
  swappingId : option string;
  exercises : option (list (Parsed Exercise.t))  (* [None]: undefined *)
}.

(** Local state of [HomeScreen]. *)
Record HomeScreen := {
  hs_loading : bool;
  showCooldownModal : bool;
  showFocusModal : bool;
  questionnaire : QuestionnaireState.t
}.

Inductive Navigation :=
| router_push (path : string)
| router_replace (path : string)
| router_back.

Section Client.

Variable Srv : Type.
Variable backend : Backend Srv.

(** Everything a handler can read or change. *)
Record World := {
  store : TrainingStore;
  session_screen : SessionScreen;
  home_screen : HomeScreen;
  server : Srv;
  http_log : list Request;      (* requests issued, oldest first *)
  nav_log : list Navigation;
  console : list string
}.

Definition M := state World.

Definition with_store (f : TrainingStore -> TrainingStore) : M unit :=
  modify (fun w => {| store := f (store w);
                      session_screen := session_screen w;
                      home_screen := home_screen w;
                      server := server w;
                      http_log := http_log w;
                      nav_log := nav_log w;
                      console := console w |}) ;; ret tt.

Definition with_session_screen (f : SessionScreen -> SessionScreen) : M unit :=
  modify (fun w => {| store := store w;
                      session_screen := f (session_screen w);
                      home_screen := home_screen w;
                      server := server w;
                      http_log := http_log w;
                      nav_log := nav_log w;
                      console := console w |}) ;; ret tt.

Definition with_home_screen (f : HomeScreen -> HomeScreen) : M unit :=
  modify (fun w => {| store := store w;
                      session_screen := session_screen w;
                      home_screen := f (home_screen w);
                      server := server w;
                      http_log := http_log w;
                      nav_log := nav_log w;
                      console := console w |}) ;; ret tt.

Definition navigate (n : Navigation) : M unit :=
  modify (fun w => {| store := store w;
                      session_screen := session_screen w;
                      home_screen := home_screen w;
                      server := server w;
                      http_log := http_log w;
                      nav_log := nav_log w ++ [n];
                      console := console w |}) ;; ret tt.

Definition console_error (msg : string) : M unit :=
  modify (fun w => {| store := store w;
                      session_screen := session_screen w;
                      home_screen := home_screen w;
                      server := server w;
                      http_log := http_log w;
                      nav_log := nav_log w;
                      console := console w ++ [msg] |}) ;; ret tt.

(** [await fetch(...)] then [await response.json()]: the request is
    logged, the backend answers and moves to its next state. *)
Definition fetch {T : Type} (r : Request)
    (endpoint : Srv -> FetchResult T * Srv) : M (FetchResult T) :=
  w <- get ;;
  let (res, srv') := endpoint (server w) in
  put {| store := store w;
         session_screen := session_screen w;
         home_screen := home_screen w;
         server := srv';
         http_log := http_log w ++ [r];
         nav_log := nav_log w;
         console := console w |} ;;
  ret res.

(** *** Store actions *)

(** [setCurrentSession: (session) => set({ currentSession: session })] *)
Definition setCurrentSession (session : option (Parsed Session.t)) : M unit :=
  with_store (fun s => {| currentSession := session;
                          userState := userState s;
                          lastQuestionnaire := lastQuestionnaire s;
                          overrideBucket := overrideBucket s |}).

(** [set({ userState: data })] *)
Definition setUserState (data : option (Parsed UserState.t)) : M unit :=
  with_store (fun s => {| currentSession := currentSession s;
                          userState := data;
                          lastQuestionnaire := lastQuestionnaire s;
                          overrideBucket := overrideBucket s |}).

(** [setLastQuestionnaire: (q) => set({ lastQuestionnaire: q })] *)
Definition setLastQuestionnaire (q : option QuestionnaireState.t) : M unit :=
  with_store (fun s => {| currentSession := currentSession s;
                          userState := userState s;
                          lastQuestionnaire := q;
                          overrideBucket := overrideBucket s |}).

(** [setOverrideBucket: (bucket) => set({ overrideBucket: bucket })] *)
Definition setOverrideBucket (bucket : option string) : M unit :=
  with_store (fun s => {| currentSession := currentSession s;
                          userState := userState s;
                          lastQuestionnaire := lastQuestionnaire s;
                          overrideBucket := bucket |}).

(** *** Session screen: discard *)

(** The buttons of the alert opened by [handleDiscard]. *)
Inductive DiscardChoice := KeepSession | Discard | Dismissed.

(** [handleDiscard]: 'Keep Session' has no [onPress]; 'Discard' runs
    [setCurrentSession(null); router.replace('/')]. *)
Definition handleDiscard (choice : DiscardChoice) : M unit :=
  match choice with
  | Discard =>
      setCurrentSession None ;;
      navigate (router_replace "/")
  | KeepSession | Dismissed => ret tt
  end.

(** *** JavaScript truthiness *)

(** [x || fallback] on an optional string: [undefined], [null] and the
    empty string are falsy. *)
Definition truthy_string (x : option string) : option string :=
  match x with
  | Some s => if String.eqb s EmptyString then None else Some s
  | None => None
  end.

Definition or_else (x : option string) (fallback : string) : string :=
  match truthy_string x with
  | Some s => s
  | None => fallback
  end.

(** [!x] on an optional boolean: [!undefined] is [true]. *)
Definition js_not (x : option bool) : bool :=
  match x with
  | Some b => negb b
  | None => true
  end.

(** [a === b] where [b] may be [undefined]. *)
Definition strict_eq (a : string) (b : option string) : bool :=
  match b with
  | Some s => String.eqb a s
  | None => false
  end.

(** *** Local state setters *)

Definition setLoading (b : bool) : M unit :=
  with_session_screen (fun s => {| ss_loading := b;
                                   swappingId := swappingId s;
                                   exercises := exercises s |}).

Definition setSwappingId (i : option string) : M unit :=
  with_session_screen (fun s => {| ss_loading := ss_loading s;
                                   swappingId := i;
                                   exercises := exercises s |}).

Definition setExercises (l : option (list (Parsed Exercise.t))) : M unit :=
  with_session_screen (fun s => {| ss_loading := ss_loading s;
                                   swappingId := swappingId s;
                                   exercises := l |}).

Definition setHomeLoading (b : bool) : M unit :=
  with_home_screen (fun h => {| hs_loading := b;
                                showCooldownModal := showCooldownModal h;
                                showFocusModal := showFocusModal h;
                                questionnaire := questionnaire h |}).

Definition setShowFocusModal (b : bool) : M unit :=
  with_home_screen (fun h => {| hs_loading := hs_loading h;
                                showCooldownModal := showCooldownModal h;
                                showFocusModal := b;
                                questionnaire := questionnaire h |}).

(** [session.exercises] as the screen holds it. *)
Definition session_exercises (session : Parsed Session.t)
    : option (list (Parsed Exercise.t)) :=
  option_map (map (@Shaped Exercise.t)) (field Session.exercises session).

(** [useState<Exercise[]>(currentSession?.exercises || [])] when the
    session screen mounts. *)
Definition mount_session_screen : M unit :=
  w <- get ;;
  with_session_screen (fun _ =>
    {| ss_loading := false;
       swappingId := None;
       exercises :=
         match currentSession (store w) with
         | Some session =>
             match session_exercises session with
             | Some l => Some l
             | None => Some []
             end
         | None => Some []
         end |}).

(** *** Store: state fetch and cooldown override toggle *)

(** [fetchUserState] *)
Definition fetchUserState : M unit :=
  res <- fetch GET_state (api_state backend) ;;
  match res with
  | Json _ data => setUserState (Some data)
  | NetworkError | NotJson _ => console_error "Error fetching user state:"
  end.

(** [JSON.stringify({ cooldown_override: newValue })] *)
Definition override_write (newValue : bool) : SettingsBody :=
  {| sb_week_mode := None;
     sb_power_frequency := None;
     sb_cooldown_override := Some newValue |}.

(** [const newValue = !userState.cooldown_override] *)
Definition toggle_body (us : Parsed UserState.t) : SettingsBody :=
  override_write (js_not (field UserState.cooldown_override us)).

(** [toggleCooldownOverride] *)
Definition toggleCooldownOverride : M unit :=
  w <- get ;;
  match userState (store w) with
  | None => ret tt
  | Some us =>
      let body := toggle_body us in
      res <- fetch (PUT_settings body) (api_settings backend body) ;;
      match res with
      | Json _ data => setUserState (Some data)
      | NetworkError | NotJson _ =>
          console_error "Error toggling cooldown override:"
      end
  end.

(** *** Session screen: reroll, swap, complete *)

(** [JSON.stringify(lastQuestionnaire)]: the questionnaire alone, no
    flag. *)
Definition reroll_body (q : QuestionnaireState.t) : RerollBody :=
  {| rb_questionnaire := q;
     rb_preserve_day_type := None;
     rb_preserve_priority_bucket := None |}.

(** [handleReroll] *)
Definition handleReroll : M unit :=
  w <- get ;;
  match lastQuestionnaire (store w) with
  | None => ret tt
  | Some q =>
      setLoading true ;;
      let body := reroll_body q in
      res <- fetch (POST_reroll body) (api_reroll backend body) ;;
      match res with
      | Json _ session =>
          setCurrentSession (Some session) ;;
          setExercises (session_exercises session)
      | NetworkError | NotJson _ =>
          console_error "Error rerolling session:"
      end ;;
      setLoading false
  end.

(** [exercises.map((ex) => ex.id === exerciseId ? newExercise : ex)] *)
Definition replace_by_id (exerciseId : string) (newExercise : Parsed Exercise.t)
    (l : list (Parsed Exercise.t)) : list (Parsed Exercise.t) :=
  map (fun ex => if strict_eq exerciseId (field Exercise.id ex)
                 then newExercise else ex) l.

(** The body of the swap request: the session's id and equipment, the
    exercise's id. *)
Definition swap_body (session : Parsed Session.t) (exerciseId : string) : SwapBody :=
  {| sw_session_id := field Session.id session;
     sw_exercise_id := exerciseId;
     sw_equipment := field Session.equipment session |}.

(** [handleSwap].  The handler exists only on a screen rendered with a
    session: without one the screen shows the empty state. *)
Definition handleSwap (exerciseId : string) : M unit :=
  w <- get ;;
  match currentSession (store w) with
  | None => ret tt
  | Some session =>
      setSwappingId (Some exerciseId) ;;
      let body := swap_body session exerciseId in
      res <- fetch (POST_swap body) (api_swap backend body) ;;
      match res with
      | Json _ newExercise =>
          match exercises (session_screen w) with
          | Some l => setExercises (Some (replace_by_id exerciseId newExercise l))
          | None => console_error "Error swapping exercise:"
          end
      | NetworkError | NotJson _ =>
          console_error "Error swapping exercise:"
      end ;;
      setSwappingId None
  end.

(** The body of the complete request. *)
Definition complete_body (session : Parsed Session.t) (feedback : Feedback)
    : CompleteBody :=
  {| cb_session_id := field Session.id session;
     cb_feedback := feedback |}.

(** [handleComplete].  The response is awaited but never parsed: only a
    rejected [fetch] reaches the [catch]. *)
Definition handleComplete (feedback : Feedback) : M unit :=
  w <- get ;;
  match currentSession (store w) with
  | None => ret tt
  | Some session =>
      setLoading true ;;
      let body := complete_body session feedback in
      res <- fetch (POST_complete body) (api_complete backend body) ;;
      match res with
      | NetworkError => console_error "Error completing session:"
      | NotJson _ | Json _ _ =>
          setCurrentSession None ;;
          setOverrideBucket None ;; (* Clear any manual focus override *)
          navigate (router_replace "/")
      end ;;
      setLoading false
  end.

(** The same handler run [n] times in a row, as by [n] taps. *)
Fixpoint times (n : nat) (h : M unit) : M unit :=
  match n with
  | O => ret tt
  | S k => h ;; times k h
  end.

(** The buttons of the alert opened by [confirmComplete]. *)
Inductive CompleteChoice := NotGood | Good | Cancel.

(** [confirmComplete] *)
Definition confirmComplete (choice : CompleteChoice) : M unit :=
  match choice with
  | NotGood => handleComplete not_good
  | Good => handleComplete good
  | Cancel => ret tt
  end.

(** *** Session screen: volume display *)

Record VolumeDisplay := {
  label : string;
  value : string
}.

(** [getVolumeDisplay]: helper to get the appropriate volume field based
    on prescription type. *)
Definition getVolumeDisplay (exercise : Exercise.t) : VolumeDisplay :=
  let prescriptionType := Exercise.prescription_type exercise in
  if String.eqb prescriptionType "ISOMETRIC_HOLD" then
    {| label := "Hold";
       value := or_else (Exercise.hold_time exercise) "10-20s" |}
  else if String.eqb prescriptionType "CARRY_TIME"
          || String.eqb prescriptionType "CRAWL_TIME" then
    {| label := "Time";
       value := or_else (Exercise.time exercise) "30-60s" |}
  else
    (* KB_STRENGTH, BW_DYNAMIC, POWER_SWING *)
    {| label := "Reps";
       value := or_else (Exercise.reps exercise) "5" |}.

(** *** Home screen *)

(** [const BUCKET_ORDER = ['squat', 'pull', 'hinge', 'push']] *)
Definition BUCKET_ORDER : list string := ["squat"; "pull"; "hinge"; "push"].

(** [isComplete] *)
Definition isComplete (q : QuestionnaireState.t) : bool :=
  match QuestionnaireState.feeling q, QuestionnaireState.sleep q,
        QuestionnaireState.pain q, QuestionnaireState.time_available q,
        QuestionnaireState.equipment q with
  | Some _, Some _, Some _, Some _, Some _ => true
  | _, _, _, _, _ => false
  end.

(** [const currentBucket = overrideBucket || userState?.next_priority_bucket || 'squat'] *)
Definition currentBucket (s : TrainingStore) : string :=
  match truthy_string (overrideBucket s) with
  | Some b => b
  | None => or_else (opt_field UserState.next_priority_bucket (userState s)) "squat"
  end.

(** [{ ...questionnaire, override_bucket: overrideBucket || undefined }] *)
Definition generate_payload (w : World) : GeneratePayload :=
  {| gp_questionnaire := questionnaire (home_screen w);
     gp_override_bucket := truthy_string (overrideBucket (store w)) |}.

(** [generateSession] *)
Definition generateSession : M unit :=
  w <- get ;;
  let q := questionnaire (home_screen w) in
  if negb (isComplete q) then ret tt
  else
    setHomeLoading true ;;
    let payload := generate_payload w in
    res <- fetch (POST_generate payload) (api_generate backend payload) ;;
    match res with
    | Json _ session =>
        setCurrentSession (Some session) ;;
        setLastQuestionnaire (Some q) ;;
        navigate (router_push "/session")
    | NetworkError | NotJson _ =>
        console_error "Error generating session:"
    end ;;
    setHomeLoading false.

(** [handleBucketSelect] *)
Definition handleBucketSelect (bucket : string) : M unit :=
  w <- get ;;
  (if strict_eq bucket (opt_field UserState.next_priority_bucket (userState (store w)))
   then setOverrideBucket None (* Reset to auto *)
   else setOverrideBucket (Some bucket)) ;;
  setShowFocusModal false.

(** The cooldown tag, the only way to the override toggle, is rendered
    when [(userState?.cooldown_counter || 0) > 0]. *)
Definition cooldown_tag_shown (s : TrainingStore) : bool :=
  match opt_field UserState.cooldown_counter (userState s) with
  | Some n => (0 <? n)%Z
  | None => false
  end.

End Client.

(** ** The volume-field invariant *)

Inductive VolumeField := vf_reps | vf_hold_time | vf_time.

(** The volume field a prescription type populates. *)
Definition volume_field_of (prescription_type : string) : option VolumeField :=
  if String.eqb prescription_type "KB_STRENGTH"
     || String.eqb prescription_type "BW_DYNAMIC"
     || String.eqb prescription_type "POWER_SWING" then Some vf_reps
  else if String.eqb prescription_type "ISOMETRIC_HOLD" then Some vf_hold_time
  else if String.eqb prescription_type "CARRY_TIME"
          || String.eqb prescription_type "CRAWL_TIME" then Some vf_time
  else None.

(** A field is populated when it is present and not the empty string. *)
Definition populated (x : option string) : bool :=
  match truthy_string x with Some _ => true | None => false end.

Definition absent (x : option string) : bool :=
  match x with Some _ => false | None => true end.

(** Exactly the field of the prescription type is populated, the other
    two are absent. *)
Definition volume_fields_ok (prescription_type : string)
    (reps hold_time time : option string) : bool :=
  match volume_field_of prescription_type with
  | Some vf_reps => populated reps && absent hold_time && absent time
  | Some vf_hold_time => absent reps && populated hold_time && absent time
  | Some vf_time => absent reps && absent hold_time && populated time
  | None => false
  end.

Definition protocol_volume_ok (p : ProtocolDef.t) : bool :=
  volume_fields_ok (ProtocolDef.prescription_type p) (ProtocolDef.reps p)
    (ProtocolDef.hold_time p) (ProtocolDef.time p).

Definition exercise_volume_ok (e : Exercise.t) : bool :=
  volume_fields_ok (Exercise.prescription_type e) (Exercise.reps e)
    (Exercise.hold_time e) (Exercise.time e).




(** ** The decision engine *)

Module Engine.

(** Modelled from the spec: the rotation buckets of section 3,
    [next_priority_bucket] in squat, pull, hinge, push.  The engine's source is
    missing. *)
Inductive Bucket := squat | pull | hinge | push.

(** Modelled from the spec: the name a bucket has on the wire, the names
    of [BUCKET_ORDER].  The engine's source is missing. *)
Definition bucket_str (b : Bucket) : string :=
  match b with
  | squat => "squat" | pull => "pull" | hinge => "hinge" | push => "push"
  end.

(** Modelled from the spec: reading a bucket name; any other string names
    no bucket.  The engine's source is missing. *)
Definition bucket_of_string (s : string) : option Bucket :=
  if String.eqb s "squat" then Some squat
  else if String.eqb s "pull" then Some pull
  else if String.eqb s "hinge" then Some hinge
  else if String.eqb s "push" then Some push
  else None.

(** Modelled from the spec: the persistent UserState of section 3, with
    the counter a natural number and the last power use a time in seconds.
    The engine's source is missing. *)
Record State := {
  next_priority_bucket : Bucket;
  week_mode : WeekMode;
  cooldown_counter : nat;
  cooldown_override : bool;
  power_last_used : option Z;
  last_hard_day : bool;
  power_frequency : PowerFrequency
}.

(** Modelled from the spec: the defaults a UserState is created with
    (section 3).  The engine's source is missing. *)
Definition default_state : State :=
  {| next_priority_bucket := squat;
     week_mode := WeekA;
     cooldown_counter := 0;
     cooldown_override := false;
     power_last_used := None;
     last_hard_day := false;
     power_frequency := fortnightly |}.

(** Modelled from the spec: the errors of section 7.  [NoProtocolError]
    stands for a selected exercise without any protocol of its
    prescription type, a case the spec leaves open.  The engine's source is
    missing. *)
Inductive Error :=
| ValidationError
| NoCandidateError
| NoAlternativeError
| NoProtocolError.

(** Modelled from the spec: the name under which an error of section 7
    is surfaced.  The engine's source is missing. *)
Definition error_detail (e : Error) : string :=
  match e with
  | ValidationError => "ValidationError"
  | NoCandidateError => "NoCandidateError"
  | NoAlternativeError => "NoAlternativeError"
  | NoProtocolError => "NoProtocolError"
  end.

(** Modelled from the spec: what the engine takes from outside (sections
    4.5, 4.6 and 5): a re-seedable randomness source, the slot-filling rule
    of the Exercise Selector, whose slot count and category order the spec
    does not fix, the load level derived from the user's benchmarks, and
    the printing of times and session ids.  The engine's source is
    missing. *)
Record Collaborators := {
  Rand : Type;
  draw : Rand -> nat * Rand;
  fill_slots :
    list ExerciseDef.t (* equipment-compatible candidates *) ->
    Bucket (* resolved priority bucket *) ->
    DayType -> TimeAvailable ->
    bool (* power allowed *) ->
    list string (* exercise ids to exclude *) ->
    Rand -> option (list ExerciseDef.t) * Rand;
  load_level_of : ExerciseDef.t -> string;
  stamp : Z -> string;
  session_id_of : nat -> string
}.

(** *** 4.1 Day-Type Classifier and 4.2 Cooldown Controller *)

(** Modelled from the spec: section 7, a questionnaire with a missing
    answer is a ValidationError.  The engine's source is missing. *)
Definition validate (q : QuestionnaireState.t) : option Questionnaire.t :=
  match QuestionnaireState.feeling q, QuestionnaireState.sleep q,
        QuestionnaireState.pain q, QuestionnaireState.time_available q,
        QuestionnaireState.equipment q with
  | Some f, Some s, Some p, Some t, Some e =>
      Some (Questionnaire.mk f s p t e)
  | _, _, _, _, _ => None
  end.

(** Modelled from the spec: section 4.1 rule 1, pain = present, or
    feeling = bad, or sleep = bad.  The engine's source is missing. *)
Definition real_trigger (q : Questionnaire.t) : bool :=
  match Questionnaire.pain q, Questionnaire.feeling q, Questionnaire.sleep q with
  | pain_present, _, _ => true
  | _, feeling_bad, _ => true
  | _, _, sleep_bad => true
  | _, _, _ => false
  end.

(** Modelled from the spec: section 4.2, a real trigger sets
    cooldown_counter := 2 and cooldown_override := false.  The engine's
    source is missing. *)
Definition real_cooldown_trigger (st : State) : State :=
  {| next_priority_bucket := next_priority_bucket st;
     week_mode := week_mode st;
     cooldown_counter := 2;
     cooldown_override := false;
     power_last_used := power_last_used st;
     last_hard_day := last_hard_day st;
     power_frequency := power_frequency st |}.

(** Modelled from the spec: section 4.1 rule 3, in its order: great and
    good is hard; great xor good is medium; ok is medium; the rest is
    easy.  The engine's source is missing. *)
Definition classify (f : Feeling) (s : Sleep) : DayType :=
  match f, s with
  | feeling_great, sleep_good => hard
  | feeling_great, sleep_bad => medium
  | feeling_ok, sleep_good => medium
  | feeling_bad, sleep_good => medium
  | feeling_ok, sleep_bad => medium
  | feeling_bad, sleep_bad => easy
  end.

(** Modelled from the spec: section 4.1, the three rules in priority
    order, first match wins; the result is the day type and the state the
    rule leaves.  The engine's source is missing. *)
Definition determine_day_type (q : Questionnaire.t) (st : State)
    : DayType * State :=
  if real_trigger q then (easy, real_cooldown_trigger st)
  else if (0 <? cooldown_counter st)%nat && negb (cooldown_override st)
  then (easy, st)
  else (classify (Questionnaire.feeling q) (Questionnaire.sleep q), st).

(** Modelled from the spec: section 4.2, a good completion with
    cooldown_counter > 0 takes one off the counter.  The engine's source
    is missing. *)
Definition cooldown_decrement (st : State) : State :=
  {| next_priority_bucket := next_priority_bucket st;
     week_mode := week_mode st;
     cooldown_counter := Nat.pred (cooldown_counter st);
     cooldown_override := cooldown_override st;
     power_last_used := power_last_used st;
     last_hard_day := last_hard_day st;
     power_frequency := power_frequency st |}.

(** *** 4.3 Priority-Bucket Rotator *)

(** Modelled from the spec: section 4.3, the fixed cycle squat, pull,
    hinge, push, squat.  The engine's source is missing. *)
Definition successor (b : Bucket) : Bucket :=
  match b with
  | squat => pull
  | pull => hinge
  | hinge => push
  | push => squat
  end.

(** Modelled from the spec: section 4.3, the resolved bucket is the
    override if present, else UserState.next_priority_bucket.  The engine's
    source is missing. *)
Definition resolve_bucket (override_bucket : option Bucket) (st : State) : Bucket :=
  match override_bucket with
  | Some b => b
  | None => next_priority_bucket st
  end.

(** *** 4.4 Power Gate *)

(** Modelled from the spec: section 4.4, the length of a week, in
    seconds.  The engine's source is missing. *)
Definition week_seconds : Z := 604800.

(** Modelled from the spec: section 4.4 and the design note on the
    period: a week-aligned window.  The engine's source is missing. *)
Definition period (t : Z) : Z := (t / week_seconds)%Z.

(** Modelled from the spec: section 4.4, never on easy days; otherwise
    weekly is always eligible and fortnightly is eligible when the last
    use is absent or in another period.  The engine's source is missing. *)
Definition power_allowed (day : DayType) (st : State) (now : Z) : bool :=
  match day with
  | easy => false
  | medium | hard =>
      match power_frequency st with
      | weekly => true
      | fortnightly =>
          match power_last_used st with
          | None => true
          | Some t => negb (period t =? period now)%Z
          end
      end
  end.

(** *** 4.5 Exercise Selector *)

(** Modelled from the spec: the immutable library of sections 3 and 6,
    exercises and protocols.  The engine's source is missing. *)
Record Library := {
  library_exercises : list ExerciseDef.t;
  library_protocols : list ProtocolDef.t
}.

(** Modelled from the spec: the generated Session of section 3, before it
    is printed for the client.  The engine's source is missing. *)
Record Session := {
  id : string;
  timestamp : Z;
  day_type : DayType;
  priority_bucket : Bucket;
  exercises : list Exercise.t;
  time_slot : TimeAvailable;
  equipment : Equipment;
  session_week_mode : WeekMode
}.

(** Modelled from the spec: the outcome of an engine operation, a value
    or one of the errors of section 7.  The engine's source is missing. *)
Inductive Result (A : Type) : Type :=
| Ok (a : A)
| Failed (e : Error).
Arguments Failed {A} e.

(** Modelled from the spec: section 4.5, an exercise is compatible when
    its equipment set contains the requested context.  The engine's source
    is missing. *)
Definition equipment_compatible (context : string) (d : ExerciseDef.t) : bool :=
  existsb (String.eqb context) (ExerciseDef.equipment d).

(** Modelled from the spec: section 4.5, the library filtered to the
    requested equipment context.  The engine's source is missing. *)
Definition compatible_exercises (lib : Library) (context : string)
    : list ExerciseDef.t :=
  filter (equipment_compatible context) (library_exercises lib).

Section WithCollaborators.

Variable C : Collaborators.

(** Modelled from the spec: sections 4.5 and 4.6, a uniform random choice
    among the candidates, as the element at a drawn index.  The engine's
    source is missing. *)
Definition choose {A : Type} (l : list A) (r : Rand C) : option A * Rand C :=
  let (n, r') := draw C r in
  (nth_error l (n mod length l), r').

(** *** 4.6 Protocol Assigner *)

(** Modelled from the spec: section 4.6, the protocols matching the
    exercise's prescription type.  The engine's source is missing. *)
Definition matching_protocols (protocols : list ProtocolDef.t) (d : ExerciseDef.t)
    : list ProtocolDef.t :=
  filter (fun p => String.eqb (ProtocolDef.prescription_type p)
                              (ExerciseDef.prescription_type d)) protocols.

(** Modelled from the spec: section 4.6, on easy days only the
    is_easy_day protocols, or the full matching set if none is marked.
    The engine's source is missing. *)
Definition protocol_candidates (protocols : list ProtocolDef.t)
    (d : ExerciseDef.t) (day : DayType) : list ProtocolDef.t :=
  let matching := matching_protocols protocols d in
  match day with
  | easy =>
      match filter ProtocolDef.is_easy_day matching with
      | [] => matching
      | easy_safe => easy_safe
      end
  | medium | hard => matching
  end.

(** Modelled from the spec: sections 3 and 4.6, the SessionExercise takes
    its identity from the exercise and sets, volume fields, rest, tempo
    and description verbatim from the protocol.  The engine's source is
    missing. *)
Definition session_exercise (d : ExerciseDef.t) (p : ProtocolDef.t)
    (note : option string) : Exercise.t :=
  {| Exercise.id := ExerciseDef.id d;
     Exercise.name := ExerciseDef.name d;
     Exercise.category := ExerciseDef.category d;
     Exercise.prescription_type := ExerciseDef.prescription_type d;
     Exercise.load_level := load_level_of C d;
     Exercise.protocol_id := ProtocolDef.id p;
     Exercise.protocol_name := ProtocolDef.name p;
     Exercise.protocol_description := ProtocolDef.description_short p;
     Exercise.sets := ProtocolDef.sets p;
     Exercise.reps := ProtocolDef.reps p;
     Exercise.hold_time := ProtocolDef.hold_time p;
     Exercise.time := ProtocolDef.time p;
     Exercise.rest := ProtocolDef.rest p;
     Exercise.tempo := ProtocolDef.tempo p;
     Exercise.notes := note |}.

(** Modelled from the spec: section 4.6, one protocol chosen uniformly
    among the candidates; no candidate is a failure.  The engine's source
    is missing. *)
Definition assign_protocol (protocols : list ProtocolDef.t) (day : DayType)
    (note : option string) (d : ExerciseDef.t) (r : Rand C)
    : option Exercise.t * Rand C :=
  let (p, r') := choose (protocol_candidates protocols d day) r in
  (option_map (fun p => session_exercise d p note) p, r').

(** Modelled from the spec: section 3, the note of a power exercise.  The
    engine's source is missing. *)
Definition power_note (d : ExerciseDef.t) : option string :=
  if ExerciseDef.is_power d then Some "power" else None.

(** Modelled from the spec: section 4.6 applied to every selected
    exercise in order.  The engine's source is missing. *)
Fixpoint assign_all (protocols : list ProtocolDef.t) (day : DayType)
    (defs : list ExerciseDef.t) (r : Rand C)
    : option (list Exercise.t) * Rand C :=
  match defs with
  | [] => (Some [], r)
  | d :: rest =>
      let (e, r1) := assign_protocol protocols day (power_note d) d r in
      let (es, r2) := assign_all protocols day rest r1 in
      (match e, es with
       | Some e, Some es => Some (e :: es)
       | _, _ => None
       end, r2)
  end.

(** Modelled from the spec: sections 4.5 and 4.6 for every slot: filter by
    equipment, fill the slots, assign the protocols.  The engine's source
    is missing. *)
Definition select_and_assign (lib : Library) (q : Questionnaire.t)
    (day : DayType) (bucket : Bucket) (power : bool) (excluded : list string)
    (r : Rand C) : Result (list Exercise.t) * Rand C :=
  let candidates :=
    compatible_exercises lib (equipment_str (Questionnaire.equipment q)) in
  let (defs, r1) :=
    fill_slots C candidates bucket day (Questionnaire.time_available q)
      power excluded r in
  match defs with
  | None => (Failed NoCandidateError, r1)
  | Some defs =>
      let (exs, r2) := assign_all (library_protocols lib) day defs r1 in
      match exs with
      | None => (Failed NoProtocolError, r2)
      | Some exs => (Ok exs, r2)
      end
  end.

(** *** 4.7 Session Assembler *)

(** Modelled from the spec: section 4.7, the session carries the day
    type, the resolved bucket, the questionnaire's time and equipment, the
    week mode and a fresh id and timestamp.  The engine's source is
    missing. *)
Definition assemble (serial : nat) (now : Z) (day : DayType) (bucket : Bucket)
    (exs : list Exercise.t) (q : Questionnaire.t) (st : State) : Session :=
  {| id := session_id_of C serial;
     timestamp := now;
     day_type := day;
     priority_bucket := bucket;
     exercises := exs;
     time_slot := Questionnaire.time_available q;
     equipment := Questionnaire.equipment q;
     session_week_mode := week_mode st |}.

(** *** Generate *)

(** Modelled from the spec: sections 2 and 6, Generate runs the
    classifier, the rotator, the power gate, the selector, the assigner and
    the assembler; by section 7 a failure leaves the state untouched.  The
    engine's source is missing. *)
Definition generate (lib : Library) (now : Z) (serial : nat)
    (q : QuestionnaireState.t) (override_bucket : option Bucket)
    (st : State) (r : Rand C) : Result Session * State * Rand C :=
  match validate q with
  | None => (Failed ValidationError, st, r)
  | Some q =>
      let (day, st') := determine_day_type q st in
      let bucket := resolve_bucket override_bucket st' in
      let power := power_allowed day st' now in
      let (exs, r') := select_and_assign lib q day bucket power [] r in
      match exs with
      | Failed e => (Failed e, st, r')
      | Ok exs => (Ok (assemble serial now day bucket exs q st'), st', r')
      end
  end.

(** *** 4.9 Reroll *)

(** Modelled from the spec: section 4.9, day type and bucket are
    recomputed only if the flag is false, otherwise taken from the session
    being rerolled; every slot is selected afresh, the exercises present
    excluded (section 4.5).  The engine's source is missing. *)
Definition reroll (lib : Library) (now : Z) (serial : nat)
    (q : QuestionnaireState.t) (override_bucket : option Bucket)
    (preserve_day_type preserve_priority_bucket : bool)
    (previous : option Session)
    (st : State) (r : Rand C) : Result Session * State * Rand C :=
  match validate q with
  | None => (Failed ValidationError, st, r)
  | Some q =>
      let (day, st') :=
        match preserve_day_type, previous with
        | true, Some s => (day_type s, st)
        | _, _ => determine_day_type q st
        end in
      let bucket :=
        match preserve_priority_bucket, previous with
        | true, Some s => priority_bucket s
        | _, _ => resolve_bucket override_bucket st'
        end in
      let power := power_allowed day st' now in
      let excluded :=
        match previous with
        | Some s => map Exercise.id (exercises s)
        | None => []
        end in
      let (exs, r') := select_and_assign lib q day bucket power excluded r in
      match exs with
      | Failed e => (Failed e, st, r')
      | Ok exs => (Ok (assemble serial now day bucket exs q st'), st', r')
      end
  end.

(** *** 4.8 Swap *)

(** Modelled from the spec: section 4.8, the other equipment-compatible
    exercises of the category of the exercise to replace.  The engine's
    source is missing. *)
Definition swap_candidates (lib : Library) (context : string)
    (current : Exercise.t) : list ExerciseDef.t :=
  filter (fun d => String.eqb (ExerciseDef.category d) (Exercise.category current)
                   && negb (String.eqb (ExerciseDef.id d) (Exercise.id current)))
         (compatible_exercises lib context).

(** Modelled from the spec: section 4.8, a replacement chosen among the
    candidates with its protocol; NoAlternativeError when there is none.
    The engine's source is missing. *)
Definition swap (lib : Library) (s : Session) (exercise_id : string)
    (context : string) (r : Rand C) : Result Exercise.t * Rand C :=
  match find (fun e => String.eqb (Exercise.id e) exercise_id) (exercises s) with
  | None => (Failed ValidationError, r)
  | Some current =>
      match swap_candidates lib context current with
      | [] => (Failed NoAlternativeError, r)
      | candidates =>
          let (d, r1) := choose candidates r in
          match d with
          | None => (Failed NoAlternativeError, r1)
          | Some d =>
              let (e, r2) :=
                assign_protocol (library_protocols lib) (day_type s)
                  (Some "swapped") d r1 in
              match e with
              | None => (Failed NoProtocolError, r2)
              | Some e => (Ok e, r2)
              end
          end
      end
  end.

End WithCollaborators.

(** *** 4.10 Completion *)

(** Modelled from the spec: section 4.10, the session included an
    exercise whose library entry is a power exercise.  The engine's source
    is missing. *)
Definition includes_power (lib : Library) (s : Session) : bool :=
  existsb (fun e =>
    existsb (fun d => String.eqb (ExerciseDef.id d) (Exercise.id e)
                      && ExerciseDef.is_power d)
            (library_exercises lib))
    (exercises s).

(** Modelled from the spec: section 4.10, the effects of a completion:
    cooldown trigger or decrement, the rotation advanced from the stored
    bucket, the power use recorded, last_hard_day set.  The engine's source
    is missing. *)
Definition apply_completion (lib : Library) (now : Z) (s : Session)
    (feedback : Feedback) (st : State) : State :=
  let cooled :=
    match feedback with
    | not_good => real_cooldown_trigger st
    | good => cooldown_decrement st
    end in
  {| next_priority_bucket := successor (next_priority_bucket st);
     week_mode := week_mode st;
     cooldown_counter := cooldown_counter cooled;
     cooldown_override := cooldown_override cooled;
     power_last_used :=
       if includes_power lib s then Some now else power_last_used st;
     last_hard_day := DayType_eqb (day_type s) hard;
     power_frequency := power_frequency st |}.

(** *** Settings *)

(** Modelled from the spec: section 6, UpdateSettings writes the fields
    the request carries and keeps the others.  The engine's source is
    missing. *)
Definition update_settings (body : SettingsBody) (st : State) : State :=
  {| next_priority_bucket := next_priority_bucket st;
     week_mode :=
       match sb_week_mode body with Some m => m | None => week_mode st end;
     cooldown_counter := cooldown_counter st;
     cooldown_override :=
       match sb_cooldown_override body with
       | Some b => b
       | None => cooldown_override st
       end;
     power_last_used := power_last_used st;
     last_hard_day := last_hard_day st;
     power_frequency :=
       match sb_power_frequency body with
       | Some f => f
       | None => power_frequency st
       end |}.

End Engine.

(** ** The engine behind the HTTP boundary *)

Module Server.

(** Modelled from the spec: the week mode of section 3 as the string the
    store's [Session] declares.  The server's source is missing. *)
Definition week_mode_str (m : WeekMode) : string :=
  match m with WeekA => "A" | WeekB => "B" end.

Section WithCollaborators.

Variable C : Engine.Collaborators.

(** Modelled from the spec: what the server holds (sections 3, 5 and 6):
    the one UserState, the sessions it has produced, newest first, the
    library, the randomness source and the time of the request being
    served.  The server's source is missing. *)
Record t := {
  state : Engine.State;
  sessions : list Engine.Session;
  library : Engine.Library;
  rand : Engine.Rand C;
  clock : Z;
  user_id : string
}.

(** Modelled from the spec: the Session of section 3 printed in the shape
    the store declares.  The server's source is missing. *)
Definition wire_session (s : Engine.Session) : Session.t :=
  {| Session.id := Engine.id s;
     Session.timestamp := Engine.stamp C (Engine.timestamp s);
     Session.day_type := Engine.day_type s;
     Session.priority_bucket := Engine.bucket_str (Engine.priority_bucket s);
     Session.exercises := Engine.exercises s;
     Session.time_slot := time_available_str (Engine.time_slot s);
     Session.equipment := equipment_str (Engine.equipment s);
     Session.week_mode := week_mode_str (Engine.session_week_mode s) |}.

(** Modelled from the spec: the UserState of section 3 printed in the
    shape the store declares.  The server's source is missing. *)
Definition wire_state (uid : string) (st : Engine.State) : UserState.t :=
  {| UserState.id := uid;
     UserState.next_priority_bucket :=
       Engine.bucket_str (Engine.next_priority_bucket st);
     UserState.week_mode := Engine.week_mode st;
     UserState.cooldown_counter := Z.of_nat (Engine.cooldown_counter st);
     UserState.cooldown_override := Engine.cooldown_override st;
     UserState.power_last_used :=
       option_map (Engine.stamp C) (Engine.power_last_used st);
     UserState.last_hard_day := Engine.last_hard_day st;
     UserState.power_frequency := Engine.power_frequency st |}.

(** Modelled from the spec: section 7, an error is surfaced to the caller;
    on the wire it is a response that is not ok with a body [{ detail }],
    the shape [admin.tsx] reads.  The server's source is missing. *)
Definition respond {A T : Type} (print : A -> T) (r : Engine.Result A)
    : FetchResult T :=
  match r with
  | Engine.Ok a => Json true (Shaped (print a))
  | Engine.Failed e => Json false (ErrorDetail (Engine.error_detail e))
  end.

(** Modelled from the spec: section 6, SaveState, the write of the one
    UserState.  The server's source is missing. *)
Definition with_state (st : Engine.State) (srv : t) : t :=
  {| state := st; sessions := sessions srv; library := library srv;
     rand := rand srv; clock := clock srv; user_id := user_id srv |}.

(** Modelled from the spec: the server after Generate or Reroll: the new
    state saved, a produced session kept for Swap, Reroll and Complete
    (sections 4.8 to 4.10).  The server's source is missing. *)
Definition after_session (out : Engine.Result Engine.Session * Engine.State * Engine.Rand C)
    (srv : t) : t :=
  let '(res, st, r) := out in
  {| state := st;
     sessions :=
       match res with
       | Engine.Ok s => s :: sessions srv
       | Engine.Failed _ => sessions srv
       end;
     library := library srv;
     rand := r;
     clock := clock srv;
     user_id := user_id srv |}.

(** Modelled from the spec: an override_bucket that names no bucket makes
    the request malformed (section 7).  The server's source is missing. *)
Definition read_override (x : option string) : option (option Engine.Bucket) :=
  match x with
  | None => Some None
  | Some s =>
      match Engine.bucket_of_string s with
      | Some b => Some (Some b)
      | None => None
      end
  end.

(** Modelled from the spec: section 6, GetState.  The server's source is
    missing. *)
Definition get_state (srv : t) : FetchResult UserState.t * t :=
  (Json true (Shaped (wire_state (user_id srv) (state srv))), srv).

(** Modelled from the spec: section 6, UpdateSettings.  The server's
    source is missing. *)
Definition put_settings (body : SettingsBody) (srv : t)
    : FetchResult UserState.t * t :=
  let st := Engine.update_settings body (state srv) in
  (Json true (Shaped (wire_state (user_id srv) st)), with_state st srv).

(** Modelled from the spec: section 6, Generate.  The server's source is
    missing. *)
Definition post_generate (body : GeneratePayload) (srv : t)
    : FetchResult Session.t * t :=
  match read_override (gp_override_bucket body) with
  | None => (respond wire_session (Engine.Failed Engine.ValidationError), srv)
  | Some override_bucket =>
      let out :=
        Engine.generate C (library srv) (clock srv) (length (sessions srv))
          (gp_questionnaire body) override_bucket (state srv) (rand srv) in
      (respond wire_session (fst (fst out)), after_session out srv)
  end.

(** Modelled from the spec: section 6, a preserve flag the request leaves
    out takes its default, true.  The server's source is missing. *)
Definition flag_default_true (x : option bool) : bool :=
  match x with Some b => b | None => true end.

(** Modelled from the spec: section 6, Reroll with both flags defaulting
    to true; the session being rerolled is the newest one produced.  The
    server's source is missing. *)
Definition post_reroll (body : RerollBody) (srv : t)
    : FetchResult Session.t * t :=
  let out :=
    Engine.reroll C (library srv) (clock srv) (length (sessions srv))
      (rb_questionnaire body) None
      (flag_default_true (rb_preserve_day_type body))
      (flag_default_true (rb_preserve_priority_bucket body))
      (hd_error (sessions srv)) (state srv) (rand srv) in
  (respond wire_session (fst (fst out)), after_session out srv).

(** Modelled from the spec: sections 4.8 and 4.10, the session a request
    names by id.  The server's source is missing. *)
Definition find_session (sid : option string) (srv : t) : option Engine.Session :=
  match sid with
  | Some i => find (fun s => String.eqb (Engine.id s) i) (sessions srv)
  | None => None
  end.

(** Modelled from the spec: section 6, Swap; state untouched.  The
    server's source is missing. *)
Definition post_swap (body : SwapBody) (srv : t) : FetchResult Exercise.t * t :=
  match find_session (sw_session_id body) srv, sw_equipment body with
  | Some s, Some context =>
      let (res, r) :=
        Engine.swap C (library srv) s (sw_exercise_id body) context (rand srv) in
      (respond (fun e => e) res,
       {| state := state srv; sessions := sessions srv; library := library srv;
          rand := r; clock := clock srv; user_id := user_id srv |})
  | _, _ => (respond (fun e => e) (Engine.Failed Engine.ValidationError), srv)
  end.

(** Modelled from the spec: section 6, Complete: the read-modify-write of
    section 4.10 on the one UserState.  The server's source is missing. *)
Definition post_complete (body : CompleteBody) (srv : t)
    : FetchResult UserState.t * t :=
  match find_session (cb_session_id body) srv with
  | Some s =>
      let st :=
        Engine.apply_completion (library srv) (clock srv) s
          (cb_feedback body) (state srv) in
      (Json true (Shaped (wire_state (user_id srv) st)), with_state st srv)
  | None =>
      (respond (wire_state (user_id srv)) (Engine.Failed Engine.ValidationError),
       srv)
  end.

(** Modelled from the spec: section 6, the boundary operations as the
    endpoints the client calls.  The server's source is missing. *)
Definition spec_backend : Backend t :=
  {| api_state := get_state;
     api_settings := put_settings;
     api_generate := post_generate;
     api_reroll := post_reroll;
     api_swap := post_swap;
     api_complete := post_complete |}.

End WithCollaborators.

End Server.

(** ** A small concrete installation

    A library of four exercises and four protocols, a counter as the
    randomness source and a slot rule that takes the first candidates:
    enough to run the handlers against the engine. *)

Module Sample.

Definition goblet_squat : ExerciseDef.t :=
  ExerciseDef.mk "goblet_squat" "Goblet Squat" "squat" ["home"; "minimal"]
    true true "KB_STRENGTH" false None.

Definition kb_swing : ExerciseDef.t :=
  ExerciseDef.mk "kb_swing" "Kettlebell Swing" "hinge" ["home"; "minimal"]
    true false "POWER_SWING" true None.

Definition plank : ExerciseDef.t :=
  ExerciseDef.mk "plank" "Plank" "push" ["home"; "minimal"; "bodyweight"]
    true false "ISOMETRIC_HOLD" false None.

Definition farmer_carry : ExerciseDef.t :=
  ExerciseDef.mk "farmer_carry" "Farmer Carry" "carry" ["home"; "minimal"]
    true false "CARRY_TIME" false None.

Definition five_by_five : ProtocolDef.t :=
  ProtocolDef.mk "p_5x5" "5x5" "KB_STRENGTH" "Five sets of five" None "5"
    (Some "5") None None "90s" None false.

Definition swing_sets : ProtocolDef.t :=
  ProtocolDef.mk "p_swing" "Swing sets" "POWER_SWING" "Ten crisp swings" None
    "5" (Some "10") None None "60s" None false.

Definition holds : ProtocolDef.t :=
  ProtocolDef.mk "p_hold" "Holds" "ISOMETRIC_HOLD" "Hold still" None "3" None
    (Some "20s") None "45s" None true.

Definition carries : ProtocolDef.t :=
  ProtocolDef.mk "p_carry" "Carries" "CARRY_TIME" "Walk tall" None "4" None
    None (Some "40s") "60s" None true.

Definition small_library : Engine.Library :=
  {| Engine.library_exercises := [goblet_squat; kb_swing; plank; farmer_carry];
     Engine.library_protocols := [five_by_five; swing_sets; holds; carries] |}.

(** The first three candidates not excluded; none is a failure. *)
Definition first_three (candidates : list ExerciseDef.t) (bucket : Engine.Bucket)
    (day : DayType) (t : TimeAvailable) (power : bool) (excluded : list string)
    (r : nat) : option (list ExerciseDef.t) * nat :=
  match filter (fun d => (power || negb (ExerciseDef.is_power d))
                         && negb (existsb (String.eqb (ExerciseDef.id d)) excluded))
               candidates with
  | [] => (None, r)
  | l => (Some (firstn 3 l), r)
  end.

Definition collaborators : Engine.Collaborators :=
  {| Engine.Rand := nat;
     Engine.draw := fun r => (r, S r);
     Engine.fill_slots := first_three;
     Engine.load_level_of := fun _ => "moderate";
     Engine.stamp := fun _ => "2026-01-05T07:00:00";
     Engine.session_id_of := fun n => String.concat EmptyString (repeat "s" (S n)) |}.

(** A fresh server: default UserState, no session yet. *)
Definition fresh_server : Server.t collaborators :=
  @Server.Build_t collaborators Engine.default_state [] small_library 0%nat 0%Z
    "default".

Definition no_answers : QuestionnaireState.t :=
  QuestionnaireState.mk None None None None None.

(** The world when the app starts. *)
Definition world (srv : Server.t collaborators) (q : QuestionnaireState.t)
    : World (Server.t collaborators) :=
  {| store := initial_store;
     session_screen :=
       {| ss_loading := false; swappingId := None; exercises := Some [] |};
     home_screen :=
       {| hs_loading := false; showCooldownModal := false;
          showFocusModal := false; questionnaire := q |};
     server := srv;
     http_log := [];
     nav_log := [];
     console := [] |}.

Definition great_day : QuestionnaireState.t :=
  QuestionnaireState.mk (Some feeling_great) (Some sleep_good) (Some pain_none)
    (Some t30_45) (Some minimal).

Definition sore_day : QuestionnaireState.t :=
  QuestionnaireState.mk (Some feeling_great) (Some sleep_good)
    (Some pain_present) (Some t30_45) (Some minimal).

Definition engine_backend : Backend (Server.t collaborators) :=
  Server.spec_backend collaborators.

End Sample.

(** ** Taps and traces

    What the user can do on the home and session screens, one action per
    button, and the run of a list of actions. *)

(** The option buttons of the five questions. *)
Inductive Answer :=
| AnswerFeeling (v : Feeling)
| AnswerSleep (v : Sleep)
| AnswerPain (v : Pain)
| AnswerTime (v : TimeAvailable)
| AnswerEquipment (v : Equipment).

(** [{ ...questionnaire, feeling: v }] and its four siblings. *)
Definition answered (a : Answer) (q : QuestionnaireState.t) : QuestionnaireState.t :=
  match a with
  | AnswerFeeling v =>
      QuestionnaireState.mk (Some v) (QuestionnaireState.sleep q)
        (QuestionnaireState.pain q) (QuestionnaireState.time_available q)
        (QuestionnaireState.equipment q)
  | AnswerSleep v =>
      QuestionnaireState.mk (QuestionnaireState.feeling q) (Some v)
        (QuestionnaireState.pain q) (QuestionnaireState.time_available q)
        (QuestionnaireState.equipment q)
  | AnswerPain v =>
      QuestionnaireState.mk (QuestionnaireState.feeling q)
        (QuestionnaireState.sleep q) (Some v)
        (QuestionnaireState.time_available q) (QuestionnaireState.equipment q)
  | AnswerTime v =>
      QuestionnaireState.mk (QuestionnaireState.feeling q)
        (QuestionnaireState.sleep q) (QuestionnaireState.pain q) (Some v)
        (QuestionnaireState.equipment q)
  | AnswerEquipment v =>
      QuestionnaireState.mk (QuestionnaireState.feeling q)
        (QuestionnaireState.sleep q) (QuestionnaireState.pain q)
        (QuestionnaireState.time_available q) (Some v)
  end.

(** [useState<QuestionnaireState>({ feeling: null, ... })] *)
Definition blank_questionnaire : QuestionnaireState.t :=
  QuestionnaireState.mk None None None None None.

(** The local state [HomeScreen] mounts with. *)
Definition fresh_home_screen : HomeScreen :=
  {| hs_loading := false; showCooldownModal := false;
     showFocusModal := false; questionnaire := blank_questionnaire |}.

(** The local state [SessionScreen] has before it mounts on a session. *)
Definition idle_session_screen : SessionScreen :=
  {| ss_loading := false; swappingId := None; exercises := Some [] |}.

Section ClientActions.

Variable Srv : Type.
Variable backend : Backend Srv.

(** The app as it starts: the store as created, nothing requested yet. *)
Definition boot (srv : Srv) : World Srv :=
  {| store := initial_store;
     session_screen := idle_session_screen;
     home_screen := fresh_home_screen;
     server := srv;
     http_log := [];
     nav_log := [];
     console := [] |}.

(** [setQuestionnaire(q)] *)
Definition setQuestionnaire (q : QuestionnaireState.t) : M Srv unit :=
  with_home_screen Srv (fun h => {| hs_loading := hs_loading h;
                                    showCooldownModal := showCooldownModal h;
                                    showFocusModal := showFocusModal h;
                                    questionnaire := q |}).

(** [(v) => setQuestionnaire({ ...questionnaire, feeling: v })] and its
    siblings, the [onSelect] of the option buttons. *)
Definition selectOption (a : Answer) : M Srv unit :=
  w <- get ;;
  setQuestionnaire (answered a (questionnaire (home_screen w))).

(** [HomeScreen] mounting: fresh local state, then the effect
    [fetchUserState()]. *)
Definition mount_home_screen : M Srv unit :=
  with_home_screen Srv (fun _ => fresh_home_screen) ;;
  fetchUserState backend.

(** [BUCKET_ORDER.map((bucket) => ... onPress={() => handleBucketSelect(bucket)})]:
    the [i]-th option of the focus modal; there is no button past the
    end of [BUCKET_ORDER]. *)
Definition tapFocusOption (i : nat) : M Srv unit :=
  match nth_error BUCKET_ORDER i with
  | Some bucket => handleBucketSelect Srv bucket
  | None => ret tt
  end.

(** The 'Reset to auto rotation' button, rendered when [overrideBucket]
    is truthy: [setOverrideBucket(null); setShowFocusModal(false)]. *)
Definition resetFocus : M Srv unit :=
  w <- get ;;
  match truthy_string (overrideBucket (store w)) with
  | Some _ => setOverrideBucket Srv None ;; setShowFocusModal Srv false
  | None => ret tt
  end.

(** One user action. *)
Inductive Action :=
| MountHome
| Select (a : Answer)
| TapGenerate
| TapFocusOption (i : nat)
| TapResetFocus
| TapToggleOverride
| MountSession
| TapReroll
| TapSwap (exerciseId : string)
| TapDone (choice : CompleteChoice)
| TapDiscard (choice : DiscardChoice).

Definition run_action (a : Action) : M Srv unit :=
  match a with
  | MountHome => mount_home_screen
  | Select v => selectOption v
  | TapGenerate => generateSession backend
  | TapFocusOption i => tapFocusOption i
  | TapResetFocus => resetFocus
  | TapToggleOverride => toggleCooldownOverride backend
  | MountSession => mount_session_screen Srv
  | TapReroll => handleReroll backend
  | TapSwap exerciseId => handleSwap backend exerciseId
  | TapDone choice => confirmComplete backend choice
  | TapDiscard choice => handleDiscard Srv choice
  end.

(** The actions of a trace, one after the other. *)
Fixpoint run_trace (t : list Action) : M Srv unit :=
  match t with
  | [] => ret tt
  | a :: rest => run_action a ;; run_trace rest
  end.

End ClientActions.

(** A request as the client's forms allow it: a questionnaire sent to
    Generate or Reroll has every answer; an override sent to Generate is
    one of [BUCKET_ORDER]; Reroll carries no flag; a settings write
    carries the override flag and nothing else. *)
Definition well_formed_request (r : Request) : bool :=
  match r with
  | GET_state => true
  | PUT_settings body =>
      match sb_week_mode body, sb_power_frequency body,
            sb_cooldown_override body with
      | None, None, Some _ => true
      | _, _, _ => false
      end
  | POST_generate body =>
      isComplete (gp_questionnaire body)
      && match gp_override_bucket body with
         | None => true
         | Some b => existsb (String.eqb b) BUCKET_ORDER
         end
  | POST_reroll body =>
      isComplete (rb_questionnaire body)
      && match rb_preserve_day_type body, rb_preserve_priority_bucket body with
         | None, None => true
         | _, _ => false
         end
  | POST_swap _ => true
  | POST_complete _ => true
  end.

(** What the store keeps between actions: a questionnaire kept for
    Reroll has every answer, and an override is one of [BUCKET_ORDER]. *)
Definition store_well_formed (s : TrainingStore) : bool :=
  match lastQuestionnaire s with
  | Some q => isComplete q
  | None => true
  end
  && match overrideBucket s with
     | Some b => existsb (String.eqb b) BUCKET_ORDER
     | None => true
     end.

Definition is_generate_request (r : Request) : bool :=
  match r with POST_generate _ => true | _ => false end.

(** No Reroll, Swap or Complete request comes before the first Generate
    request of the log. *)
Fixpoint generate_comes_first (l : list Request) : bool :=
  match l with
  | [] => true
  | POST_generate _ :: _ => true
  | POST_reroll _ :: _ | POST_swap _ :: _ | POST_complete _ :: _ => false
  | GET_state :: rest | PUT_settings _ :: rest => generate_comes_first rest
  end.

(** ** Backends that do not answer *)

(** No network: every [fetch] rejects. *)
Definition unreachable (Srv : Type) : Backend Srv :=
  {| api_state := fun srv => (NetworkError, srv);
     api_settings := fun _ srv => (NetworkError, srv);
     api_generate := fun _ srv => (NetworkError, srv);
     api_reroll := fun _ srv => (NetworkError, srv);
     api_swap := fun _ srv => (NetworkError, srv);
     api_complete := fun _ srv => (NetworkError, srv) |}.

(** A gateway answering every request with a 502 page that is no JSON. *)
Definition bad_gateway (Srv : Type) : Backend Srv :=
  {| api_state := fun srv => (NotJson false, srv);
     api_settings := fun _ srv => (NotJson false, srv);
     api_generate := fun _ srv => (NotJson false, srv);
     api_reroll := fun _ srv => (NotJson false, srv);
     api_swap := fun _ srv => (NotJson false, srv);
     api_complete := fun _ srv => (NotJson false, srv) |}.

(** ** The admin screen ([admin.tsx])

    The screen edits the library the engine selects from.  As for the
    other screens, one handler runs at a time, and a call that is not
    awaited ([fetchData()] after a save or a delete) runs where it is
    started.  The two requests of [Promise.all] reach the backend in the
    order they are issued. *)

Module Admin.

(** [const CATEGORIES], [const EQUIPMENT_OPTIONS] *)
Definition CATEGORIES : list string :=
  ["squat"; "hinge"; "push"; "pull"; "carry"; "crawl"].

Definition EQUIPMENT_OPTIONS : list string := ["home"; "minimal"; "bodyweight"].

(** [exerciseForm] *)
Module ExerciseForm.
Record t := mk {
  id : string;
  name : string;
  category : string;
  equipment : list string;
  bilateral : bool;
  is_anchor : bool;
  prescription_type : string;
  is_power : bool
}.
End ExerciseForm.

(** [protocolForm]: every field is a string or a boolean. *)
Module ProtocolForm.
Record t := mk {
  id : string;
  name : string;
  prescription_type : string;
  description_short : string;
  example : string;
  sets : string;
  reps : string;
  hold_time : string;
  time : string;
  rest : string;
  tempo : string;
  is_easy_day : bool
}.
End ProtocolForm.

(** The initial value of [exerciseForm], also set by
    [openExerciseModal()]. *)
Definition blank_exercise_form : ExerciseForm.t :=
  {| ExerciseForm.id := EmptyString;
     ExerciseForm.name := EmptyString;
     ExerciseForm.category := "squat";
     ExerciseForm.equipment := ["home"];
     ExerciseForm.bilateral := true;
     ExerciseForm.is_anchor := false;
     ExerciseForm.prescription_type := "KB_STRENGTH";
     ExerciseForm.is_power := false |}.

(** The initial value of [protocolForm], also set by
    [openProtocolModal()]. *)
Definition blank_protocol_form : ProtocolForm.t :=
  {| ProtocolForm.id := EmptyString;
     ProtocolForm.name := EmptyString;
     ProtocolForm.prescription_type := "KB_STRENGTH";
     ProtocolForm.description_short := EmptyString;
     ProtocolForm.example := EmptyString;
     ProtocolForm.sets := "3-5";
     ProtocolForm.reps := EmptyString;
     ProtocolForm.hold_time := EmptyString;
     ProtocolForm.time := EmptyString;
     ProtocolForm.rest := "60s";
     ProtocolForm.tempo := EmptyString;
     ProtocolForm.is_easy_day := false |}.

(** The form [openExerciseModal(exercise)] sets. *)
Definition exercise_form_of (exercise : ExerciseDef.t) : ExerciseForm.t :=
  {| ExerciseForm.id := ExerciseDef.id exercise;
     ExerciseForm.name := ExerciseDef.name exercise;
     ExerciseForm.category := ExerciseDef.category exercise;
     ExerciseForm.equipment := ExerciseDef.equipment exercise;
     ExerciseForm.bilateral := ExerciseDef.bilateral exercise;
     ExerciseForm.is_anchor := ExerciseDef.is_anchor exercise;
     ExerciseForm.prescription_type := ExerciseDef.prescription_type exercise;
     ExerciseForm.is_power := ExerciseDef.is_power exercise |}.

(** The form [openProtocolModal(protocol)] sets: [protocol.reps || '']
    and the like for the optional fields. *)
Definition protocol_form_of (protocol : ProtocolDef.t) : ProtocolForm.t :=
  {| ProtocolForm.id := ProtocolDef.id protocol;
     ProtocolForm.name := ProtocolDef.name protocol;
     ProtocolForm.prescription_type := ProtocolDef.prescription_type protocol;
     ProtocolForm.description_short := ProtocolDef.description_short protocol;
     ProtocolForm.example := or_else (ProtocolDef.example protocol) EmptyString;
     ProtocolForm.sets := ProtocolDef.sets protocol;
     ProtocolForm.reps := or_else (ProtocolDef.reps protocol) EmptyString;
     ProtocolForm.hold_time := or_else (ProtocolDef.hold_time protocol) EmptyString;
     ProtocolForm.time := or_else (ProtocolDef.time protocol) EmptyString;
     ProtocolForm.rest := ProtocolDef.rest protocol;
     ProtocolForm.tempo := or_else (ProtocolDef.tempo protocol) EmptyString;
     ProtocolForm.is_easy_day := ProtocolDef.is_easy_day protocol |}.

(** [JSON.stringify(protocolForm)] read with [interface Protocol]: every
    key of the form is present in the object sent. *)
Definition sent_protocol (form : ProtocolForm.t) : ProtocolDef.t :=
  {| ProtocolDef.id := ProtocolForm.id form;
     ProtocolDef.name := ProtocolForm.name form;
     ProtocolDef.prescription_type := ProtocolForm.prescription_type form;
     ProtocolDef.description_short := ProtocolForm.description_short form;
     ProtocolDef.example := Some (ProtocolForm.example form);
     ProtocolDef.sets := ProtocolForm.sets form;
     ProtocolDef.reps := Some (ProtocolForm.reps form);
     ProtocolDef.hold_time := Some (ProtocolForm.hold_time form);
     ProtocolDef.time := Some (ProtocolForm.time form);
     ProtocolDef.rest := ProtocolForm.rest form;
     ProtocolDef.tempo := Some (ProtocolForm.tempo form);
     ProtocolDef.is_easy_day := ProtocolForm.is_easy_day form |}.

(** *** Form edits *)

(** [array.includes(x)] on strings. *)
Definition includes (l : list string) (x : string) : bool :=
  existsb (String.eqb x) l.

Definition with_equipment (equipment : list string) (form : ExerciseForm.t)
    : ExerciseForm.t :=
  {| ExerciseForm.id := ExerciseForm.id form;
     ExerciseForm.name := ExerciseForm.name form;
     ExerciseForm.category := ExerciseForm.category form;
     ExerciseForm.equipment := equipment;
     ExerciseForm.bilateral := ExerciseForm.bilateral form;
     ExerciseForm.is_anchor := ExerciseForm.is_anchor form;
     ExerciseForm.prescription_type := ExerciseForm.prescription_type form;
     ExerciseForm.is_power := ExerciseForm.is_power form |}.

(** [toggleEquipment], as a function of [exerciseForm]: a chip that is
    on is switched off unless it is the only entry, a chip that is off is
    appended. *)
Definition toggle_equipment (equip : string) (form : ExerciseForm.t)
    : ExerciseForm.t :=
  if includes (ExerciseForm.equipment form) equip then
    if (1 <? length (ExerciseForm.equipment form))%nat then
      with_equipment
        (filter (fun e => negb (String.eqb e equip)) (ExerciseForm.equipment form))
        form
    else form
  else
    with_equipment (ExerciseForm.equipment form ++ [equip])%list form.

(** What the inputs of the exercise modal do.  A chip is named by its
    position in the list it is rendered from. *)
Inductive ExerciseEdit :=
| ExerciseId (v : string)
| ExerciseName (v : string)
| ExerciseCategory (i : nat)
| ExerciseEquipment (i : nat)
| ExercisePrescriptionType (i : nat)
| ExerciseBilateral (v : bool)
| ExerciseIsAnchor (v : bool)
| ExerciseIsPower (v : bool).

(** What the inputs of the protocol modal do. *)
Inductive ProtocolEdit :=
| ProtocolId (v : string)
| ProtocolName (v : string)
| ProtocolPrescriptionType (i : nat)
| ProtocolDescription (v : string)
| ProtocolExample (v : string)
| ProtocolSets (v : string)
| ProtocolRest (v : string)
| ProtocolReps (v : string)
| ProtocolTempo (v : string)
| ProtocolHoldTime (v : string)
| ProtocolTime (v : string)
| ProtocolIsEasyDay (v : bool).

Section Forms.

(** [v.toLowerCase().replace(/\s/g, '_')] of the id inputs. *)
Variable lower_snake : string -> string.

(** The [onChangeText], [onPress] and [onValueChange] of the exercise
    modal.  The id input is [editable={!editingExercise}]. *)
Definition edit_exercise (editing : bool) (a : ExerciseEdit)
    (form : ExerciseForm.t) : ExerciseForm.t :=
  match a with
  | ExerciseId v =>
      if editing then form
      else
        {| ExerciseForm.id := lower_snake v;
           ExerciseForm.name := ExerciseForm.name form;
           ExerciseForm.category := ExerciseForm.category form;
           ExerciseForm.equipment := ExerciseForm.equipment form;
           ExerciseForm.bilateral := ExerciseForm.bilateral form;
           ExerciseForm.is_anchor := ExerciseForm.is_anchor form;
           ExerciseForm.prescription_type := ExerciseForm.prescription_type form;
           ExerciseForm.is_power := ExerciseForm.is_power form |}
  | ExerciseName v =>
      {| ExerciseForm.id := ExerciseForm.id form;
         ExerciseForm.name := v;
         ExerciseForm.category := ExerciseForm.category form;
         ExerciseForm.equipment := ExerciseForm.equipment form;
         ExerciseForm.bilateral := ExerciseForm.bilateral form;
         ExerciseForm.is_anchor := ExerciseForm.is_anchor form;
         ExerciseForm.prescription_type := ExerciseForm.prescription_type form;
         ExerciseForm.is_power := ExerciseForm.is_power form |}
  | ExerciseCategory i =>
      match nth_error CATEGORIES i with
      | Some cat =>
          {| ExerciseForm.id := ExerciseForm.id form;
             ExerciseForm.name := ExerciseForm.name form;
             ExerciseForm.category := cat;
             ExerciseForm.equipment := ExerciseForm.equipment form;
             ExerciseForm.bilateral := ExerciseForm.bilateral form;
             ExerciseForm.is_anchor := ExerciseForm.is_anchor form;
             ExerciseForm.prescription_type := ExerciseForm.prescription_type form;
             ExerciseForm.is_power := ExerciseForm.is_power form |}
      | None => form
      end
  | ExerciseEquipment i =>
      match nth_error EQUIPMENT_OPTIONS i with
      | Some equip => toggle_equipment equip form
      | None => form
      end
  | ExercisePrescriptionType i =>
      match nth_error PRESCRIPTION_TYPES i with
      | Some type =>
          {| ExerciseForm.id := ExerciseForm.id form;
             ExerciseForm.name := ExerciseForm.name form;
             ExerciseForm.category := ExerciseForm.category form;
             ExerciseForm.equipment := ExerciseForm.equipment form;
             ExerciseForm.bilateral := ExerciseForm.bilateral form;
             ExerciseForm.is_anchor := ExerciseForm.is_anchor form;
             ExerciseForm.prescription_type := type;
             ExerciseForm.is_power := ExerciseForm.is_power form |}
      | None => form
      end
  | ExerciseBilateral v =>
      {| ExerciseForm.id := ExerciseForm.id form;
         ExerciseForm.name := ExerciseForm.name form;
         ExerciseForm.category := ExerciseForm.category form;
         ExerciseForm.equipment := ExerciseForm.equipment form;
         ExerciseForm.bilateral := v;
         ExerciseForm.is_anchor := ExerciseForm.is_anchor form;
         ExerciseForm.prescription_type := ExerciseForm.prescription_type form;
         ExerciseForm.is_power := ExerciseForm.is_power form |}
  | ExerciseIsAnchor v =>
      {| ExerciseForm.id := ExerciseForm.id form;
         ExerciseForm.name := ExerciseForm.name form;
         ExerciseForm.category := ExerciseForm.category form;
         ExerciseForm.equipment := ExerciseForm.equipment form;
         ExerciseForm.bilateral := ExerciseForm.bilateral form;
         ExerciseForm.is_anchor := v;
         ExerciseForm.prescription_type := ExerciseForm.prescription_type form;
         ExerciseForm.is_power := ExerciseForm.is_power form |}
  | ExerciseIsPower v =>
      {| ExerciseForm.id := ExerciseForm.id form;
         ExerciseForm.name := ExerciseForm.name form;
         ExerciseForm.category := ExerciseForm.category form;
         ExerciseForm.equipment := ExerciseForm.equipment form;
         ExerciseForm.bilateral := ExerciseForm.bilateral form;
         ExerciseForm.is_anchor := ExerciseForm.is_anchor form;
         ExerciseForm.prescription_type := ExerciseForm.prescription_type form;
         ExerciseForm.is_power := v |}
  end.

(** The [onChangeText], [onPress] and [onValueChange] of the protocol
    modal.  The id input is [editable={!editingProtocol}]. *)
Definition edit_protocol (editing : bool) (a : ProtocolEdit)
    (form : ProtocolForm.t) : ProtocolForm.t :=
  match a with
  | ProtocolId v =>
      if editing then form
      else
        {| ProtocolForm.id := lower_snake v;
           ProtocolForm.name := ProtocolForm.name form;
           ProtocolForm.prescription_type := ProtocolForm.prescription_type form;
           ProtocolForm.description_short := ProtocolForm.description_short form;
           ProtocolForm.example := ProtocolForm.example form;
           ProtocolForm.sets := ProtocolForm.sets form;
           ProtocolForm.reps := ProtocolForm.reps form;
           ProtocolForm.hold_time := ProtocolForm.hold_time form;
           ProtocolForm.time := ProtocolForm.time form;
           ProtocolForm.rest := ProtocolForm.rest form;
           ProtocolForm.tempo := ProtocolForm.tempo form;
           ProtocolForm.is_easy_day := ProtocolForm.is_easy_day form |}
  | ProtocolPrescriptionType i =>
      match nth_error PRESCRIPTION_TYPES i with
      | Some type =>
          {| ProtocolForm.id := ProtocolForm.id form;
             ProtocolForm.name := ProtocolForm.name form;
             ProtocolForm.prescription_type := type;
             ProtocolForm.description_short := ProtocolForm.description_short form;
             ProtocolForm.example := ProtocolForm.example form;
             ProtocolForm.sets := ProtocolForm.sets form;
             ProtocolForm.reps := ProtocolForm.reps form;
             ProtocolForm.hold_time := ProtocolForm.hold_time form;
             ProtocolForm.time := ProtocolForm.time form;
             ProtocolForm.rest := ProtocolForm.rest form;
             ProtocolForm.tempo := ProtocolForm.tempo form;
             ProtocolForm.is_easy_day := ProtocolForm.is_easy_day form |}
      | None => form
      end
  | ProtocolName v =>
      {| ProtocolForm.id := ProtocolForm.id form;
         ProtocolForm.name := v;
         ProtocolForm.prescription_type := ProtocolForm.prescription_type form;
         ProtocolForm.description_short := ProtocolForm.description_short form;
         ProtocolForm.example := ProtocolForm.example form;
         ProtocolForm.sets := ProtocolForm.sets form;
         ProtocolForm.reps := ProtocolForm.reps form;
         ProtocolForm.hold_time := ProtocolForm.hold_time form;
         ProtocolForm.time := ProtocolForm.time form;
         ProtocolForm.rest := ProtocolForm.rest form;
         ProtocolForm.tempo := ProtocolForm.tempo form;
         ProtocolForm.is_easy_day := ProtocolForm.is_easy_day form |}
  | ProtocolDescription v =>
      {| ProtocolForm.id := ProtocolForm.id form;
         ProtocolForm.name := ProtocolForm.name form;
         ProtocolForm.prescription_type := ProtocolForm.prescription_type form;
         ProtocolForm.description_short := v;
         ProtocolForm.example := ProtocolForm.example form;
         ProtocolForm.sets := ProtocolForm.sets form;
         ProtocolForm.reps := ProtocolForm.reps form;
         ProtocolForm.hold_time := ProtocolForm.hold_time form;
         ProtocolForm.time := ProtocolForm.time form;
         ProtocolForm.rest := ProtocolForm.rest form;
         ProtocolForm.tempo := ProtocolForm.tempo form;
         ProtocolForm.is_easy_day := ProtocolForm.is_easy_day form |}
  | ProtocolExample v =>
      {| ProtocolForm.id := ProtocolForm.id form;
         ProtocolForm.name := ProtocolForm.name form;
         ProtocolForm.prescription_type := ProtocolForm.prescription_type form;
         ProtocolForm.description_short := ProtocolForm.description_short form;
         ProtocolForm.example := v;
         ProtocolForm.sets := ProtocolForm.sets form;
         ProtocolForm.reps := ProtocolForm.reps form;
         ProtocolForm.hold_time := ProtocolForm.hold_time form;
         ProtocolForm.time := ProtocolForm.time form;
         ProtocolForm.rest := ProtocolForm.rest form;
         ProtocolForm.tempo := ProtocolForm.tempo form;
         ProtocolForm.is_easy_day := ProtocolForm.is_easy_day form |}
  | ProtocolSets v =>
      {| ProtocolForm.id := ProtocolForm.id form;
         ProtocolForm.name := ProtocolForm.name form;
         ProtocolForm.prescription_type := ProtocolForm.prescription_type form;
         ProtocolForm.description_short := ProtocolForm.description_short form;
         ProtocolForm.example := ProtocolForm.example form;
         ProtocolForm.sets := v;
         ProtocolForm.reps := ProtocolForm.reps form;
         ProtocolForm.hold_time := ProtocolForm.hold_time form;
         ProtocolForm.time := ProtocolForm.time form;
         ProtocolForm.rest := ProtocolForm.rest form;
         ProtocolForm.tempo := ProtocolForm.tempo form;
         ProtocolForm.is_easy_day := ProtocolForm.is_easy_day form |}
  | ProtocolRest v =>
      {| ProtocolForm.id := ProtocolForm.id form;
         ProtocolForm.name := ProtocolForm.name form;
         ProtocolForm.prescription_type := ProtocolForm.prescription_type form;
         ProtocolForm.description_short := ProtocolForm.description_short form;
         ProtocolForm.example := ProtocolForm.example form;
         ProtocolForm.sets := ProtocolForm.sets form;
         ProtocolForm.reps := ProtocolForm.reps form;
         ProtocolForm.hold_time := ProtocolForm.hold_time form;
         ProtocolForm.time := ProtocolForm.time form;
         ProtocolForm.rest := v;
         ProtocolForm.tempo := ProtocolForm.tempo form;
         ProtocolForm.is_easy_day := ProtocolForm.is_easy_day form |}
  | ProtocolReps v =>
      {| ProtocolForm.id := ProtocolForm.id form;
         ProtocolForm.name := ProtocolForm.name form;
         ProtocolForm.prescription_type := ProtocolForm.prescription_type form;
         ProtocolForm.description_short := ProtocolForm.description_short form;
         ProtocolForm.example := ProtocolForm.example form;
         ProtocolForm.sets := ProtocolForm.sets form;
         ProtocolForm.reps := v;
         ProtocolForm.hold_time := ProtocolForm.hold_time form;
         ProtocolForm.time := ProtocolForm.time form;
         ProtocolForm.rest := ProtocolForm.rest form;
         ProtocolForm.tempo := ProtocolForm.tempo form;
         ProtocolForm.is_easy_day := ProtocolForm.is_easy_day form |}
  | ProtocolTempo v =>
      {| ProtocolForm.id := ProtocolForm.id form;
         ProtocolForm.name := ProtocolForm.name form;
         ProtocolForm.prescription_type := ProtocolForm.prescription_type form;
         ProtocolForm.description_short := ProtocolForm.description_short form;
         ProtocolForm.example := ProtocolForm.example form;
         ProtocolForm.sets := ProtocolForm.sets form;
         ProtocolForm.reps := ProtocolForm.reps form;
         ProtocolForm.hold_time := ProtocolForm.hold_time form;
         ProtocolForm.time := ProtocolForm.time form;
         ProtocolForm.rest := ProtocolForm.rest form;
         ProtocolForm.tempo := v;
         ProtocolForm.is_easy_day := ProtocolForm.is_easy_day form |}
  | ProtocolHoldTime v =>
      {| ProtocolForm.id := ProtocolForm.id form;
         ProtocolForm.name := ProtocolForm.name form;
         ProtocolForm.prescription_type := ProtocolForm.prescription_type form;
         ProtocolForm.description_short := ProtocolForm.description_short form;
         ProtocolForm.example := ProtocolForm.example form;
         ProtocolForm.sets := ProtocolForm.sets form;
         ProtocolForm.reps := ProtocolForm.reps form;
         ProtocolForm.hold_time := v;
         ProtocolForm.time := ProtocolForm.time form;
         ProtocolForm.rest := ProtocolForm.rest form;
         ProtocolForm.tempo := ProtocolForm.tempo form;
         ProtocolForm.is_easy_day := ProtocolForm.is_easy_day form |}
  | ProtocolTime v =>
      {| ProtocolForm.id := ProtocolForm.id form;
         ProtocolForm.name := ProtocolForm.name form;
         ProtocolForm.prescription_type := ProtocolForm.prescription_type form;
         ProtocolForm.description_short := ProtocolForm.description_short form;
         ProtocolForm.example := ProtocolForm.example form;
         ProtocolForm.sets := ProtocolForm.sets form;
         ProtocolForm.reps := ProtocolForm.reps form;
         ProtocolForm.hold_time := ProtocolForm.hold_time form;
         ProtocolForm.time := v;
         ProtocolForm.rest := ProtocolForm.rest form;
         ProtocolForm.tempo := ProtocolForm.tempo form;
         ProtocolForm.is_easy_day := ProtocolForm.is_easy_day form |}
  | ProtocolIsEasyDay v =>
      {| ProtocolForm.id := ProtocolForm.id form;
         ProtocolForm.name := ProtocolForm.name form;
         ProtocolForm.prescription_type := ProtocolForm.prescription_type form;
         ProtocolForm.description_short := ProtocolForm.description_short form;
         ProtocolForm.example := ProtocolForm.example form;
         ProtocolForm.sets := ProtocolForm.sets form;
         ProtocolForm.reps := ProtocolForm.reps form;
         ProtocolForm.hold_time := ProtocolForm.hold_time form;
         ProtocolForm.time := ProtocolForm.time form;
         ProtocolForm.rest := ProtocolForm.rest form;
         ProtocolForm.tempo := ProtocolForm.tempo form;
         ProtocolForm.is_easy_day := v |}
  end.

End Forms.
(** *** The screen *)

Inductive Tab := exercises_tab | protocols_tab.

(** The [useState] cells of [AdminScreen]. *)
Record Screen := {
  isLoggedIn : bool;
  token : option string;
  password : string;
  loading : bool;
  activeTab : Tab;
  exercises : Parsed (list ExerciseDef.t);
  protocols : Parsed (list ProtocolDef.t);
  showExerciseModal : bool;
  showProtocolModal : bool;
  editingExercise : option ExerciseDef.t;
  editingProtocol : option ProtocolDef.t;
  exerciseForm : ExerciseForm.t;
  protocolForm : ProtocolForm.t
}.

Definition set_isLoggedIn (v : bool) (s : Screen) : Screen :=
  {| isLoggedIn := v; token := token s; password := password s;
     loading := loading s; activeTab := activeTab s;
     exercises := exercises s; protocols := protocols s;
     showExerciseModal := showExerciseModal s;
     showProtocolModal := showProtocolModal s;
     editingExercise := editingExercise s;
     editingProtocol := editingProtocol s; exerciseForm := exerciseForm s;
     protocolForm := protocolForm s |}.

Definition set_token (v : option string) (s : Screen) : Screen :=
  {| isLoggedIn := isLoggedIn s; token := v; password := password s;
     loading := loading s; activeTab := activeTab s;
     exercises := exercises s; protocols := protocols s;
     showExerciseModal := showExerciseModal s;
     showProtocolModal := showProtocolModal s;
     editingExercise := editingExercise s;
     editingProtocol := editingProtocol s; exerciseForm := exerciseForm s;
     protocolForm := protocolForm s |}.

Definition set_password (v : string) (s : Screen) : Screen :=
  {| isLoggedIn := isLoggedIn s; token := token s; password := v;
     loading := loading s; activeTab := activeTab s;
     exercises := exercises s; protocols := protocols s;
     showExerciseModal := showExerciseModal s;
     showProtocolModal := showProtocolModal s;
     editingExercise := editingExercise s;
     editingProtocol := editingProtocol s; exerciseForm := exerciseForm s;
     protocolForm := protocolForm s |}.

Definition set_loading (v : bool) (s : Screen) : Screen :=
  {| isLoggedIn := isLoggedIn s; token := token s; password := password s;
     loading := v; activeTab := activeTab s; exercises := exercises s;
     protocols := protocols s; showExerciseModal := showExerciseModal s;
     showProtocolModal := showProtocolModal s;
     editingExercise := editingExercise s;
     editingProtocol := editingProtocol s; exerciseForm := exerciseForm s;
     protocolForm := protocolForm s |}.

Definition set_activeTab (v : Tab) (s : Screen) : Screen :=
  {| isLoggedIn := isLoggedIn s; token := token s; password := password s;
     loading := loading s; activeTab := v; exercises := exercises s;
     protocols := protocols s; showExerciseModal := showExerciseModal s;
     showProtocolModal := showProtocolModal s;
     editingExercise := editingExercise s;
     editingProtocol := editingProtocol s; exerciseForm := exerciseForm s;
     protocolForm := protocolForm s |}.

Definition set_exercises (v : Parsed (list ExerciseDef.t)) (s : Screen) : Screen :=
  {| isLoggedIn := isLoggedIn s; token := token s; password := password s;
     loading := loading s; activeTab := activeTab s; exercises := v;
     protocols := protocols s; showExerciseModal := showExerciseModal s;
     showProtocolModal := showProtocolModal s;
     editingExercise := editingExercise s;
     editingProtocol := editingProtocol s; exerciseForm := exerciseForm s;
     protocolForm := protocolForm s |}.

Definition set_protocols (v : Parsed (list ProtocolDef.t)) (s : Screen) : Screen :=
  {| isLoggedIn := isLoggedIn s; token := token s; password := password s;
     loading := loading s; activeTab := activeTab s;
     exercises := exercises s; protocols := v;
     showExerciseModal := showExerciseModal s;
     showProtocolModal := showProtocolModal s;
     editingExercise := editingExercise s;
     editingProtocol := editingProtocol s; exerciseForm := exerciseForm s;
     protocolForm := protocolForm s |}.

Definition set_showExerciseModal (v : bool) (s : Screen) : Screen :=
  {| isLoggedIn := isLoggedIn s; token := token s; password := password s;
     loading := loading s; activeTab := activeTab s;
     exercises := exercises s; protocols := protocols s;
     showExerciseModal := v; showProtocolModal := showProtocolModal s;
     editingExercise := editingExercise s;
     editingProtocol := editingProtocol s; exerciseForm := exerciseForm s;
     protocolForm := protocolForm s |}.

Definition set_showProtocolModal (v : bool) (s : Screen) : Screen :=
  {| isLoggedIn := isLoggedIn s; token := token s; password := password s;
     loading := loading s; activeTab := activeTab s;
     exercises := exercises s; protocols := protocols s;
     showExerciseModal := showExerciseModal s; showProtocolModal := v;
     editingExercise := editingExercise s;
     editingProtocol := editingProtocol s; exerciseForm := exerciseForm s;
     protocolForm := protocolForm s |}.

Definition set_editingExercise (v : option ExerciseDef.t) (s : Screen) : Screen :=
  {| isLoggedIn := isLoggedIn s; token := token s; password := password s;
     loading := loading s; activeTab := activeTab s;
     exercises := exercises s; protocols := protocols s;
     showExerciseModal := showExerciseModal s;
     showProtocolModal := showProtocolModal s; editingExercise := v;
     editingProtocol := editingProtocol s; exerciseForm := exerciseForm s;
     protocolForm := protocolForm s |}.

Definition set_editingProtocol (v : option ProtocolDef.t) (s : Screen) : Screen :=
  {| isLoggedIn := isLoggedIn s; token := token s; password := password s;
     loading := loading s; activeTab := activeTab s;
     exercises := exercises s; protocols := protocols s;
     showExerciseModal := showExerciseModal s;
     showProtocolModal := showProtocolModal s;
     editingExercise := editingExercise s; editingProtocol := v;
     exerciseForm := exerciseForm s; protocolForm := protocolForm s |}.

Definition set_exerciseForm (v : ExerciseForm.t) (s : Screen) : Screen :=
  {| isLoggedIn := isLoggedIn s; token := token s; password := password s;
     loading := loading s; activeTab := activeTab s;
     exercises := exercises s; protocols := protocols s;
     showExerciseModal := showExerciseModal s;
     showProtocolModal := showProtocolModal s;
     editingExercise := editingExercise s;
     editingProtocol := editingProtocol s; exerciseForm := v;
     protocolForm := protocolForm s |}.

Definition set_protocolForm (v : ProtocolForm.t) (s : Screen) : Screen :=
  {| isLoggedIn := isLoggedIn s; token := token s; password := password s;
     loading := loading s; activeTab := activeTab s;
     exercises := exercises s; protocols := protocols s;
     showExerciseModal := showExerciseModal s;
     showProtocolModal := showProtocolModal s;
     editingExercise := editingExercise s;
     editingProtocol := editingProtocol s; exerciseForm := exerciseForm s;
     protocolForm := v |}.
Definition initial_screen : Screen :=
  {| isLoggedIn := false;
     token := None;
     password := EmptyString;
     loading := true;
     activeTab := exercises_tab;
     exercises := Shaped [];
     protocols := Shaped [];
     showExerciseModal := false;
     showProtocolModal := false;
     editingExercise := None;
     editingProtocol := None;
     exerciseForm := blank_exercise_form;
     protocolForm := blank_protocol_form |}.

(** *** Requests, backend and device storage *)

(** The requests of the screen.  [token] is the [X-Admin-Token] header,
    [id] the last segment of the path. *)
Inductive Request :=
| GET_verify (token : string)
| POST_login (password : string)
| GET_exercises
| GET_protocols
| POST_exercise (token : string) (body : ExerciseForm.t)
| PUT_exercise (id : string) (token : string) (body : ExerciseForm.t)
| DELETE_exercise (id : string) (token : string)
| POST_protocol (token : string) (body : ProtocolForm.t)
| PUT_protocol (id : string) (token : string) (body : ProtocolForm.t)
| DELETE_protocol (id : string) (token : string).

(** The body of the login response, of which [data.token] is read. *)
Record LoginData := { login_token : option string }.

Record Backend (Srv : Type) := {
  api_verify : string -> Srv -> FetchResult unit * Srv;
  api_login : string -> Srv -> FetchResult LoginData * Srv;
  api_exercises : Srv -> FetchResult (list ExerciseDef.t) * Srv;
  api_protocols : Srv -> FetchResult (list ProtocolDef.t) * Srv;
  api_create_exercise : string -> ExerciseForm.t -> Srv -> FetchResult unit * Srv;
  api_update_exercise :
    string -> string -> ExerciseForm.t -> Srv -> FetchResult unit * Srv;
  api_delete_exercise : string -> string -> Srv -> FetchResult unit * Srv;
  api_create_protocol : string -> ProtocolForm.t -> Srv -> FetchResult unit * Srv;
  api_update_protocol :
    string -> string -> ProtocolForm.t -> Srv -> FetchResult unit * Srv;
  api_delete_protocol : string -> string -> Srv -> FetchResult unit * Srv
}.

(** [response.ok] once [fetch] has resolved; nothing if it rejects. *)
Definition response_ok {T : Type} (r : FetchResult T) : option bool :=
  match r with
  | NetworkError => None
  | NotJson ok => Some ok
  | Json ok _ => Some ok
  end.

(** [error.detail] of a parsed body. *)
Definition detail_of {T : Type} (p : Parsed T) : option string :=
  match p with
  | Shaped _ => None
  | ErrorDetail detail => Some detail
  end.

(** [data.token] of a parsed login body. *)
Definition data_token (data : Parsed LoginData) : option string :=
  match data with
  | Shaped d => login_token d
  | ErrorDetail _ => None
  end.

Inductive StorageCall :=
| GetItem (key : string)
| SetItem (key : string) (value : option string)
| RemoveItem (key : string).

(** [AsyncStorage], whose implementation is a library: [getItem]
    resolves with a string or [null], or rejects ([None]); [setItem] and
    [removeItem] resolve ([true]) or reject ([false]). *)
Record AsyncStorage (Dev : Type) := {
  storage_getItem : string -> Dev -> option (option string) * Dev;
  storage_setItem : string -> option string -> Dev -> bool * Dev;
  storage_removeItem : string -> Dev -> bool * Dev
}.

(** *** The lists of the dashboard *)

(** One [View] of [CATEGORIES.map(...)]: [null] for a category without
    exercises. *)
Definition exercise_section (exercises : list ExerciseDef.t) (category : string)
    : option (string * list ExerciseDef.t) :=
  let categoryExercises :=
    filter (fun e => String.eqb (ExerciseDef.category e) category) exercises in
  if (length categoryExercises =? 0)%nat then None
  else Some (category, categoryExercises).

(** One [View] of [PRESCRIPTION_TYPES.map(...)]. *)
Definition protocol_section (protocols : list ProtocolDef.t) (type : string)
    : option (string * list ProtocolDef.t) :=
  let typeProtocols :=
    filter (fun p => String.eqb (ProtocolDef.prescription_type p) type) protocols in
  if (length typeProtocols =? 0)%nat then None
  else Some (type, typeProtocols).

(** The cards of a list of sections, top to bottom. *)
Fixpoint cards {T : Type} (sections : list (option (string * list T))) : list T :=
  match sections with
  | [] => []
  | None :: rest => cards rest
  | Some (_, items) :: rest => (items ++ cards rest)%list
  end.

Definition exercise_cards (exercises : list ExerciseDef.t) : list ExerciseDef.t :=
  cards (map (exercise_section exercises) CATEGORIES).

Definition protocol_cards (protocols : list ProtocolDef.t) : list ProtocolDef.t :=
  cards (map (protocol_section protocols) PRESCRIPTION_TYPES).

Inductive Card :=
| ExerciseCard (exercise : ExerciseDef.t)
| ProtocolCard (protocol : ProtocolDef.t).

(** The cards of the dashboard's [ScrollView] for the active tab.  The
    lists are what [response.json()] gave: on an object that is no array
    [exercises.filter] is not a function and the render throws
    ([None]). *)
Definition dashboard_cards (s : Screen) : option (list Card) :=
  match activeTab s with
  | exercises_tab =>
      match exercises s with
      | Shaped l => Some (map ExerciseCard (exercise_cards l))
      | ErrorDetail _ => None
      end
  | protocols_tab =>
      match protocols s with
      | Shaped l => Some (map ProtocolCard (protocol_cards l))
      | ErrorDetail _ => None
      end
  end.

(** [Exercises ({exercises.length})] of the tab: [undefined] on an object
    that is no array. *)
Definition exercises_count (s : Screen) : option nat :=
  match exercises s with
  | Shaped l => Some (length l)
  | ErrorDetail _ => None
  end.

(** *** What a form built in the modal satisfies *)

Definition exercise_form_ok (form : ExerciseForm.t) : Prop :=
  In (ExerciseForm.category form) CATEGORIES
  /\ In (ExerciseForm.prescription_type form) PRESCRIPTION_TYPES
  /\ ExerciseForm.equipment form <> []
  /\ NoDup (ExerciseForm.equipment form)
  /\ incl (ExerciseForm.equipment form) EQUIPMENT_OPTIONS.

(** *** Handlers *)

(** The buttons of the alert opened by [deleteExercise] and
    [deleteProtocol]. *)
Inductive DeleteChoice := CancelDelete | Delete | DismissedDelete.

Section Handlers.

Variable Srv : Type.
Variable Dev : Type.
Variable backend : Backend Srv.
Variable storage : AsyncStorage Dev.
Variable lower_snake : string -> string.

(** Everything a handler of the screen can read or change. *)
Record World := {
  screen : Screen;
  server : Srv;
  device : Dev;
  http_log : list Request;          (* requests issued, oldest first *)
  storage_log : list StorageCall;   (* calls of AsyncStorage, oldest first *)
  alerts : list (string * string);  (* Alert.alert(title, message) *)
  console : list string
}.

Definition M := state World.

Definition with_screen (f : Screen -> Screen) : M unit :=
  modify (fun w => {| screen := f (screen w);
                      server := server w;
                      device := device w;
                      http_log := http_log w;
                      storage_log := storage_log w;
                      alerts := alerts w;
                      console := console w |}) ;; ret tt.

Definition alert (title message : string) : M unit :=
  modify (fun w => {| screen := screen w;
                      server := server w;
                      device := device w;
                      http_log := http_log w;
                      storage_log := storage_log w;
                      alerts := alerts w ++ [(title, message)];
                      console := console w |}) ;; ret tt.

Definition console_error (msg : string) : M unit :=
  modify (fun w => {| screen := screen w;
                      server := server w;
                      device := device w;
                      http_log := http_log w;
                      storage_log := storage_log w;
                      alerts := alerts w;
                      console := console w ++ [msg] |}) ;; ret tt.

(** [await fetch(...)]: the request is logged, the backend answers and
    moves to its next state. *)
Definition fetch {T : Type} (r : Request)
    (endpoint : Srv -> FetchResult T * Srv) : M (FetchResult T) :=
  w <- get ;;
  let (res, srv') := endpoint (server w) in
  put {| screen := screen w;
         server := srv';
         device := device w;
         http_log := http_log w ++ [r];
         storage_log := storage_log w;
         alerts := alerts w;
         console := console w |} ;;
  ret res.

(** A call of [AsyncStorage]: logged, answered by the device. *)
Definition storage_call {A : Type} (c : StorageCall) (op : Dev -> A * Dev) : M A :=
  w <- get ;;
  let (res, dev') := op (device w) in
  put {| screen := screen w;
         server := server w;
         device := dev';
         http_log := http_log w;
         storage_log := storage_log w ++ [c];
         alerts := alerts w;
         console := console w |} ;;
  ret res.

Definition getItem (key : string) : M (option (option string)) :=
  storage_call (GetItem key) (storage_getItem storage key).

Definition setItem (key : string) (value : option string) : M bool :=
  storage_call (SetItem key value) (storage_setItem storage key value).

Definition removeItem (key : string) : M bool :=
  storage_call (RemoveItem key) (storage_removeItem storage key).

(** [fetchData]: both requests are started before either is awaited; the
    bodies are stored as parsed, [response.ok] is not read. *)
Definition fetchData : M unit :=
  exercisesRes <- fetch GET_exercises (api_exercises backend) ;;
  protocolsRes <- fetch GET_protocols (api_protocols backend) ;;
  match exercisesRes, protocolsRes with
  | NetworkError, _ | _, NetworkError => console_error "Fetch failed:"
  | NotJson _, _ => console_error "Fetch failed:"
  | Json _ exercisesBody, NotJson _ =>
      with_screen (set_exercises exercisesBody) ;;
      console_error "Fetch failed:"
  | Json _ exercisesBody, Json _ protocolsBody =>
      with_screen (set_exercises exercisesBody) ;;
      with_screen (set_protocols protocolsBody)
  end.

(** [useEffect(() => { if (isLoggedIn && token) fetchData(); },
    [isLoggedIn, token])], run after a handler [h] has changed one of the
    two cells. *)
Definition login_effect : M unit :=
  w <- get ;;
  match isLoggedIn (screen w), truthy_string (token (screen w)) with
  | true, Some _ => fetchData
  | _, _ => ret tt
  end.

Definition option_string_eqb (a b : option string) : bool :=
  match a, b with
  | Some x, Some y => String.eqb x y
  | None, None => true
  | _, _ => false
  end.

Definition rendered (h : M unit) : M unit :=
  before <- get ;;
  h ;;
  after <- get ;;
  if Bool.eqb (isLoggedIn (screen before)) (isLoggedIn (screen after))
     && option_string_eqb (token (screen before)) (token (screen after))
  then ret tt
  else login_effect.

(** [checkAuth] *)
Definition checkAuth : M unit :=
  saved <- getItem "admin_token" ;;
  match saved with
  | None => console_error "Auth check failed:"
  | Some savedToken =>
      match truthy_string savedToken with
      | None => ret tt
      | Some tok =>
          response <- fetch (GET_verify tok) (api_verify backend tok) ;;
          match response_ok response with
          | None => console_error "Auth check failed:"
          | Some true =>
              with_screen (set_token (Some tok)) ;;
              with_screen (set_isLoggedIn true)
          | Some false =>
              removed <- removeItem "admin_token" ;;
              if removed : bool then ret tt
              else console_error "Auth check failed:"
          end
      end
  end ;;
  with_screen (set_loading false).

(** [handleLogin] *)
Definition handleLogin : M unit :=
  w <- get ;;
  let pw := password (screen w) in
  response <- fetch (POST_login pw) (api_login backend pw) ;;
  match response with
  | NetworkError => alert "Error" "Login failed"
  | NotJson true => alert "Error" "Login failed"
  | Json true data =>
      stored <- setItem "admin_token" (data_token data) ;;
      if stored : bool then
        with_screen (set_token (data_token data)) ;;
        with_screen (set_isLoggedIn true) ;;
        with_screen (set_password EmptyString)
      else alert "Error" "Login failed"
  | NotJson false | Json false _ => alert "Error" "Invalid password"
  end.

(** [handleLogout]: a rejected [removeItem] is not caught, the two
    setters after it do not run. *)
Definition handleLogout : M unit :=
  removed <- removeItem "admin_token" ;;
  if removed : bool then
    with_screen (set_token None) ;;
    with_screen (set_isLoggedIn false)
  else ret tt.

(** The first render runs both effects: [checkAuth()], and the login
    effect on the cells the handler leaves. *)
Definition mount : M unit := rendered checkAuth.

Definition tapLogin : M unit := rendered handleLogin.

Definition tapLogout : M unit := rendered handleLogout.

(** [openExerciseModal] *)
Definition openExerciseModal (exercise : option ExerciseDef.t) : M unit :=
  match exercise with
  | Some e =>
      with_screen (set_editingExercise (Some e)) ;;
      with_screen (set_exerciseForm (exercise_form_of e))
  | None =>
      with_screen (set_editingExercise None) ;;
      with_screen (set_exerciseForm blank_exercise_form)
  end ;;
  with_screen (set_showExerciseModal true).

(** [openProtocolModal] *)
Definition openProtocolModal (protocol : option ProtocolDef.t) : M unit :=
  match protocol with
  | Some p =>
      with_screen (set_editingProtocol (Some p)) ;;
      with_screen (set_protocolForm (protocol_form_of p))
  | None =>
      with_screen (set_editingProtocol None) ;;
      with_screen (set_protocolForm blank_protocol_form)
  end ;;
  with_screen (set_showProtocolModal true).

(** [toggleEquipment] *)
Definition toggleEquipment (equip : string) : M unit :=
  with_screen (fun s => set_exerciseForm (toggle_equipment equip (exerciseForm s)) s).

Definition is_some {A : Type} (x : option A) : bool :=
  match x with Some _ => true | None => false end.

(** An input of the exercise modal. *)
Definition editExercise (a : ExerciseEdit) : M unit :=
  with_screen (fun s =>
    set_exerciseForm
      (edit_exercise lower_snake (is_some (editingExercise s)) a (exerciseForm s)) s).

(** An input of the protocol modal. *)
Definition editProtocol (a : ProtocolEdit) : M unit :=
  with_screen (fun s =>
    set_protocolForm
      (edit_protocol lower_snake (is_some (editingProtocol s)) a (protocolForm s)) s).

(** The request of [saveExercise]: [PUT] to the id of the exercise being
    edited, [POST] for a new one; the header is [token || '']. *)
Definition save_exercise_request (s : Screen) : Request :=
  match editingExercise s with
  | Some e =>
      PUT_exercise (ExerciseDef.id e) (or_else (token s) EmptyString) (exerciseForm s)
  | None => POST_exercise (or_else (token s) EmptyString) (exerciseForm s)
  end.

Definition save_exercise_endpoint (s : Screen) : Srv -> FetchResult unit * Srv :=
  match editingExercise s with
  | Some e =>
      api_update_exercise backend (ExerciseDef.id e)
        (or_else (token s) EmptyString) (exerciseForm s)
  | None =>
      api_create_exercise backend (or_else (token s) EmptyString) (exerciseForm s)
  end.

(** [saveExercise] *)
Definition saveExercise : M unit :=
  w <- get ;;
  response <- fetch (save_exercise_request (screen w))
                    (save_exercise_endpoint (screen w)) ;;
  match response with
  | NetworkError => alert "Error" "Save failed"
  | NotJson true | Json true _ =>
      with_screen (set_showExerciseModal false) ;;
      fetchData
  | NotJson false => alert "Error" "Save failed"
  | Json false error => alert "Error" (or_else (detail_of error) "Save failed")
  end.

(** The request of [saveProtocol]. *)
Definition save_protocol_request (s : Screen) : Request :=
  match editingProtocol s with
  | Some p =>
      PUT_protocol (ProtocolDef.id p) (or_else (token s) EmptyString) (protocolForm s)
  | None => POST_protocol (or_else (token s) EmptyString) (protocolForm s)
  end.

Definition save_protocol_endpoint (s : Screen) : Srv -> FetchResult unit * Srv :=
  match editingProtocol s with
  | Some p =>
      api_update_protocol backend (ProtocolDef.id p)
        (or_else (token s) EmptyString) (protocolForm s)
  | None =>
      api_create_protocol backend (or_else (token s) EmptyString) (protocolForm s)
  end.

(** [saveProtocol] *)
Definition saveProtocol : M unit :=
  w <- get ;;
  response <- fetch (save_protocol_request (screen w))
                    (save_protocol_endpoint (screen w)) ;;
  match response with
  | NetworkError => alert "Error" "Save failed"
  | NotJson true | Json true _ =>
      with_screen (set_showProtocolModal false) ;;
      fetchData
  | NotJson false => alert "Error" "Save failed"
  | Json false error => alert "Error" (or_else (detail_of error) "Save failed")
  end.

(** [deleteExercise]: the alert, then the button pressed. *)
Definition deleteExercise (exerciseId : string) (choice : DeleteChoice) : M unit :=
  alert "Delete Exercise" "Are you sure?" ;;
  match choice with
  | Delete =>
      w <- get ;;
      let tok := or_else (token (screen w)) EmptyString in
      response <- fetch (DELETE_exercise exerciseId tok)
                        (api_delete_exercise backend exerciseId tok) ;;
      match response_ok response with
      | None => alert "Error" "Delete failed"
      | Some true => fetchData
      | Some false => ret tt
      end
  | CancelDelete | DismissedDelete => ret tt
  end.

(** [deleteProtocol] *)
Definition deleteProtocol (protocolId : string) (choice : DeleteChoice) : M unit :=
  alert "Delete Protocol" "Are you sure?" ;;
  match choice with
  | Delete =>
      w <- get ;;
      let tok := or_else (token (screen w)) EmptyString in
      response <- fetch (DELETE_protocol protocolId tok)
                        (api_delete_protocol backend protocolId tok) ;;
      match response_ok response with
      | None => alert "Error" "Delete failed"
      | Some true => fetchData
      | Some false => ret tt
      end
  | CancelDelete | DismissedDelete => ret tt
  end.

(** A run of edits in the exercise modal. *)
Fixpoint editsExercise (l : list ExerciseEdit) : M unit :=
  match l with
  | [] => ret tt
  | a :: rest => editExercise a ;; editsExercise rest
  end.

(** A run of edits in the protocol modal. *)
Fixpoint editsProtocol (l : list ProtocolEdit) : M unit :=
  match l with
  | [] => ret tt
  | a :: rest => editProtocol a ;; editsProtocol rest
  end.

End Handlers.

End Admin.

(** ** A device and two backends for the admin screen

    Concrete inputs to run the admin handlers on: a storage that keeps
    one value and never fails, a backend that serves a library and
    accepts every request, and a backend in maintenance. *)

Module AdminSample.

Definition memory_storage : Admin.AsyncStorage (option string) :=
  {| Admin.storage_getItem := fun _ dev => (Some dev, dev);
     Admin.storage_setItem := fun _ value _ => (true, value);
     Admin.storage_removeItem := fun _ _ => (true, None) |}.

(** Every request is accepted; login hands out the token [letmein]. *)
Definition open_backend : Admin.Backend Engine.Library :=
  {| Admin.api_verify := fun _ srv => (Json true (Shaped tt), srv);
     Admin.api_login := fun _ srv =>
       (Json true (Shaped {| Admin.login_token := Some "letmein" |}), srv);
     Admin.api_exercises := fun srv =>
       (Json true (Shaped (Engine.library_exercises srv)), srv);
     Admin.api_protocols := fun srv =>
       (Json true (Shaped (Engine.library_protocols srv)), srv);
     Admin.api_create_exercise := fun _ _ srv => (Json true (Shaped tt), srv);
     Admin.api_update_exercise := fun _ _ _ srv => (Json true (Shaped tt), srv);
     Admin.api_delete_exercise := fun _ _ srv => (Json true (Shaped tt), srv);
     Admin.api_create_protocol := fun _ _ srv => (Json true (Shaped tt), srv);
     Admin.api_update_protocol := fun _ _ _ srv => (Json true (Shaped tt), srv);
     Admin.api_delete_protocol := fun _ _ srv => (Json true (Shaped tt), srv) |}.

(** Every request is answered 503 with an error object. *)
Definition maintenance : Admin.Backend Engine.Library :=
  {| Admin.api_verify := fun _ srv => (Json false (ErrorDetail "maintenance"), srv);
     Admin.api_login := fun _ srv => (Json false (ErrorDetail "maintenance"), srv);
     Admin.api_exercises := fun srv => (Json false (ErrorDetail "maintenance"), srv);
     Admin.api_protocols := fun srv => (Json false (ErrorDetail "maintenance"), srv);
     Admin.api_create_exercise := fun _ _ srv =>
       (Json false (ErrorDetail "maintenance"), srv);
     Admin.api_update_exercise := fun _ _ _ srv =>
       (Json false (ErrorDetail "maintenance"), srv);
     Admin.api_delete_exercise := fun _ _ srv =>
       (Json false (ErrorDetail "maintenance"), srv);
     Admin.api_create_protocol := fun _ _ srv =>
       (Json false (ErrorDetail "maintenance"), srv);
     Admin.api_update_protocol := fun _ _ _ srv =>
       (Json false (ErrorDetail "maintenance"), srv);
     Admin.api_delete_protocol := fun _ _ srv =>
       (Json false (ErrorDetail "maintenance"), srv) |}.

(** The screen before its first render, on a device with [saved] in
    storage. *)
Definition world (saved : option string) : Admin.World Engine.Library (option string) :=
  {| Admin.screen := Admin.initial_screen;
     Admin.server := Sample.small_library;
     Admin.device := saved;
     Admin.http_log := [];
     Admin.storage_log := [];
     Admin.alerts := [];
     Admin.console := [] |}.

End AdminSample.

(** ** What a reroll keeps

    The four fields a preserving reroll must not change. *)

Definition same_frame (a b : Session.t) : Prop :=
  Session.day_type a = Session.day_type b
  /\ Session.priority_bucket a = Session.priority_bucket b
  /\ Session.equipment a = Session.equipment b
  /\ Session.time_slot a = Session.time_slot b.

(** A world in the middle of rerolling: the store keeps the questionnaire
    [q] the session was generated from, the newest session on the server
    has the frame [frame], and so has the session in the store, if it is
    one. *)
Definition rerolling (C : Engine.Collaborators) (q : QuestionnaireState.t)
    (frame : Engine.Session) (w : World (Server.t C)) : Prop :=
  lastQuestionnaire (store w) = Some q
  /\ (forall q', Engine.validate q = Some q' ->
       Engine.time_slot frame = Questionnaire.time_available q'
       /\ Engine.equipment frame = Questionnaire.equipment q')
  /\ (exists newest,
        hd_error (Server.sessions (server w)) = Some newest
        /\ Engine.day_type newest = Engine.day_type frame
        /\ Engine.priority_bucket newest = Engine.priority_bucket frame
        /\ Engine.time_slot newest = Engine.time_slot frame
        /\ Engine.equipment newest = Engine.equipment frame)
  /\ (forall s, currentSession (store w) = Some (Shaped s) ->
       same_frame s (Server.wire_session C frame)).

(** * Properties *)

(** Running a handler: unfold it and the monad, then compute as far as
    the world allows. *)
Ltac run_handler h := unfold h, execState; cbn.

(** ** The client alone, against any backend *)

Section ClientFacts.

Variable Srv : Type.
Variable backend : Backend Srv.

(** C1. Discarding a session, whichever button closes the alert, issues
    no HTTP request at all, so no Complete call; the backend, which holds
    the UserState, is left as it was, and in the store only
    [currentSession] may change: [userState], [lastQuestionnaire] and
    [overrideBucket] keep their values.  Choosing Discard sets
    [currentSession] to null and returns to the home screen. *)
Theorem handleDiscard_leaves_user_state (choice : DiscardChoice) (w : World Srv) :
  let w' := execState (handleDiscard Srv choice) w in
  http_log w' = http_log w
  /\ existsb is_complete_request (http_log w') =
     existsb is_complete_request (http_log w)
  /\ server w' = server w
  /\ userState (store w') = userState (store w)
  /\ lastQuestionnaire (store w') = lastQuestionnaire (store w)
  /\ overrideBucket (store w') = overrideBucket (store w)
  /\ currentSession (store w') =
       match choice with
       | Discard => None
       | KeepSession | Dismissed => currentSession (store w)
       end
  /\ nav_log w' =
       match choice with
       | Discard => (nav_log w ++ [router_replace "/"])%list
       | KeepSession | Dismissed => nav_log w
       end.
Proof.
  destruct choice; cbn; repeat split; reflexivity.
Qed.

(** C10. With no user state in the store, [toggleCooldownOverride]
    returns at once: no request is issued and the world, store included,
    is what it was. *)
Theorem toggleCooldownOverride_null_state (w : World Srv) :
  userState (store w) = None ->
  execState (toggleCooldownOverride backend) w = w
  /\ http_log (execState (toggleCooldownOverride backend) w) = http_log w.
Proof.
  intros Hnull.
  assert (E : execState (toggleCooldownOverride backend) w = w).
  { run_handler toggleCooldownOverride. rewrite Hnull. destruct w; reflexivity. }
  rewrite E. split; reflexivity.
Qed.

End ClientFacts.

(** At start the store holds no user state: a tap on the toggle does
    nothing. *)
Lemma toggleCooldownOverride_null_state_witness :
  let w := Sample.world Sample.fresh_server Sample.no_answers in
  execState (toggleCooldownOverride Sample.engine_backend) w = w
  /\ http_log (execState (toggleCooldownOverride Sample.engine_backend) w) = [].
Proof.
  intros w.
  apply (@toggleCooldownOverride_null_state _ Sample.engine_backend w).
  reflexivity.
Defined.

(** ** Volume display *)


(** C9. [getVolumeDisplay] gives a label and a value for every exercise,
    whatever fields it carries: a missing hold_time shows as '10-20s', a
    missing time as '30-60s', missing reps as '5', and so does an empty
    string in their place; every prescription type other than the three
    timed ones, known or not, is shown as reps. *)
Theorem getVolumeDisplay_total (e : Exercise.t) :
  exists l v,
    getVolumeDisplay e = {| label := l; value := v |}
    /\ (Exercise.prescription_type e = "ISOMETRIC_HOLD" ->
        l = "Hold"
        /\ (Exercise.hold_time e = None \/ Exercise.hold_time e = Some EmptyString ->
            v = "10-20s"))
    /\ (Exercise.prescription_type e = "CARRY_TIME"
        \/ Exercise.prescription_type e = "CRAWL_TIME" ->
        l = "Time"
        /\ (Exercise.time e = None \/ Exercise.time e = Some EmptyString ->
            v = "30-60s"))
    /\ (Exercise.prescription_type e <> "ISOMETRIC_HOLD" ->
        Exercise.prescription_type e <> "CARRY_TIME" ->
        Exercise.prescription_type e <> "CRAWL_TIME" ->
        l = "Reps"
        /\ (Exercise.reps e = None \/ Exercise.reps e = Some EmptyString -> v = "5")).
Proof.
  exists (label (getVolumeDisplay e)), (value (getVolumeDisplay e)).
  split; [destruct (getVolumeDisplay e); reflexivity|].
  unfold getVolumeDisplay.
  destruct (String.eqb_spec (Exercise.prescription_type e) "ISOMETRIC_HOLD") as [Hh|Hh].
  - cbn [label value]. split; [|split].
    + intros _. split; [reflexivity|]. intros [Hm|Hm]; rewrite Hm; reflexivity.
    + intros [H|H]; rewrite Hh in H; discriminate.
    + intros H. contradiction.
  - destruct (String.eqb_spec (Exercise.prescription_type e) "CARRY_TIME") as [Hc|Hc];
      [|destruct (String.eqb_spec (Exercise.prescription_type e) "CRAWL_TIME") as [Hw|Hw]];
      cbn [orb label value]; (split; [|split]);
      try (intros H; contradiction);
      try (intros _; split; [reflexivity|];
           intros [Hm|Hm]; rewrite Hm; reflexivity);
      try (intros [H|H]; contradiction);
      try (intros _ H; contradiction);
      try (intros _ _ H; contradiction);
      try (intros _ _ _; split; [reflexivity|];
           intros [Hm|Hm]; rewrite Hm; reflexivity).
Qed.

(** An exercise with no volume field at all, against the invariant, is
    still shown: the default stands in. *)
Lemma getVolumeDisplay_total_witness :
  let e := Exercise.mk "goblet_squat" "Goblet Squat" "squat" "KB_STRENGTH"
             "moderate" "p_5x5" "5x5" "Five sets of five" "5" None None None
             "90s" None None in
  exercise_volume_ok e = false
  /\ getVolumeDisplay e = {| label := "Reps"; value := "5" |}.
Proof.
  intros e. split; [reflexivity|].
  destruct (getVolumeDisplay_total e) as (l & v & E & _ & _ & Hreps).
  rewrite E.
  destruct Hreps as [Hl Hv]; try (cbn; discriminate).
  rewrite Hl, (Hv (or_introl eq_refl)). reflexivity.
Defined.

(** ** Requests the handlers issue *)

Section RequestFacts.

Variable Srv : Type.
Variable backend : Backend Srv.

(** [generateSession] issues one Generate request when the form is
    complete, none otherwise. *)
Lemma generateSession_log (w : World Srv) :
  http_log (execState (generateSession backend) w) =
    if isComplete (questionnaire (home_screen w))
    then (http_log w ++ [POST_generate (generate_payload w)])%list
    else http_log w.
Proof.
  run_handler generateSession.
  destruct (isComplete (questionnaire (home_screen w))); cbn; [|reflexivity].
  unfold generate_payload.
  destruct (api_generate backend _ (server w)) as [res srv'].
  destruct res; reflexivity.
Qed.

(** [handleBucketSelect] only writes [overrideBucket] and closes the
    modal. *)
Lemma handleBucketSelect_run (bucket : string) (w : World Srv) :
  execState (handleBucketSelect Srv bucket) w =
    {| store :=
         {| currentSession := currentSession (store w);
            userState := userState (store w);
            lastQuestionnaire := lastQuestionnaire (store w);
            overrideBucket :=
              if strict_eq bucket
                   (opt_field UserState.next_priority_bucket (userState (store w)))
              then None else Some bucket |};
       session_screen := session_screen w;
       home_screen :=
         {| hs_loading := hs_loading (home_screen w);
            showCooldownModal := showCooldownModal (home_screen w);
            showFocusModal := false;
            questionnaire := questionnaire (home_screen w) |};
       server := server w;
       http_log := http_log w;
       nav_log := nav_log w;
       console := console w |}.
Proof.
  run_handler handleBucketSelect.
  destruct (strict_eq bucket _); reflexivity.
Qed.

Lemma truthy_string_sound (x : option string) (s : string) :
  truthy_string x = Some s -> x = Some s.
Proof.
  destruct x as [t|]; cbn; [|discriminate].
  destruct (String.eqb t EmptyString); [discriminate|auto].
Qed.

(** C8, as amended. With the user state loaded, selecting the bucket
    equal to its next_priority_bucket stores [overrideBucket = null], and
    selecting any other bucket stores that bucket; the override stored
    then differs from that next_priority_bucket, and a Generate request
    issued from there is the only request and does not carry it as
    override_bucket.  While the store holds no next_priority_bucket, the
    user state being null or an error object, whatever bucket is selected
    is stored as the override. *)
Theorem handleBucketSelect_override (bucket : string) (w : World Srv) :
  let w1 := execState (handleBucketSelect Srv bucket) w in
  let w2 := execState (generateSession backend) w1 in
  (opt_field UserState.next_priority_bucket (userState (store w)) = None ->
   overrideBucket (store w1) = Some bucket)
  /\ (forall us : UserState.t,
        userState (store w) = Some (Shaped us) ->
        (bucket = UserState.next_priority_bucket us ->
         overrideBucket (store w1) = None)
        /\ (bucket <> UserState.next_priority_bucket us ->
            overrideBucket (store w1) = Some bucket)
        /\ overrideBucket (store w1) <> Some (UserState.next_priority_bucket us)
        /\ (http_log w2 = http_log w
            \/ exists payload,
                 http_log w2 = (http_log w ++ [POST_generate payload])%list
                 /\ gp_override_bucket payload
                    <> Some (UserState.next_priority_bucket us))).
Proof.
  intros w1 w2. split.
  { intros Hnull. unfold w1. rewrite handleBucketSelect_run.
    cbn [store overrideBucket]. rewrite Hnull. reflexivity. }
  intros us Hus.
  assert (E1 : overrideBucket (store w1) =
               if String.eqb bucket (UserState.next_priority_bucket us)
               then None else Some bucket).
  { unfold w1. rewrite handleBucketSelect_run. cbn. rewrite Hus. reflexivity. }
  assert (Hne : overrideBucket (store w1)
                <> Some (UserState.next_priority_bucket us)).
  { rewrite E1.
    destruct (String.eqb_spec bucket (UserState.next_priority_bucket us));
      congruence. }
  split; [|split; [|split]].
  - intros ->. rewrite E1, String.eqb_refl. reflexivity.
  - intros Hd. rewrite E1.
    destruct (String.eqb_spec bucket (UserState.next_priority_bucket us));
      [contradiction|reflexivity].
  - exact Hne.
  - unfold w2. rewrite generateSession_log.
    assert (L : http_log w1 = http_log w).
    { unfold w1. rewrite handleBucketSelect_run. reflexivity. }
    rewrite L.
    destruct (isComplete (questionnaire (home_screen w1))); [right|left; reflexivity].
    exists (generate_payload w1). split; [reflexivity|].
    cbn. intros Hc. apply truthy_string_sound in Hc. contradiction.
Qed.

End RequestFacts.

(** The two cases of the selection, on a loaded store whose next bucket
    is squat: squat resets the override, pull is stored. *)
Lemma handleBucketSelect_override_witness :
  let loaded :=
    execState (fetchUserState Sample.engine_backend)
      (Sample.world Sample.fresh_server Sample.great_day) in
  overrideBucket (store (execState (handleBucketSelect _ "squat") loaded)) = None
  /\ overrideBucket (store (execState (handleBucketSelect _ "pull") loaded))
     = Some "pull".
Proof.
  intros loaded.
  pose (us := Server.wire_state Sample.collaborators "default" Engine.default_state).
  split.
  - apply (@handleBucketSelect_override _ Sample.engine_backend "squat" loaded)
      with (us := us); reflexivity.
  - apply (@handleBucketSelect_override _ Sample.engine_backend "pull" loaded)
      with (us := us); [reflexivity|discriminate].
Defined.

(** C8, as stated, fails. The app starts with [userState = null] and the
    focus tag showing squat; the user picks squat in the focus modal
    before the state arrives; squat is stored as an override although it
    is the stored next_priority_bucket, and the Generate request carries
    it. *)
Lemma generate_carries_stored_bucket :
  let w0 := Sample.world Sample.fresh_server Sample.great_day in
  let w1 := execState (handleBucketSelect _ "squat") w0 in
  let w2 := execState (fetchUserState Sample.engine_backend) w1 in
  let w3 := execState (generateSession Sample.engine_backend) w2 in
  userState (store w0) = None
  /\ currentBucket (store w0) = "squat"
  /\ overrideBucket (store w1) = Some "squat"
  /\ opt_field UserState.next_priority_bucket (userState (store w2))
     = Some "squat"
  /\ Engine.next_priority_bucket (Server.state (server w2)) = Engine.squat
  /\ http_log w3 =
       [GET_state;
        POST_generate {| gp_questionnaire := Sample.great_day;
                         gp_override_bucket := Some "squat" |}]
  /\ ~ (forall payload, In (POST_generate payload) (http_log w3) ->
        gp_override_bucket payload
        <> opt_field UserState.next_priority_bucket (userState (store w2))).
Proof.
  cbv zeta. repeat split; try reflexivity.
  intros Hnever.
  apply (Hnever {| gp_questionnaire := Sample.great_day;
                   gp_override_bucket := Some "squat" |}).
  - right. left. reflexivity.
  - reflexivity.
Qed.

(** ** The decision rules *)

Section EngineFacts.

Variable C : Engine.Collaborators.

(** The classifier touches the cooldown fields only. *)
Lemma determine_day_type_frame (q : Questionnaire.t) (st : Engine.State) :
  let st' := snd (Engine.determine_day_type q st) in
  Engine.next_priority_bucket st' = Engine.next_priority_bucket st
  /\ Engine.week_mode st' = Engine.week_mode st
  /\ Engine.power_last_used st' = Engine.power_last_used st
  /\ Engine.last_hard_day st' = Engine.last_hard_day st
  /\ Engine.power_frequency st' = Engine.power_frequency st.
Proof.
  unfold Engine.determine_day_type.
  destruct (Engine.real_trigger q); [cbn; auto 6|].
  destruct (_ && _); cbn; auto 6.
Qed.

(** A real trigger is pain, a bad feeling or bad sleep. *)
Lemma real_trigger_iff (q : Questionnaire.t) :
  Engine.real_trigger q = true <->
  Questionnaire.pain q = pain_present
  \/ Questionnaire.feeling q = feeling_bad
  \/ Questionnaire.sleep q = sleep_bad.
Proof.
  unfold Engine.real_trigger.
  destruct (Questionnaire.pain q), (Questionnaire.feeling q),
    (Questionnaire.sleep q); split; intros H; auto; try discriminate;
    destruct H as [H|[H|H]]; discriminate.
Qed.

(** Rule 1 of the classifier. *)
Lemma determine_day_type_trigger (q : Questionnaire.t) (st : Engine.State) :
  Engine.real_trigger q = true ->
  Engine.determine_day_type q st = (easy, Engine.real_cooldown_trigger st).
Proof.
  intros H. unfold Engine.determine_day_type. rewrite H. reflexivity.
Qed.

(** What a successful Generate returns, and the state it leaves. *)
Lemma generate_ok (lib : Engine.Library) (now : Z) (serial : nat)
    (q : QuestionnaireState.t) (override_bucket : option Engine.Bucket)
    (st st' : Engine.State) (r r' : Engine.Rand C) (s : Engine.Session) :
  Engine.generate C lib now serial q override_bucket st r = (Engine.Ok s, st', r') ->
  exists q',
    Engine.validate q = Some q'
    /\ st' = snd (Engine.determine_day_type q' st)
    /\ Engine.day_type s = fst (Engine.determine_day_type q' st)
    /\ Engine.priority_bucket s = Engine.resolve_bucket override_bucket st'
    /\ Engine.time_slot s = Questionnaire.time_available q'
    /\ Engine.equipment s = Questionnaire.equipment q'.
Proof.
  unfold Engine.generate.
  destruct (Engine.validate q) as [q'|]; [|discriminate].
  destruct (Engine.determine_day_type q' st) as [day st1] eqn:Ed.
  destruct (Engine.select_and_assign _ _ _ _ _ _ _ _) as [[exs|e] r1];
    [|discriminate].
  intros H. inversion H; subst. exists q'. rewrite Ed. cbn. repeat split; reflexivity.
Qed.

(** A failed Generate leaves the state untouched (section 7). *)
Lemma generate_failed (lib : Engine.Library) (now : Z) (serial : nat)
    (q : QuestionnaireState.t) (override_bucket : option Engine.Bucket)
    (st st' : Engine.State) (r r' : Engine.Rand C) (e : Engine.Error) :
  Engine.generate C lib now serial q override_bucket st r = (Engine.Failed e, st', r') ->
  st' = st.
Proof.
  unfold Engine.generate.
  destruct (Engine.validate q) as [q'|]; [|intros H; inversion H; reflexivity].
  destruct (Engine.determine_day_type q' st) as [day st1].
  destruct (Engine.select_and_assign _ _ _ _ _ _ _ _) as [[exs|e'] r1];
    intros H; inversion H; reflexivity.
Qed.

End EngineFacts.

(** ** What the handlers leave behind *)

Section HandlerRuns.

Variable Srv : Type.
Variable backend : Backend Srv.

Lemma execState_seq (A B : Type) (a : M Srv A) (b : M Srv B) (w : World Srv) :
  execState (a ;; b) w = execState b (execState a w).
Proof.
  unfold execState. cbn. destruct (runState a w); reflexivity.
Qed.

(** [fetchUserState]: one state request; the store takes any JSON body. *)
Lemma fetchUserState_run (w : World Srv) :
  let w' := execState (fetchUserState backend) w in
  let res := fst (api_state backend (server w)) in
  server w' = snd (api_state backend (server w))
  /\ http_log w' = (http_log w ++ [GET_state])%list
  /\ currentSession (store w') = currentSession (store w)
  /\ lastQuestionnaire (store w') = lastQuestionnaire (store w)
  /\ overrideBucket (store w') = overrideBucket (store w)
  /\ userState (store w') =
       match res with
       | Json _ data => Some data
       | NetworkError | NotJson _ => userState (store w)
       end.
Proof.
  run_handler fetchUserState.
  destruct (api_state backend (server w)) as [res srv'].
  destruct res; cbn; repeat split; reflexivity.
Qed.

(** [generateSession] with every answer given. *)
Lemma generateSession_run (w : World Srv) :
  isComplete (questionnaire (home_screen w)) = true ->
  let w' := execState (generateSession backend) w in
  let out := api_generate backend (generate_payload w) (server w) in
  server w' = snd out
  /\ userState (store w') = userState (store w)
  /\ overrideBucket (store w') = overrideBucket (store w)
  /\ currentSession (store w') =
       match fst out with
       | Json _ session => Some session
       | NetworkError | NotJson _ => currentSession (store w)
       end
  /\ lastQuestionnaire (store w') =
       match fst out with
       | Json _ _ => Some (questionnaire (home_screen w))
       | NetworkError | NotJson _ => lastQuestionnaire (store w)
       end.
Proof.
  intros Hc. run_handler generateSession. rewrite Hc. cbn.
  destruct (api_generate backend (generate_payload w) (server w)) as [res srv'].
  destruct res; cbn; repeat split; reflexivity.
Qed.

(** [toggleCooldownOverride] with a state in the store: one settings
    request carrying the negated flag. *)
Lemma toggleCooldownOverride_run (us : Parsed UserState.t) (w : World Srv) :
  userState (store w) = Some us ->
  let w' := execState (toggleCooldownOverride backend) w in
  let out := api_settings backend (toggle_body us) (server w) in
  server w' = snd out
  /\ http_log w' = (http_log w ++ [PUT_settings (toggle_body us)])%list
  /\ userState (store w') =
       match fst out with
       | Json _ data => Some data
       | NetworkError | NotJson _ => Some us
       end.
Proof.
  intros Hus. run_handler toggleCooldownOverride. rewrite Hus. cbn.
  destruct (api_settings backend (toggle_body us) (server w)) as [res srv'].
  destruct res; cbn; repeat split; auto.
Qed.

(** [handleReroll] with a questionnaire in the store. *)
Lemma handleReroll_run (q : QuestionnaireState.t) (w : World Srv) :
  lastQuestionnaire (store w) = Some q ->
  let w' := execState (handleReroll backend) w in
  let out := api_reroll backend (reroll_body q) (server w) in
  server w' = snd out
  /\ http_log w' = (http_log w ++ [POST_reroll (reroll_body q)])%list
  /\ lastQuestionnaire (store w') = Some q
  /\ userState (store w') = userState (store w)
  /\ overrideBucket (store w') = overrideBucket (store w)
  /\ currentSession (store w') =
       match fst out with
       | Json _ session => Some session
       | NetworkError | NotJson _ => currentSession (store w)
       end
  /\ exercises (session_screen w') =
       match fst out with
       | Json _ session => session_exercises session
       | NetworkError | NotJson _ => exercises (session_screen w)
       end.
Proof.
  intros Hq. run_handler handleReroll. rewrite Hq. cbn.
  destruct (api_reroll backend (reroll_body q) (server w)) as [res srv'].
  destruct res; cbn; repeat split; auto.
Qed.

(** [handleComplete] on a screen with a session. *)
Lemma handleComplete_run (session : Parsed Session.t) (feedback : Feedback)
    (w : World Srv) :
  currentSession (store w) = Some session ->
  let w' := execState (handleComplete backend feedback) w in
  let out := api_complete backend (complete_body session feedback) (server w) in
  server w' = snd out
  /\ http_log w' =
       (http_log w ++ [POST_complete (complete_body session feedback)])%list
  /\ userState (store w') = userState (store w)
  /\ overrideBucket (store w') =
       match fst out with
       | NetworkError => overrideBucket (store w)
       | NotJson _ | Json _ _ => None
       end
  /\ currentSession (store w') =
       match fst out with
       | NetworkError => Some session
       | NotJson _ | Json _ _ => None
       end.
Proof.
  intros Hs. run_handler handleComplete. rewrite Hs. cbn.
  destruct (api_complete backend (complete_body session feedback) (server w))
    as [res srv'].
  destruct res; cbn; repeat split; auto.
Qed.

(** [handleSwap] on a screen with a session and a list of exercises. *)
Lemma handleSwap_run (session : Parsed Session.t)
    (l : list (Parsed Exercise.t)) (exerciseId : string) (w : World Srv) :
  currentSession (store w) = Some session ->
  exercises (session_screen w) = Some l ->
  let w' := execState (handleSwap backend exerciseId) w in
  let out := api_swap backend (swap_body session exerciseId) (server w) in
  server w' = snd out
  /\ http_log w' =
       (http_log w ++ [POST_swap (swap_body session exerciseId)])%list
  /\ store w' = store w
  /\ exercises (session_screen w') =
       match fst out with
       | Json _ newExercise => Some (replace_by_id exerciseId newExercise l)
       | NetworkError | NotJson _ => Some l
       end
  /\ console w' =
       match fst out with
       | Json _ _ => console w
       | NetworkError | NotJson _ =>
           (console w ++ ["Error swapping exercise:"])%list
       end.
Proof.
  intros Hs Hl. run_handler handleSwap. rewrite Hs. cbn.
  destruct (api_swap backend (swap_body session exerciseId) (server w))
    as [res srv'].
  destruct res; cbn; rewrite ?Hl; cbn; repeat split; auto.
Qed.

(** Cancel in the completion alert does nothing. *)
Lemma confirmComplete_cancel (w : World Srv) :
  execState (confirmComplete backend Cancel) w = w.
Proof. destruct w; reflexivity. Qed.

(** The exercise with the given id gives way to the new value. *)
Lemma replace_by_id_hit (exerciseId : string) (newExercise : Parsed Exercise.t)
    (l : list (Parsed Exercise.t)) (e : Exercise.t) :
  In (Shaped e) l -> Exercise.id e = exerciseId ->
  In newExercise (replace_by_id exerciseId newExercise l)
  /\ (newExercise <> Shaped e -> ~ In (Shaped e) (replace_by_id exerciseId newExercise l)).
Proof.
  intros Hin Hid. unfold replace_by_id. split.
  - apply in_map_iff. exists (Shaped e). split; [|assumption].
    cbn. rewrite Hid, String.eqb_refl. reflexivity.
  - intros Hne Hin'. apply in_map_iff in Hin'. destruct Hin' as (x & Hx & _).
    destruct (strict_eq exerciseId (field Exercise.id x)) eqn:E.
    + congruence.
    + subst x. cbn in E. rewrite Hid, String.eqb_refl in E. discriminate.
Qed.

(** When the request fails before a JSON body is read, the list stays as
    it was and the error is logged. *)
Lemma handleSwap_retains_on_throw (session : Parsed Session.t)
    (l : list (Parsed Exercise.t)) (exerciseId : string) (w : World Srv) :
  currentSession (store w) = Some session ->
  exercises (session_screen w) = Some l ->
  (fst (api_swap backend (swap_body session exerciseId) (server w)) = NetworkError
   \/ exists ok,
        fst (api_swap backend (swap_body session exerciseId) (server w)) = NotJson ok) ->
  exercises (session_screen (execState (handleSwap backend exerciseId) w)) = Some l.
Proof.
  intros Hs Hl Hout.
  destruct (@handleSwap_run session l exerciseId w Hs Hl) as (_ & _ & _ & He & _).
  rewrite He. destruct Hout as [->|[ok ->]]; reflexivity.
Qed.

(** C3. Where the claim breaks: when the swap endpoint answers with an
    error object as its JSON body, whatever the status, [handleSwap] puts
    that object in the place of the exercise with the given id; the
    original exercise is gone from the list and nothing is logged. *)
Theorem handleSwap_error_body_replaces (session : Parsed Session.t)
    (l : list (Parsed Exercise.t)) (exerciseId : string) (ok : bool)
    (detail : string) (w : World Srv) :
  currentSession (store w) = Some session ->
  exercises (session_screen w) = Some l ->
  fst (api_swap backend (swap_body session exerciseId) (server w))
    = Json ok (ErrorDetail detail) ->
  let w' := execState (handleSwap backend exerciseId) w in
  exercises (session_screen w')
    = Some (replace_by_id exerciseId (ErrorDetail detail) l)
  /\ console w' = console w
  /\ forall e, In (Shaped e) l -> Exercise.id e = exerciseId ->
       forall l', exercises (session_screen w') = Some l' ->
         In (ErrorDetail detail) l' /\ ~ In (Shaped e) l'.
Proof.
  intros Hs Hl Hout w'.
  destruct (@handleSwap_run session l exerciseId w Hs Hl) as (_ & _ & _ & He & Hc).
  fold w' in He, Hc. rewrite Hout in He, Hc.
  split; [exact He|]. split; [exact Hc|].
  intros e Hin Hid l' Hl'. rewrite He in Hl'. inversion Hl'; subst l'.
  destruct (@replace_by_id_hit exerciseId (ErrorDetail detail) l e Hin Hid)
    as [Ha Hb].
  split; [exact Ha|apply Hb; discriminate].
Qed.

End HandlerRuns.

(** The session of a great day holds goblet squat, swing and plank; the
    library has no other squat; swapping the goblet squat leaves the
    engine's error in its place. *)
Lemma handleSwap_error_body_replaces_witness :
  let w :=
    execState (generateSession Sample.engine_backend ;; mount_session_screen _)
      (Sample.world Sample.fresh_server Sample.great_day) in
  let w' := execState (handleSwap Sample.engine_backend "goblet_squat") w in
  option_map (map (field Exercise.id)) (exercises (session_screen w))
    = Some [Some "goblet_squat"; Some "kb_swing"; Some "plank"]
  /\ option_map (map (field Exercise.id)) (exercises (session_screen w'))
     = Some [None; Some "kb_swing"; Some "plank"]
  /\ option_map (fun l => nth_error l 0) (exercises (session_screen w'))
     = Some (Some (ErrorDetail "NoAlternativeError"))
  /\ console w' = [].
Proof.
  intros w w'.
  destruct (currentSession (store w)) as [session|] eqn:Hs; [|discriminate].
  destruct (exercises (session_screen w)) as [l|] eqn:Hl; [|discriminate].
  destruct (@handleSwap_error_body_replaces _ Sample.engine_backend session l
              "goblet_squat" false "NoAlternativeError" w Hs Hl)
    as (He & Hc & _).
  - vm_compute in Hs. inversion Hs; subst. reflexivity.
  - fold w' in He, Hc. rewrite He, Hc.
    vm_compute in Hl. inversion Hl; subst. repeat split; reflexivity.
Defined.

(** ** Cooldown override *)

Section OverrideFacts.

Variable C : Engine.Collaborators.

(** A settings write of the override stores it and nothing else. *)
Lemma update_settings_override (b : bool) (st : Engine.State) :
  Engine.update_settings (override_write b) st =
    {| Engine.next_priority_bucket := Engine.next_priority_bucket st;
       Engine.week_mode := Engine.week_mode st;
       Engine.cooldown_counter := Engine.cooldown_counter st;
       Engine.cooldown_override := b;
       Engine.power_last_used := Engine.power_last_used st;
       Engine.last_hard_day := Engine.last_hard_day st;
       Engine.power_frequency := Engine.power_frequency st |}.
Proof. reflexivity. Qed.

(** With the counter at zero the day type does not depend on the
    override. *)
Lemma override_inert_at_zero (q : Questionnaire.t) (st : Engine.State) (b : bool) :
  Engine.cooldown_counter st = 0%nat ->
  fst (Engine.determine_day_type q (Engine.update_settings (override_write b) st))
  = fst (Engine.determine_day_type q st).
Proof.
  intros H0. unfold Engine.determine_day_type.
  destruct (Engine.real_trigger q); [reflexivity|].
  cbn. rewrite H0. reflexivity.
Qed.

(** With the counter above zero and no real trigger, the override decides:
    off forces an easy day, on lets the answers classify. *)
Lemma override_effective_in_cooldown (q : Questionnaire.t) (st : Engine.State) :
  (0 < Engine.cooldown_counter st)%nat ->
  Engine.real_trigger q = false ->
  fst (Engine.determine_day_type q (Engine.update_settings (override_write false) st))
  = easy
  /\ fst (Engine.determine_day_type q (Engine.update_settings (override_write true) st))
     = Engine.classify (Questionnaire.feeling q) (Questionnaire.sleep q).
Proof.
  intros Hpos Hq. unfold Engine.determine_day_type. rewrite Hq. cbn.
  destruct (Engine.cooldown_counter st); [lia|]. split; reflexivity.
Qed.

(** The tag that opens the modal with the toggle is on the home screen
    exactly when the state in the store has a counter above zero. *)
Lemma cooldown_tag_shown_iff (s : TrainingStore) :
  cooldown_tag_shown s = true <->
  exists n, opt_field UserState.cooldown_counter (userState s) = Some n
            /\ (0 < n)%Z.
Proof.
  unfold cooldown_tag_shown.
  destruct (opt_field UserState.cooldown_counter (userState s)) as [n|].
  - rewrite Z.ltb_lt. split.
    + intros H. exists n. split; [reflexivity|exact H].
    + intros (m & Hm & Hpos). inversion Hm; subst. exact Hpos.
  - split; [discriminate|]. intros (m & Hm & _). discriminate.
Qed.

(** C7. The toggle is one settings write: with a user state in the store,
    [toggleCooldownOverride] issues exactly one request, a PUT of the
    negation of the stored cooldown_override to the settings endpoint;
    the home screen offers it only while the stored counter is above
    zero.  The engine stores the written value whatever the counter and
    leaves the counter alone; with the counter at zero the stored value
    has no effect on the day type; with the counter above zero and no real
    trigger it decides between a forced easy day and the classified one. *)
Theorem cooldown_override_toggle :
  (forall s : TrainingStore,
     cooldown_tag_shown s = true <->
     exists n, opt_field UserState.cooldown_counter (userState s) = Some n
               /\ (0 < n)%Z)
  /\ (forall (Srv : Type) (backend : Backend Srv) (us : UserState.t) (w : World Srv),
     userState (store w) = Some (Shaped us) ->
     http_log (execState (toggleCooldownOverride backend) w)
     = (http_log w
        ++ [PUT_settings (override_write (negb (UserState.cooldown_override us)))])%list)
  /\ (forall (us : UserState.t) (w : World (Server.t C)),
        userState (store w) = Some (Shaped us) ->
        let w' := execState (toggleCooldownOverride (Server.spec_backend C)) w in
        Engine.cooldown_override (Server.state (server w'))
        = negb (UserState.cooldown_override us)
        /\ Engine.cooldown_counter (Server.state (server w'))
           = Engine.cooldown_counter (Server.state (server w))
        /\ opt_field UserState.cooldown_override (userState (store w'))
           = Some (negb (UserState.cooldown_override us)))
  /\ (forall (q : Questionnaire.t) (st : Engine.State) (b : bool),
        Engine.cooldown_counter st = 0%nat ->
        fst (Engine.determine_day_type q
               (Engine.update_settings (override_write b) st))
        = fst (Engine.determine_day_type q st))
  /\ (forall (q : Questionnaire.t) (st : Engine.State),
        (0 < Engine.cooldown_counter st)%nat ->
        Engine.real_trigger q = false ->
        fst (Engine.determine_day_type q
               (Engine.update_settings (override_write false) st)) = easy
        /\ fst (Engine.determine_day_type q
                  (Engine.update_settings (override_write true) st))
           = Engine.classify (Questionnaire.feeling q) (Questionnaire.sleep q)).
Proof.
  split; [exact cooldown_tag_shown_iff|].
  split; [|split; [|split]].
  - intros Srv backend us w Hus.
    destruct (@toggleCooldownOverride_run Srv backend (Shaped us) w Hus)
      as (_ & Hlog & _).
    exact Hlog.
  - intros us w Hus w'.
    destruct (@toggleCooldownOverride_run _ (Server.spec_backend C) (Shaped us) w Hus)
      as (Hsrv & _ & Hst).
    fold w' in Hsrv, Hst. rewrite Hsrv, Hst. cbn. repeat split; reflexivity.
  - exact override_inert_at_zero.
  - exact override_effective_in_cooldown.
Qed.

End OverrideFacts.

(** In cooldown after a sore day, the state loaded, a tap on the toggle
    PUTs [true]; on a great day the override then lifts the forced easy
    day. *)
Lemma cooldown_override_toggle_witness :
  let w0 :=
    execState (generateSession Sample.engine_backend ;;
               fetchUserState Sample.engine_backend)
      (Sample.world Sample.fresh_server Sample.sore_day) in
  let w1 := execState (toggleCooldownOverride Sample.engine_backend) w0 in
  opt_field UserState.cooldown_counter (userState (store w0)) = Some 2%Z
  /\ nth_error (http_log w1) 2 = Some (PUT_settings (override_write true))
  /\ Engine.cooldown_override (Server.state (server w1)) = true
  /\ fst (Engine.determine_day_type
            (Questionnaire.mk feeling_great sleep_good pain_none t30_45 minimal)
            (Server.state (server w0))) = easy
  /\ fst (Engine.determine_day_type
            (Questionnaire.mk feeling_great sleep_good pain_none t30_45 minimal)
            (Server.state (server w1))) = hard.
Proof.
  intros w0 w1.
  destruct (cooldown_override_toggle Sample.collaborators)
    as (_ & Hlog & Hsrv & _ & Heff).
  pose (us := Server.wire_state Sample.collaborators "default"
                (Server.state (server w0))).
  assert (Hus : userState (store w0) = Some (Shaped us)) by reflexivity.
  split; [reflexivity|].
  split; [unfold w1; rewrite (Hlog _ Sample.engine_backend us w0 Hus); reflexivity|].
  split; [apply (Hsrv us w0 Hus)|].
  split; reflexivity.
Defined.

(** ** The engine behind the endpoints *)

Section ServerFacts.

Variable C : Engine.Collaborators.

Lemma bucket_of_string_str (name : string) (b : Engine.Bucket) :
  Engine.bucket_of_string name = Some b -> Engine.bucket_str b = name.
Proof.
  unfold Engine.bucket_of_string.
  destruct (String.eqb_spec name "squat");
    [intros H; inversion H; subst; reflexivity|].
  destruct (String.eqb_spec name "pull");
    [intros H; inversion H; subst; reflexivity|].
  destruct (String.eqb_spec name "hinge");
    [intros H; inversion H; subst; reflexivity|].
  destruct (String.eqb_spec name "push");
    [intros H; inversion H; subst; reflexivity|discriminate].
Qed.

Lemma bucket_str_truthy (b : Engine.Bucket) :
  truthy_string (Some (Engine.bucket_str b)) = Some (Engine.bucket_str b).
Proof. destruct b; reflexivity. Qed.

(** Generate never moves the rotation. *)
Lemma generate_next_bucket (lib : Engine.Library) (now : Z) (serial : nat)
    (q : QuestionnaireState.t) (override_bucket : option Engine.Bucket)
    (st : Engine.State) (r : Engine.Rand C) :
  Engine.next_priority_bucket
    (snd (fst (Engine.generate C lib now serial q override_bucket st r)))
  = Engine.next_priority_bucket st.
Proof.
  destruct (Engine.generate C lib now serial q override_bucket st r)
    as [[[s|e] st'] r'] eqn:E; cbn.
  - apply generate_ok in E. destruct E as (q' & _ & Hst & _).
    rewrite Hst. apply determine_day_type_frame.
  - apply generate_failed in E. rewrite E. reflexivity.
Qed.

(** The Generate endpoint answers with a session exactly when the engine
    produced one, which it then keeps, newest first. *)
Lemma post_generate_shaped (body : GeneratePayload) (srv : Server.t C)
    (ok : bool) (s : Session.t) :
  fst (Server.post_generate body srv) = Json ok (Shaped s) ->
  exists override_bucket es st' r',
    Server.read_override (gp_override_bucket body) = Some override_bucket
    /\ Engine.generate C (Server.library srv) (Server.clock srv)
         (length (Server.sessions srv)) (gp_questionnaire body)
         override_bucket (Server.state srv) (Server.rand srv)
       = (Engine.Ok es, st', r')
    /\ s = Server.wire_session C es
    /\ Server.state (snd (Server.post_generate body srv)) = st'
    /\ Server.sessions (snd (Server.post_generate body srv))
       = es :: Server.sessions srv
    /\ Server.library (snd (Server.post_generate body srv)) = Server.library srv
    /\ Server.clock (snd (Server.post_generate body srv)) = Server.clock srv.
Proof.
  unfold Server.post_generate.
  destruct (Server.read_override (gp_override_bucket body)) as [ob|];
    [|cbn; discriminate].
  destruct (Engine.generate C _ _ _ _ ob _ _) as [[[es|e] st'] r'] eqn:E;
    cbn; [|discriminate].
  intros H. inversion H; subst.
  exists ob, es, st', r'. rewrite E. cbn. repeat split; reflexivity.
Qed.

(** The Generate endpoint never moves the rotation. *)
Lemma post_generate_next_bucket (body : GeneratePayload) (srv : Server.t C) :
  Engine.next_priority_bucket
    (Server.state (snd (Server.post_generate body srv)))
  = Engine.next_priority_bucket (Server.state srv).
Proof.
  unfold Server.post_generate.
  destruct (Server.read_override (gp_override_bucket body)) as [ob|];
    [|reflexivity].
  cbn [snd].
  pose proof (generate_next_bucket (Server.library srv) (Server.clock srv)
                (length (Server.sessions srv)) (gp_questionnaire body) ob
                (Server.state srv) (Server.rand srv)) as Hn.
  destruct (Engine.generate C _ _ _ _ ob _ _) as [[res st'] r'].
  exact Hn.
Qed.

(** A session just produced is the one its id names. *)
Lemma find_session_newest (es : Engine.Session) (srv : Server.t C)
    (rest : list Engine.Session) :
  Server.sessions srv = es :: rest ->
  Server.find_session
    (field Session.id (Shaped (Server.wire_session C es))) srv = Some es.
Proof.
  intros H. cbn. rewrite H. cbn. rewrite String.eqb_refl. reflexivity.
Qed.

(** The engine's buckets are the client's [BUCKET_ORDER], in rotation
    order. *)
Lemma rotation_follows_BUCKET_ORDER :
  map Engine.bucket_str
    [Engine.squat; Engine.successor Engine.squat;
     Engine.successor (Engine.successor Engine.squat);
     Engine.successor (Engine.successor (Engine.successor Engine.squat))]
  = BUCKET_ORDER
  /\ Engine.successor
       (Engine.successor (Engine.successor (Engine.successor Engine.squat)))
     = Engine.squat.
Proof. split; reflexivity. Qed.

(** Completion advances the rotation from the stored bucket. *)
Lemma apply_completion_next (lib : Engine.Library) (now : Z)
    (s : Engine.Session) (feedback : Feedback) (st : Engine.State) :
  Engine.next_priority_bucket (Engine.apply_completion lib now s feedback st)
  = Engine.successor (Engine.next_priority_bucket st).
Proof. reflexivity. Qed.

End ServerFacts.

(** ** Bucket override *)

Section BucketOverrideFacts.

Variable C : Engine.Collaborators.

(** The engine always answers with a JSON body. *)
Lemma post_generate_json (body : GeneratePayload) (srv : Server.t C) :
  exists ok p, fst (Server.post_generate body srv) = Json ok p.
Proof.
  unfold Server.post_generate.
  destruct (Server.read_override (gp_override_bucket body)) as [ob|]; cbn.
  - destruct (fst (fst (Engine.generate C _ _ _ _ ob _ _))); cbn; eauto.
  - eauto.
Qed.

(** Generate with an override uses it for the session and leaves the
    stored bucket alone. *)
Lemma generate_with_override (lib : Engine.Library) (now : Z) (serial : nat)
    (q : QuestionnaireState.t) (b : Engine.Bucket) (st : Engine.State)
    (r : Engine.Rand C) :
  Engine.next_priority_bucket
    (snd (fst (Engine.generate C lib now serial q (Some b) st r)))
  = Engine.next_priority_bucket st
  /\ forall s st' r',
       Engine.generate C lib now serial q (Some b) st r = (Engine.Ok s, st', r') ->
       Engine.priority_bucket s = b.
Proof.
  split; [apply generate_next_bucket|].
  intros s st' r' E. apply generate_ok in E.
  destruct E as (q' & _ & _ & _ & Hb & _). exact Hb.
Qed.

(** The client clears its override once the Complete request has been
    answered. *)
Lemma handleComplete_clears_override (Srv : Type) (backend : Backend Srv)
    (session : Parsed Session.t) (feedback : Feedback) (w : World Srv) :
  currentSession (store w) = Some session ->
  fst (api_complete backend (complete_body session feedback) (server w))
    <> NetworkError ->
  overrideBucket (store (execState (handleComplete backend feedback) w)) = None.
Proof.
  intros Hs Hne.
  destruct (@handleComplete_run Srv backend session feedback w Hs)
    as (_ & _ & _ & Ho & _).
  rewrite Ho.
  destruct (fst (api_complete backend (complete_body session feedback) (server w)));
    [contradiction|reflexivity|reflexivity].
Qed.

(** Generate with an override, then Complete, against the engine. *)
Lemma generate_override_then_complete (w : World (Server.t C)) (name : string)
    (b : Engine.Bucket) (feedback : Feedback) :
  isComplete (questionnaire (home_screen w)) = true ->
  overrideBucket (store w) = Some name ->
  Engine.bucket_of_string name = Some b ->
  let w1 := execState (generateSession (Server.spec_backend C)) w in
  let w2 := execState (handleComplete (Server.spec_backend C) feedback) w1 in
  http_log w1 =
    (http_log w
     ++ [POST_generate {| gp_questionnaire := questionnaire (home_screen w);
                          gp_override_bucket := Some name |}])%list
  /\ Engine.next_priority_bucket (Server.state (server w1))
     = Engine.next_priority_bucket (Server.state (server w))
  /\ forall s, currentSession (store w1) = Some (Shaped s) ->
       Session.priority_bucket s = name
       /\ Engine.next_priority_bucket (Server.state (server w2))
          = Engine.successor (Engine.next_priority_bucket (Server.state (server w)))
       /\ overrideBucket (store w1) = Some name
       /\ overrideBucket (store w2) = None.
Proof.
  intros Hc Ho Hb w1 w2.
  pose proof (bucket_of_string_str _ Hb) as Hname.
  assert (Hp : generate_payload w =
               {| gp_questionnaire := questionnaire (home_screen w);
                  gp_override_bucket := Some name |}).
  { unfold generate_payload. rewrite Ho, <- Hname, bucket_str_truthy.
    reflexivity. }
  destruct (@generateSession_run _ (Server.spec_backend C) w Hc)
    as (Hsrv & _ & Hov & Hcur & _).
  fold w1 in Hsrv, Hov, Hcur. cbn [api_generate Server.spec_backend] in Hsrv, Hcur.
  split; [|split].
  - unfold w1. rewrite generateSession_log, Hc, Hp. reflexivity.
  - rewrite Hsrv. apply post_generate_next_bucket.
  - intros s Hs.
    destruct (post_generate_json (generate_payload w) (server w)) as (ok & p & Hj).
    rewrite Hj in Hcur. rewrite Hcur in Hs. inversion Hs; subst p.
    destruct (post_generate_shaped _ _ Hj)
      as (ob & es & st' & r' & Hro & Hgen & Hwire & Hst & Hss & _).
    rewrite Hp in Hro. cbn in Hro. rewrite Hb in Hro. inversion Hro; subst ob.
    assert (Hpb : Engine.priority_bucket es = b).
    { apply generate_ok in Hgen. destruct Hgen as (q' & _ & _ & _ & Hq & _).
      exact Hq. }
    destruct (@handleComplete_run _ (Server.spec_backend C) (Shaped s) feedback
                w1 Hcur) as (Hsrv2 & _ & _ & Ho2 & _).
    fold w2 in Hsrv2, Ho2.
    cbn [api_complete Server.spec_backend] in Hsrv2, Ho2.
    assert (Hfind : Server.find_session
                      (cb_session_id (complete_body (Shaped s) feedback))
                      (server w1) = Some es).
    { rewrite Hwire. apply find_session_newest with (rest := Server.sessions (server w)).
      rewrite Hsrv. exact Hss. }
    unfold Server.post_complete in Hsrv2, Ho2. rewrite Hfind in Hsrv2, Ho2.
    cbn in Hsrv2, Ho2.
    repeat split.
    + rewrite Hwire. cbn. rewrite Hpb. exact Hname.
    + rewrite Hsrv2. cbn. rewrite Hsrv. rewrite post_generate_next_bucket.
      reflexivity.
    + rewrite Hov. exact Ho.
    + exact Ho2.
Qed.

(** C6. An override_bucket sent with Generate is the bucket of that
    session and of nothing else: Generate leaves
    UserState.next_priority_bucket as stored; Completion moves it to the
    successor of the stored value, whatever bucket the session used; and
    the client clears its own override once the Complete request has been
    answered.  Run from the client against the engine: the request carries
    the override, the stored bucket stays through Generate, and after
    Complete it is the successor of what was stored before, the client's
    override being null again. *)
Theorem override_bucket_one_shot :
  (forall (lib : Engine.Library) (now : Z) (serial : nat)
          (q : QuestionnaireState.t) (b : Engine.Bucket) (st : Engine.State)
          (r : Engine.Rand C),
     Engine.next_priority_bucket
       (snd (fst (Engine.generate C lib now serial q (Some b) st r)))
     = Engine.next_priority_bucket st
     /\ forall s st' r',
          Engine.generate C lib now serial q (Some b) st r
            = (Engine.Ok s, st', r') ->
          Engine.priority_bucket s = b)
  /\ (forall (lib : Engine.Library) (now : Z) (s : Engine.Session)
             (feedback : Feedback) (st : Engine.State),
        Engine.next_priority_bucket
          (Engine.apply_completion lib now s feedback st)
        = Engine.successor (Engine.next_priority_bucket st))
  /\ (forall (Srv : Type) (backend : Backend Srv) (session : Parsed Session.t)
             (feedback : Feedback) (w : World Srv),
        currentSession (store w) = Some session ->
        fst (api_complete backend (complete_body session feedback) (server w))
          <> NetworkError ->
        overrideBucket (store (execState (handleComplete backend feedback) w))
          = None)
  /\ (forall (w : World (Server.t C)) (name : string) (b : Engine.Bucket)
             (feedback : Feedback),
        isComplete (questionnaire (home_screen w)) = true ->
        overrideBucket (store w) = Some name ->
        Engine.bucket_of_string name = Some b ->
        let w1 := execState (generateSession (Server.spec_backend C)) w in
        let w2 := execState (handleComplete (Server.spec_backend C) feedback) w1 in
        http_log w1 =
          (http_log w
           ++ [POST_generate {| gp_questionnaire := questionnaire (home_screen w);
                                gp_override_bucket := Some name |}])%list
        /\ Engine.next_priority_bucket (Server.state (server w1))
           = Engine.next_priority_bucket (Server.state (server w))
        /\ forall s, currentSession (store w1) = Some (Shaped s) ->
             Session.priority_bucket s = name
             /\ Engine.next_priority_bucket (Server.state (server w2))
                = Engine.successor
                    (Engine.next_priority_bucket (Server.state (server w)))
             /\ overrideBucket (store w1) = Some name
             /\ overrideBucket (store w2) = None).
Proof.
  split; [exact generate_with_override|].
  split; [exact apply_completion_next|].
  split; [exact handleComplete_clears_override|].
  exact generate_override_then_complete.
Qed.

End BucketOverrideFacts.

(** The stored bucket is squat; the user picks hinge, generates and
    completes: the session is a hinge session, the stored bucket is still
    squat after Generate and pull after Complete. *)
Lemma override_bucket_one_shot_witness :
  let w :=
    execState (fetchUserState Sample.engine_backend ;;
               handleBucketSelect _ "hinge")
      (Sample.world Sample.fresh_server Sample.great_day) in
  let w1 := execState (generateSession Sample.engine_backend) w in
  let w2 := execState (handleComplete Sample.engine_backend good) w1 in
  opt_field Session.priority_bucket (currentSession (store w1)) = Some "hinge"
  /\ Engine.next_priority_bucket (Server.state (server w1)) = Engine.squat
  /\ Engine.next_priority_bucket (Server.state (server w2)) = Engine.pull
  /\ overrideBucket (store w2) = None.
Proof.
  intros w w1 w2.
  destruct (override_bucket_one_shot Sample.collaborators) as (_ & _ & _ & H).
  specialize (H w "hinge" Engine.hinge good eq_refl eq_refl eq_refl).
  cbv zeta in H.
  change (Server.spec_backend Sample.collaborators)
    with Sample.engine_backend in H.
  fold w1 in H. fold w2 in H.
  destruct H as (_ & Hn & Hs).
  destruct (currentSession (store w1)) as [[s|d]|] eqn:Hcur;
    try (vm_compute in Hcur; discriminate).
  destruct (Hs s eq_refl) as (Hpb & Hn2 & _ & Ho2).
  split; [cbn; rewrite Hpb; reflexivity|].
  split; [rewrite Hn; reflexivity|].
  split; [exact Hn2|exact Ho2].
Defined.

(** ** Real triggers *)

Section TriggerFacts.

Variable C : Engine.Collaborators.

(** The state endpoint shows the engine's state. *)
Lemma fetchUserState_engine (w : World (Server.t C)) :
  let w' := execState (fetchUserState (Server.spec_backend C)) w in
  server w' = server w
  /\ userState (store w') =
       Some (Shaped (Server.wire_state C (Server.user_id (server w))
                       (Server.state (server w))))
  /\ currentSession (store w') = currentSession (store w).
Proof.
  destruct (fetchUserState_run (Server.spec_backend C) w)
    as (Hsrv & _ & Hcur & _ & _ & Hus).
  cbn in Hsrv, Hus. repeat split; assumption.
Qed.

(** Back on the home screen after a discard, the state fetched again is
    the state the engine had before: nothing was written. *)
Lemma discard_then_refetch (choice : DiscardChoice) (w : World (Server.t C)) :
  let w' :=
    execState (handleDiscard _ choice ;;
               fetchUserState (Server.spec_backend C)) w in
  server w' = server w
  /\ userState (store w') =
       Some (Shaped (Server.wire_state C (Server.user_id (server w))
                       (Server.state (server w)))).
Proof.
  cbv zeta. rewrite execState_seq.
  destruct (fetchUserState_engine (execState (handleDiscard _ choice) w))
    as (Hsrv & Hus & _).
  rewrite Hsrv, Hus. destruct choice; split; reflexivity.
Qed.

(** C5. Whenever the questionnaire reports pain, a bad feeling or bad
    sleep, the classifier answers easy and leaves cooldown_counter = 2 and
    cooldown_override = false, whatever the state before; every session
    Generate returns for it is an easy one, and the state Generate leaves
    has the counter at 2 and the override off.  Run from the client against
    the engine: once the home screen has generated the session and
    fetched the state again, the session in the store is easy and the user
    state in the store shows counter 2, override off. *)
Theorem generate_real_trigger (q : QuestionnaireState.t) (q' : Questionnaire.t) :
  Engine.validate q = Some q' ->
  Questionnaire.pain q' = pain_present
  \/ Questionnaire.feeling q' = feeling_bad
  \/ Questionnaire.sleep q' = sleep_bad ->
  (forall st : Engine.State,
     fst (Engine.determine_day_type q' st) = easy
     /\ Engine.cooldown_counter (snd (Engine.determine_day_type q' st)) = 2%nat
     /\ Engine.cooldown_override (snd (Engine.determine_day_type q' st)) = false)
  /\ (forall (lib : Engine.Library) (now : Z) (serial : nat)
             (override_bucket : option Engine.Bucket) (st st' : Engine.State)
             (r r' : Engine.Rand C) (s : Engine.Session),
        Engine.generate C lib now serial q override_bucket st r
          = (Engine.Ok s, st', r') ->
        Engine.day_type s = easy
        /\ Engine.cooldown_counter st' = 2%nat
        /\ Engine.cooldown_override st' = false)
  /\ (forall (w : World (Server.t C)) (s : Session.t),
        questionnaire (home_screen w) = q ->
        let w' :=
          execState (generateSession (Server.spec_backend C) ;;
                     fetchUserState (Server.spec_backend C)) w in
        currentSession (store w') = Some (Shaped s) ->
        Session.day_type s = easy
        /\ opt_field UserState.cooldown_counter (userState (store w')) = Some 2%Z
        /\ opt_field UserState.cooldown_override (userState (store w'))
           = Some false).
Proof.
  intros Hv Ht. apply real_trigger_iff in Ht.
  assert (Hclass : forall st : Engine.State,
     fst (Engine.determine_day_type q' st) = easy
     /\ Engine.cooldown_counter (snd (Engine.determine_day_type q' st)) = 2%nat
     /\ Engine.cooldown_override (snd (Engine.determine_day_type q' st)) = false).
  { intros st. rewrite (determine_day_type_trigger q' st Ht).
    repeat split; reflexivity. }
  assert (Hgen : forall (lib : Engine.Library) (now : Z) (serial : nat)
             (override_bucket : option Engine.Bucket) (st st' : Engine.State)
             (r r' : Engine.Rand C) (s : Engine.Session),
        Engine.generate C lib now serial q override_bucket st r
          = (Engine.Ok s, st', r') ->
        Engine.day_type s = easy
        /\ Engine.cooldown_counter st' = 2%nat
        /\ Engine.cooldown_override st' = false).
  { intros lib now serial ob st st' r r' s E. apply generate_ok in E.
    destruct E as (q0 & Hv0 & Hst & Hday & _).
    rewrite Hv in Hv0. inversion Hv0; subst q0.
    destruct (Hclass st) as (H1 & H2 & H3).
    rewrite Hday, Hst. auto. }
  split; [exact Hclass|]. split; [exact Hgen|].
  intros w s Hq w' Hcur.
  unfold w' in *. rewrite execState_seq in *.
  set (w1 := execState (generateSession (Server.spec_backend C)) w) in *.
  destruct (fetchUserState_engine w1) as (_ & Hus & Hcur1).
  rewrite Hus. rewrite Hcur1 in Hcur.
  assert (Hc : isComplete (questionnaire (home_screen w)) = true).
  { rewrite Hq. unfold Engine.validate in Hv. unfold isComplete.
    destruct (QuestionnaireState.feeling q), (QuestionnaireState.sleep q),
      (QuestionnaireState.pain q), (QuestionnaireState.time_available q),
      (QuestionnaireState.equipment q); try discriminate; reflexivity. }
  destruct (@generateSession_run _ (Server.spec_backend C) w Hc)
    as (Hsrv & _ & _ & Hcur0 & _).
  fold w1 in Hsrv, Hcur0. cbn [api_generate Server.spec_backend] in Hsrv, Hcur0.
  destruct (post_generate_json (generate_payload w) (server w)) as (ok & p & Hj).
  rewrite Hj in Hcur0. rewrite Hcur0 in Hcur. inversion Hcur; subst p.
  destruct (post_generate_shaped _ _ Hj)
    as (ob & es & st' & r' & _ & Hg & Hwire & Hst & _).
  cbn [gp_questionnaire generate_payload] in Hg. rewrite Hq in Hg.
  destruct (Hgen _ _ _ _ _ _ _ _ _ Hg) as (Hd & Hcnt & Hovr).
  rewrite Hsrv, Hst. cbn. rewrite Hwire. cbn. rewrite Hd, Hcnt, Hovr.
  repeat split; reflexivity.
Qed.

End TriggerFacts.

(** A sore day starts the cooldown; the user switches the override on;
    the next sore day is easy again and the override is off again, the
    counter back at 2. *)
Lemma generate_real_trigger_witness :
  let w :=
    execState (generateSession Sample.engine_backend ;;
               fetchUserState Sample.engine_backend ;;
               toggleCooldownOverride Sample.engine_backend)
      (Sample.world Sample.fresh_server Sample.sore_day) in
  let w' :=
    execState (generateSession Sample.engine_backend ;;
               fetchUserState Sample.engine_backend) w in
  opt_field UserState.cooldown_override (userState (store w)) = Some true
  /\ opt_field Session.day_type (currentSession (store w')) = Some easy
  /\ opt_field UserState.cooldown_counter (userState (store w')) = Some 2%Z
  /\ opt_field UserState.cooldown_override (userState (store w')) = Some false.
Proof.
  intros w w'.
  destruct (@generate_real_trigger Sample.collaborators Sample.sore_day
              (Questionnaire.mk feeling_great sleep_good pain_present t30_45 minimal)
              eq_refl (or_introl eq_refl)) as (_ & _ & H).
  split; [reflexivity|].
  destruct (currentSession (store w')) as [[s|d]|] eqn:Hcur;
    try (vm_compute in Hcur; discriminate).
  destruct (H w s eq_refl Hcur) as (Hd & Hc & Ho).
  split; [cbn; rewrite Hd; reflexivity|].
  split; [exact Hc|exact Ho].
Defined.

(** ** Reroll *)

Section RerollFacts.

Variable C : Engine.Collaborators.

(** A reroll that preserves both the day type and the bucket. *)
Lemma reroll_preserving_ok (lib : Engine.Library) (now : Z) (serial : nat)
    (q : QuestionnaireState.t) (override_bucket : option Engine.Bucket)
    (previous : Engine.Session) (st st' : Engine.State)
    (r r' : Engine.Rand C) (s : Engine.Session) :
  Engine.reroll C lib now serial q override_bucket true true (Some previous) st r
    = (Engine.Ok s, st', r') ->
  st' = st
  /\ Engine.day_type s = Engine.day_type previous
  /\ Engine.priority_bucket s = Engine.priority_bucket previous
  /\ exists q', Engine.validate q = Some q'
       /\ Engine.time_slot s = Questionnaire.time_available q'
       /\ Engine.equipment s = Questionnaire.equipment q'.
Proof.
  unfold Engine.reroll.
  destruct (Engine.validate q) as [q'|]; [|discriminate].
  destruct (Engine.select_and_assign _ _ _ _ _ _ _ _) as [[exs|e] r1];
    [|discriminate].
  intros H. inversion H; subst. cbn. repeat split.
  exists q'. repeat split.
Qed.

(** A failed reroll leaves the state untouched. *)
Lemma reroll_failed (lib : Engine.Library) (now : Z) (serial : nat)
    (q : QuestionnaireState.t) (override_bucket : option Engine.Bucket)
    (pd pb : bool) (previous : option Engine.Session) (st st' : Engine.State)
    (r r' : Engine.Rand C) (e : Engine.Error) :
  Engine.reroll C lib now serial q override_bucket pd pb previous st r
    = (Engine.Failed e, st', r') ->
  st' = st.
Proof.
  unfold Engine.reroll.
  destruct (Engine.validate q) as [q'|]; [|intros H; inversion H; reflexivity].
  destruct (match pd, previous with
            | true, Some s => (Engine.day_type s, st)
            | _, _ => Engine.determine_day_type q' st
            end) as [day st1].
  destruct (Engine.select_and_assign _ _ _ _ _ _ _ _) as [[exs|e'] r1];
    intros H; inversion H; reflexivity.
Qed.

(** The Reroll endpoint on the client's body: flags absent, so both
    default to true; the newest session is the one rerolled. *)
Lemma post_reroll_default (q : QuestionnaireState.t) (srv : Server.t C)
    (previous : Engine.Session) :
  hd_error (Server.sessions srv) = Some previous ->
  let out := Server.post_reroll (reroll_body q) srv in
  Server.state (snd out) = Server.state srv
  /\ ((exists d, fst out = Json false (ErrorDetail d)
                 /\ Server.sessions (snd out) = Server.sessions srv)
      \/ (exists es q',
            fst out = Json true (Shaped (Server.wire_session C es))
            /\ Server.sessions (snd out) = es :: Server.sessions srv
            /\ Engine.day_type es = Engine.day_type previous
            /\ Engine.priority_bucket es = Engine.priority_bucket previous
            /\ Engine.validate q = Some q'
            /\ Engine.time_slot es = Questionnaire.time_available q'
            /\ Engine.equipment es = Questionnaire.equipment q')).
Proof.
  intros Hprev. unfold Server.post_reroll. cbn [reroll_body rb_questionnaire
    rb_preserve_day_type rb_preserve_priority_bucket Server.flag_default_true].
  rewrite Hprev.
  destruct (Engine.reroll C _ _ _ q None true true (Some previous) _ _)
    as [[[es|e] st'] r'] eqn:E; cbn.
  - apply reroll_preserving_ok in E.
    destruct E as (Hst & Hd & Hb & q' & Hv & Ht & He).
    split; [exact Hst|]. right. exists es, q'. repeat split; assumption.
  - apply reroll_failed in E. split; [exact E|]. left. eauto.
Qed.

End RerollFacts.

Section RerollRuns.

Variable C : Engine.Collaborators.

(** One reroll from the client keeps the world rerolling on the same
    frame, sends the bare questionnaire and leaves the UserState as it
    was. *)
Lemma handleReroll_keeps (q : QuestionnaireState.t) (frame : Engine.Session)
    (w : World (Server.t C)) :
  rerolling q frame w ->
  let w' := execState (handleReroll (Server.spec_backend C)) w in
  rerolling q frame w'
  /\ http_log w' = (http_log w ++ [POST_reroll (reroll_body q)])%list
  /\ Server.state (server w') = Server.state (server w).
Proof.
  intros (Hq & Hfrom & (newest & Hhd & Hd & Hb & Ht & He) & Hcur) w'.
  destruct (@handleReroll_run _ (Server.spec_backend C) q w Hq)
    as (Hsrv & Hlog & Hq' & _ & _ & Hcur' & _).
  fold w' in Hsrv, Hlog, Hq', Hcur'.
  cbn [api_reroll Server.spec_backend] in Hsrv, Hcur'.
  destruct (post_reroll_default q (server w) Hhd) as (Hst & Hcases).
  split; [|split; [exact Hlog|rewrite Hsrv; exact Hst]].
  unfold rerolling. split; [exact Hq'|]. split; [exact Hfrom|].
  destruct Hcases as [(d & Hout & Hss)|(es & q' & Hout & Hss & Hd' & Hb' & Hv & Ht' & He')];
    rewrite Hout in Hcur'.
  - split.
    + exists newest. rewrite Hsrv, Hss. repeat split; assumption.
    + intros s Hs. rewrite Hcur' in Hs. discriminate.
  - destruct (Hfrom q' Hv) as (Hft & Hfe).
    assert (Hes : Engine.day_type es = Engine.day_type frame
                  /\ Engine.priority_bucket es = Engine.priority_bucket frame
                  /\ Engine.time_slot es = Engine.time_slot frame
                  /\ Engine.equipment es = Engine.equipment frame).
    { repeat split; congruence. }
    split.
    + exists es. rewrite Hsrv, Hss. split; [reflexivity|exact Hes].
    + intros s Hs. rewrite Hcur' in Hs. inversion Hs; subst s.
      destruct Hes as (E1 & E2 & E3 & E4).
      unfold same_frame. cbn. rewrite E1, E2, E3, E4. repeat split.
Qed.

(** Any number of rerolls in a row. *)
Lemma times_handleReroll_keeps (q : QuestionnaireState.t)
    (frame : Engine.Session) (n : nat) :
  forall w : World (Server.t C),
    rerolling q frame w ->
    let w' := execState (times n (handleReroll (Server.spec_backend C))) w in
    rerolling q frame w'
    /\ http_log w' = (http_log w ++ repeat (POST_reroll (reroll_body q)) n)%list
    /\ Server.state (server w') = Server.state (server w).
Proof.
  induction n as [|n IH]; intros w Hinv.
  - cbv zeta.
    change (execState (times 0 (handleReroll (Server.spec_backend C))) w) with w.
    split; [exact Hinv|]. cbn [repeat]. rewrite app_nil_r. split; reflexivity.
  - cbn [times]. cbv zeta. rewrite execState_seq.
    destruct (handleReroll_keeps Hinv) as (Hinv1 & Hlog1 & Hst1).
    destruct (IH _ Hinv1) as (Hinv2 & Hlog2 & Hst2).
    split; [exact Hinv2|]. split.
    + rewrite Hlog2, Hlog1, <- app_assoc. reflexivity.
    + rewrite Hst2. exact Hst1.
Qed.

(** A session the home screen has just generated starts a rerolling
    world, its own frame the one to keep. *)
Lemma generated_is_rerolling (w : World (Server.t C)) (s : Session.t) :
  isComplete (questionnaire (home_screen w)) = true ->
  let w1 := execState (generateSession (Server.spec_backend C)) w in
  currentSession (store w1) = Some (Shaped s) ->
  exists es, s = Server.wire_session C es
             /\ rerolling (questionnaire (home_screen w)) es w1.
Proof.
  intros Hc w1 Hcur.
  destruct (@generateSession_run _ (Server.spec_backend C) w Hc)
    as (Hsrv & _ & _ & Hcur0 & Hlast).
  fold w1 in Hsrv, Hcur0, Hlast.
  cbn [api_generate Server.spec_backend] in Hsrv, Hcur0, Hlast.
  destruct (post_generate_json (generate_payload w) (server w)) as (ok & p & Hj).
  rewrite Hj in Hcur0, Hlast. rewrite Hcur0 in Hcur. inversion Hcur; subst p.
  destruct (post_generate_shaped _ _ Hj)
    as (ob & es & st' & r' & _ & Hg & Hwire & _ & Hss & _).
  exists es. split; [exact Hwire|].
  apply generate_ok in Hg. destruct Hg as (q' & Hv & _ & _ & _ & Ht & He).
  cbn [gp_questionnaire generate_payload] in Hv.
  unfold rerolling. split; [exact Hlast|]. split; [|split].
  - intros q0 Hv0. rewrite Hv in Hv0. inversion Hv0; subst q0. split; assumption.
  - exists es. rewrite Hsrv, Hss. repeat split.
  - intros s0 Hs0. rewrite Hcur0 in Hs0. inversion Hs0; subst s0.
    rewrite Hwire. unfold same_frame. repeat split.
Qed.

(** C2. The client's reroll request is the stored questionnaire and
    nothing else, so both preserve flags take their default, true.  The
    engine's reroll with both flags true gives a session with the day type
    and bucket of the session rerolled, and the time slot and equipment of
    the questionnaire, and leaves the UserState untouched.  From a session
    the home screen generated, any number of rerolls in a row keeps
    day_type, priority_bucket, equipment and time_slot of the session in
    the store equal to those of the generated one. *)
Theorem reroll_preserves_frame :
  (forall (Srv : Type) (backend : Backend Srv) (q : QuestionnaireState.t)
          (w : World Srv),
     lastQuestionnaire (store w) = Some q ->
     http_log (execState (handleReroll backend) w)
     = (http_log w
        ++ [POST_reroll {| rb_questionnaire := q;
                           rb_preserve_day_type := None;
                           rb_preserve_priority_bucket := None |}])%list)
  /\ (forall (lib : Engine.Library) (now : Z) (serial : nat)
             (q : QuestionnaireState.t) (override_bucket : option Engine.Bucket)
             (previous : Engine.Session) (st st' : Engine.State)
             (r r' : Engine.Rand C) (s : Engine.Session),
        Engine.reroll C lib now serial q override_bucket true true
          (Some previous) st r = (Engine.Ok s, st', r') ->
        st' = st
        /\ Engine.day_type s = Engine.day_type previous
        /\ Engine.priority_bucket s = Engine.priority_bucket previous
        /\ exists q', Engine.validate q = Some q'
             /\ Engine.time_slot s = Questionnaire.time_available q'
             /\ Engine.equipment s = Questionnaire.equipment q')
  /\ (forall (w : World (Server.t C)) (generated : Session.t) (n : nat),
        isComplete (questionnaire (home_screen w)) = true ->
        let w1 := execState (generateSession (Server.spec_backend C)) w in
        let w2 := execState (times n (handleReroll (Server.spec_backend C))) w1 in
        currentSession (store w1) = Some (Shaped generated) ->
        Server.state (server w2) = Server.state (server w1)
        /\ forall rerolled, currentSession (store w2) = Some (Shaped rerolled) ->
             same_frame rerolled generated).
Proof.
  split; [|split].
  - intros Srv backend q w Hq.
    destruct (@handleReroll_run Srv backend q w Hq) as (_ & Hlog & _).
    exact Hlog.
  - intros. eapply reroll_preserving_ok; eassumption.
  - intros w generated n Hc w1 w2 Hcur.
    destruct (generated_is_rerolling w Hc Hcur) as (es & Hwire & Hinv).
    fold w1 in Hinv.
    destruct (times_handleReroll_keeps n Hinv) as (Hinv2 & _ & Hst).
    fold w2 in Hinv2, Hst. split; [exact Hst|].
    intros rerolled Hr. rewrite Hwire.
    destruct Hinv2 as (_ & _ & _ & Hsame). exact (Hsame rerolled Hr).
Qed.

End RerollRuns.

(** A great day generated, then rerolled twice: three sessions, all hard,
    all on squat, minimal equipment, 30-45 minutes. *)
Lemma reroll_preserves_frame_witness :
  let w1 :=
    execState (generateSession Sample.engine_backend)
      (Sample.world Sample.fresh_server Sample.great_day) in
  let w2 := execState (times 2 (handleReroll Sample.engine_backend)) w1 in
  length (Server.sessions (server w2)) = 3%nat
  /\ opt_field Session.day_type (currentSession (store w2)) = Some hard
  /\ opt_field Session.priority_bucket (currentSession (store w2)) = Some "squat"
  /\ opt_field Session.equipment (currentSession (store w2)) = Some "minimal"
  /\ opt_field Session.time_slot (currentSession (store w2)) = Some "30-45"
  /\ opt_field Session.id (currentSession (store w2))
     <> opt_field Session.id (currentSession (store w1)).
Proof.
  intros w1 w2.
  destruct (reroll_preserves_frame Sample.collaborators) as (_ & _ & H).
  destruct (currentSession (store w1)) as [[generated|d]|] eqn:Hcur1;
    try (vm_compute in Hcur1; discriminate).
  destruct (currentSession (store w2)) as [[rerolled|d]|] eqn:Hcur2;
    try (vm_compute in Hcur2; discriminate).
  destruct (H (Sample.world Sample.fresh_server Sample.great_day) generated
              2%nat eq_refl Hcur1) as (_ & Hsame).
  destruct (Hsame rerolled Hcur2) as (Hd & Hb & He & Ht).
  vm_compute in Hcur1. inversion Hcur1; subst generated.
  split; [reflexivity|].
  cbn. rewrite Hd, Hb, He, Ht. repeat split.
  vm_compute in Hcur2. inversion Hcur2; subst rerolled. discriminate.
Defined.

(** ** Volume fields of session exercises *)

Section VolumeFacts.

Variable C : Engine.Collaborators.



(** The assigner hands the protocol's invariant on to the exercise. *)
Lemma session_exercise_volume_ok (d : ExerciseDef.t) (p : ProtocolDef.t)
    (note : option string) :
  ProtocolDef.prescription_type p = ExerciseDef.prescription_type d ->
  protocol_volume_ok p = true ->
  exercise_volume_ok (Engine.session_exercise C d p note) = true.
Proof.
  intros Ht Hp. unfold exercise_volume_ok. cbn. rewrite <- Ht. exact Hp.
Qed.

Lemma choose_in (A : Type) (l : list A) (r r' : Engine.Rand C) (x : A) :
  Engine.choose C l r = (Some x, r') -> In x l.
Proof.
  unfold Engine.choose. destruct (Engine.draw C r) as [n r1].
  intros H. inversion H as [[Hn Hr]]. eapply nth_error_In. exact Hn.
Qed.

Lemma protocol_candidates_matching (protocols : list ProtocolDef.t)
    (d : ExerciseDef.t) (day : DayType) (p : ProtocolDef.t) :
  In p (Engine.protocol_candidates protocols d day) ->
  In p protocols
  /\ ProtocolDef.prescription_type p = ExerciseDef.prescription_type d.
Proof.
  intros Hin.
  assert (Hm : In p (Engine.matching_protocols protocols d)).
  { unfold Engine.protocol_candidates in Hin. destruct day; try exact Hin.
    destruct (filter ProtocolDef.is_easy_day (Engine.matching_protocols protocols d))
      as [|x l] eqn:Ef; [exact Hin|].
    rewrite <- Ef in Hin. apply filter_In in Hin. tauto. }
  unfold Engine.matching_protocols in Hm. apply filter_In in Hm.
  destruct Hm as [H1 H2]. apply String.eqb_eq in H2. auto.
Qed.

(** One assignment keeps the invariant. *)
Lemma assign_protocol_volume_ok (protocols : list ProtocolDef.t) (day : DayType)
    (note : option string) (d : ExerciseDef.t) (r r' : Engine.Rand C)
    (e : Exercise.t) :
  Forall (fun p => protocol_volume_ok p = true) protocols ->
  Engine.assign_protocol C protocols day note d r = (Some e, r') ->
  exercise_volume_ok e = true.
Proof.
  intros Hall. unfold Engine.assign_protocol.
  destruct (Engine.choose C (Engine.protocol_candidates protocols d day) r)
    as [[p|] r1] eqn:Ec; cbn; [|discriminate].
  intros H. inversion H; subst.
  apply choose_in in Ec. apply protocol_candidates_matching in Ec.
  destruct Ec as [Hin Ht].
  apply session_exercise_volume_ok; [exact Ht|].
  rewrite Forall_forall in Hall. apply Hall. exact Hin.
Qed.

(** Every exercise of an assigned list keeps the invariant. *)
Lemma assign_all_volume_ok (protocols : list ProtocolDef.t) (day : DayType)
    (defs : list ExerciseDef.t) :
  Forall (fun p => protocol_volume_ok p = true) protocols ->
  forall (r r' : Engine.Rand C) (exs : list Exercise.t),
    Engine.assign_all C protocols day defs r = (Some exs, r') ->
    Forall (fun e => exercise_volume_ok e = true) exs.
Proof.
  intros Hall. induction defs as [|d rest IH]; intros r r' exs.
  - cbn. intros H. inversion H. constructor.
  - cbn [Engine.assign_all].
    destruct (Engine.assign_protocol C protocols day (Engine.power_note d) d r)
      as [e r1] eqn:Ea.
    destruct (Engine.assign_all C protocols day rest r1) as [es r2] eqn:Er.
    destruct e as [e|]; [|discriminate].
    destruct es as [es|]; [|discriminate].
    intros H. inversion H; subst. constructor.
    + eapply assign_protocol_volume_ok; eassumption.
    + eapply IH. exact Er.
Qed.

Lemma select_and_assign_volume_ok (lib : Engine.Library) (q : Questionnaire.t)
    (day : DayType) (bucket : Engine.Bucket) (power : bool)
    (excluded : list string) (r r' : Engine.Rand C) (exs : list Exercise.t) :
  Forall (fun p => protocol_volume_ok p = true) (Engine.library_protocols lib) ->
  Engine.select_and_assign C lib q day bucket power excluded r = (Engine.Ok exs, r') ->
  Forall (fun e => exercise_volume_ok e = true) exs.
Proof.
  intros Hall. unfold Engine.select_and_assign.
  destruct (Engine.fill_slots C _ _ _ _ _ _ _) as [[defs|] r1]; [|discriminate].
  destruct (Engine.assign_all C _ _ defs r1) as [[exs'|] r2] eqn:Ea;
    [|discriminate].
  intros H. inversion H; subst. eapply assign_all_volume_ok; eassumption.
Qed.






End VolumeFacts.

Section SessionVolumeFacts.

Variable C : Engine.Collaborators.




Lemma generate_volume_ok (lib : Engine.Library) (now : Z) (serial : nat)
    (q : QuestionnaireState.t) (override_bucket : option Engine.Bucket)
    (st st' : Engine.State) (r r' : Engine.Rand C) (s : Engine.Session) :
  Forall (fun p => protocol_volume_ok p = true) (Engine.library_protocols lib) ->
  Engine.generate C lib now serial q override_bucket st r = (Engine.Ok s, st', r') ->
  Forall (fun e => exercise_volume_ok e = true) (Engine.exercises s).
Proof.
  intros Hall. unfold Engine.generate.
  destruct (Engine.validate q) as [q'|]; [|discriminate].
  destruct (Engine.determine_day_type q' st) as [day st1].
  destruct (Engine.select_and_assign _ _ _ _ _ _ _ _) as [[exs|e] r1] eqn:Es;
    [|discriminate].
  intros H. inversion H; subst. cbn.
  eapply select_and_assign_volume_ok; eassumption.
Qed.

Lemma reroll_volume_ok (lib : Engine.Library) (now : Z) (serial : nat)
    (q : QuestionnaireState.t) (override_bucket : option Engine.Bucket)
    (pd pb : bool) (previous : option Engine.Session)
    (st st' : Engine.State) (r r' : Engine.Rand C) (s : Engine.Session) :
  Forall (fun p => protocol_volume_ok p = true) (Engine.library_protocols lib) ->
  Engine.reroll C lib now serial q override_bucket pd pb previous st r
    = (Engine.Ok s, st', r') ->
  Forall (fun e => exercise_volume_ok e = true) (Engine.exercises s).
Proof.
  intros Hall. unfold Engine.reroll.
  destruct (Engine.validate q) as [q'|]; [|discriminate].
  destruct (match pd, previous with
            | true, Some s => (Engine.day_type s, st)
            | _, _ => Engine.determine_day_type q' st
            end) as [day st1].
  destruct (Engine.select_and_assign _ _ _ _ _ _ _ _) as [[exs|e] r1] eqn:Es;
    [|discriminate].
  intros H. inversion H; subst. cbn.
  eapply select_and_assign_volume_ok; eassumption.
Qed.

Lemma swap_volume_ok (lib : Engine.Library) (s : Engine.Session)
    (exercise_id context : string) (r r' : Engine.Rand C) (e : Exercise.t) :
  Forall (fun p => protocol_volume_ok p = true) (Engine.library_protocols lib) ->
  Engine.swap C lib s exercise_id context r = (Engine.Ok e, r') ->
  exercise_volume_ok e = true.
Proof.
  intros Hall. unfold Engine.swap.
  destruct (find _ (Engine.exercises s)) as [current|]; [|discriminate].
  destruct (Engine.swap_candidates lib context current) as [|c cs];
    [discriminate|].
  destruct (Engine.choose C (c :: cs) r) as [[d|] r1]; [|discriminate].
  destruct (Engine.assign_protocol C _ _ _ d r1) as [[e'|] r2] eqn:Ea;
    [|discriminate].
  intros H. inversion H; subst.
  eapply assign_protocol_volume_ok; eassumption.
Qed.


End SessionVolumeFacts.



(** * Further properties of the client *)

(** ** Home screen *)

Section HomeFacts.

Variable Srv : Type.
Variable backend : Backend Srv.

(** [isComplete] holds exactly when all five questions are answered. *)
Lemma isComplete_iff (q : QuestionnaireState.t) :
  isComplete q = true <->
  QuestionnaireState.feeling q <> None
  /\ QuestionnaireState.sleep q <> None
  /\ QuestionnaireState.pain q <> None
  /\ QuestionnaireState.time_available q <> None
  /\ QuestionnaireState.equipment q <> None.
Proof.
  unfold isComplete.
  destruct (QuestionnaireState.feeling q), (QuestionnaireState.sleep q),
    (QuestionnaireState.pain q), (QuestionnaireState.time_available q),
    (QuestionnaireState.equipment q);
    split; intros H; try discriminate; try reflexivity;
    try (repeat split; discriminate);
    destruct H as (H1 & H2 & H3 & H4 & H5); congruence.
Qed.

(** With an answer missing, [generateSession] returns at once: the
    world stays what it was, no request, no navigation, no spinner. *)
Theorem generateSession_incomplete (w : World Srv) :
  isComplete (questionnaire (home_screen w)) = false ->
  execState (generateSession backend) w = w.
Proof.
  intros Hc. run_handler generateSession. rewrite Hc. destruct w; reflexivity.
Qed.

(** X1. When the Generate request fails before a JSON body is read, the
    store is untouched, the app stays on the home screen, the error is
    logged once and the spinner is off again. *)
Theorem generateSession_throws (w : World Srv) :
  isComplete (questionnaire (home_screen w)) = true ->
  (fst (api_generate backend (generate_payload w) (server w)) = NetworkError
   \/ exists ok,
        fst (api_generate backend (generate_payload w) (server w)) = NotJson ok) ->
  let w' := execState (generateSession backend) w in
  store w' = store w
  /\ nav_log w' = nav_log w
  /\ console w' = (console w ++ ["Error generating session:"])%list
  /\ hs_loading (home_screen w') = false
  /\ questionnaire (home_screen w') = questionnaire (home_screen w)
  /\ http_log w' = (http_log w ++ [POST_generate (generate_payload w)])%list.
Proof.
  intros Hc Hout. run_handler generateSession. rewrite Hc. cbn.
  destruct (api_generate backend (generate_payload w) (server w)) as [res srv'].
  cbn in Hout.
  destruct Hout as [->|[ok ->]]; cbn; repeat split; destruct (store w); reflexivity.
Qed.

(** X2. Whenever the Generate request is answered with a JSON body,
    whatever its status and whatever the body, that body becomes
    [currentSession], the questionnaire just sent is the one kept for
    Reroll, and the app moves to the session screen. *)
Theorem generateSession_answered (w : World Srv) (ok : bool)
    (body : Parsed Session.t) :
  isComplete (questionnaire (home_screen w)) = true ->
  fst (api_generate backend (generate_payload w) (server w)) = Json ok body ->
  let w' := execState (generateSession backend) w in
  currentSession (store w') = Some body
  /\ lastQuestionnaire (store w') = Some (questionnaire (home_screen w))
  /\ userState (store w') = userState (store w)
  /\ overrideBucket (store w') = overrideBucket (store w)
  /\ nav_log w' = (nav_log w ++ [router_push "/session"])%list
  /\ console w' = console w
  /\ hs_loading (home_screen w') = false
  /\ http_log w' = (http_log w ++ [POST_generate (generate_payload w)])%list.
Proof.
  intros Hc Hout. run_handler generateSession. rewrite Hc. cbn.
  destruct (api_generate backend (generate_payload w) (server w)) as [res srv'].
  cbn in Hout. subst res. cbn. repeat split; reflexivity.
Qed.

(** The bucket shown on the focus tag is never the empty string: the
    override if there is one, else the stored next bucket, else squat. *)
Theorem currentBucket_not_empty (s : TrainingStore) :
  currentBucket s <> EmptyString
  /\ (forall b, truthy_string (overrideBucket s) = Some b -> currentBucket s = b)
  /\ (truthy_string (overrideBucket s) = None ->
      truthy_string (opt_field UserState.next_priority_bucket (userState s)) = None ->
      currentBucket s = "squat").
Proof.
  unfold currentBucket, or_else.
  assert (Ht : forall x b, truthy_string x = Some b -> b <> EmptyString).
  { intros [t|] b; cbn; [|discriminate].
    destruct (String.eqb_spec t EmptyString); [discriminate|].
    intros H; inversion H; subst; assumption. }
  split; [|split].
  - destruct (truthy_string (overrideBucket s)) as [b|] eqn:Eo;
      [exact (Ht _ _ Eo)|].
    destruct (truthy_string (opt_field UserState.next_priority_bucket (userState s)))
      as [b|] eqn:En; [exact (Ht _ _ En)|discriminate].
  - intros b Hb. rewrite Hb. reflexivity.
  - intros Ho Hn. rewrite Ho, Hn. reflexivity.
Qed.

(** X3. After a bucket is selected in the focus modal, the focus tag shows
    that bucket, whether it was stored as an override or reset to auto;
    selecting it once more changes nothing. *)
Theorem handleBucketSelect_shows_bucket (bucket : string) (w : World Srv) :
  bucket <> EmptyString ->
  let w1 := execState (handleBucketSelect Srv bucket) w in
  currentBucket (store w1) = bucket
  /\ execState (handleBucketSelect Srv bucket) w1 = w1
  /\ http_log w1 = http_log w
  /\ userState (store w1) = userState (store w)
  /\ currentSession (store w1) = currentSession (store w)
  /\ showFocusModal (home_screen w1) = false.
Proof.
  intros Hne w1. unfold w1. rewrite !handleBucketSelect_run. cbn.
  assert (Htb : truthy_string (Some bucket) = Some bucket).
  { cbn. destruct (String.eqb_spec bucket EmptyString); [contradiction|reflexivity]. }
  split; [|repeat split].
  unfold currentBucket. cbn.
  destruct (opt_field UserState.next_priority_bucket (userState (store w)))
    as [n|] eqn:En; cbn.
  - destruct (String.eqb_spec bucket n) as [E|E]; cbn.
    + subst n. unfold or_else. rewrite Htb. reflexivity.
    + rewrite (proj2 (String.eqb_neq bucket EmptyString) Hne). reflexivity.
  - rewrite (proj2 (String.eqb_neq bucket EmptyString) Hne). reflexivity.
Qed.

End HomeFacts.

(** ** Session screen: the exercise list under swaps *)

Section SwapListFacts.

(** The list keeps its length. *)
Lemma replace_by_id_length (i : string) (n : Parsed Exercise.t)
    (l : list (Parsed Exercise.t)) :
  length (replace_by_id i n l) = length l.
Proof. unfold replace_by_id. apply length_map. Qed.

(** Position by position: the new value where the id matches, the old one
    elsewhere. *)
Lemma replace_by_id_nth (i : string) (n : Parsed Exercise.t)
    (l : list (Parsed Exercise.t)) (k : nat) :
  nth_error (replace_by_id i n l) k =
    option_map (fun ex => if strict_eq i (field Exercise.id ex) then n else ex)
      (nth_error l k).
Proof. unfold replace_by_id. apply nth_error_map. Qed.

(** With no exercise of that id in the list, nothing changes. *)
Lemma replace_by_id_miss (i : string) (n : Parsed Exercise.t)
    (l : list (Parsed Exercise.t)) :
  Forall (fun ex => field Exercise.id ex <> Some i) l ->
  replace_by_id i n l = l.
Proof.
  unfold replace_by_id. induction 1 as [|ex l Hex _ IH]; cbn; [reflexivity|].
  rewrite IH. destruct (field Exercise.id ex) as [j|]; cbn; [|reflexivity].
  destruct (String.eqb_spec i j); [subst; contradiction|reflexivity].
Qed.

(** Once replaced by a value of another id, the id is gone from the
    list. *)
Lemma replace_by_id_gone (i : string) (n : Parsed Exercise.t)
    (l : list (Parsed Exercise.t)) :
  field Exercise.id n <> Some i ->
  Forall (fun ex => field Exercise.id ex <> Some i) (replace_by_id i n l).
Proof.
  intros Hn. unfold replace_by_id. apply Forall_map, Forall_forall.
  intros ex _. destruct (field Exercise.id ex) as [j|] eqn:Ej; cbn.
  - destruct (String.eqb_spec i j); [exact Hn|]. rewrite Ej. congruence.
  - rewrite Ej. discriminate.
Qed.

End SwapListFacts.

Section SessionFacts.

Variable Srv : Type.
Variable backend : Backend Srv.

(** Everything [handleSwap] leaves behind, on a screen with a session
    and a list. *)
Lemma handleSwap_outcome (session : Parsed Session.t)
    (l : list (Parsed Exercise.t)) (exerciseId : string) (w : World Srv) :
  currentSession (store w) = Some session ->
  exercises (session_screen w) = Some l ->
  let w' := execState (handleSwap backend exerciseId) w in
  let res := fst (api_swap backend (swap_body session exerciseId) (server w)) in
  store w' = store w
  /\ nav_log w' = nav_log w
  /\ home_screen w' = home_screen w
  /\ swappingId (session_screen w') = None
  /\ ss_loading (session_screen w') = ss_loading (session_screen w)
  /\ http_log w' = (http_log w ++ [POST_swap (swap_body session exerciseId)])%list
  /\ exercises (session_screen w') =
       match res with
       | Json _ newExercise => Some (replace_by_id exerciseId newExercise l)
       | NetworkError | NotJson _ => Some l
       end
  /\ console w' =
       match res with
       | Json _ _ => console w
       | NetworkError | NotJson _ =>
           (console w ++ ["Error swapping exercise:"])%list
       end.
Proof.
  intros Hs Hl. run_handler handleSwap. rewrite Hs. cbn.
  destruct (api_swap backend (swap_body session exerciseId) (server w))
    as [res srv'].
  destruct res; cbn; rewrite ?Hl; cbn; repeat split; destruct (store w); auto.
Qed.

(** X4. When the swap request fails before a JSON body is read, the list
    of exercises is the one before, the store is untouched, the error is
    logged and the swap spinner is off. *)
Theorem handleSwap_throws (session : Parsed Session.t)
    (l : list (Parsed Exercise.t)) (exerciseId : string) (w : World Srv) :
  currentSession (store w) = Some session ->
  exercises (session_screen w) = Some l ->
  (fst (api_swap backend (swap_body session exerciseId) (server w)) = NetworkError
   \/ exists ok,
        fst (api_swap backend (swap_body session exerciseId) (server w)) = NotJson ok) ->
  let w' := execState (handleSwap backend exerciseId) w in
  exercises (session_screen w') = Some l
  /\ store w' = store w
  /\ swappingId (session_screen w') = None
  /\ console w' = (console w ++ ["Error swapping exercise:"])%list.
Proof.
  intros Hs Hl Hout w'.
  destruct (@handleSwap_outcome session l exerciseId w Hs Hl)
    as (Hst & _ & _ & Hsw & _ & _ & He & Hc).
  fold w' in Hst, Hsw, He, Hc.
  destruct Hout as [Hout|[ok Hout]]; rewrite Hout in He, Hc; auto.
Qed.

(** X5. A swap answered with a JSON body keeps the length of the list
    and every exercise of another id in its place; every position holding
    the swapped id takes the new value, duplicates included; and a swap of
    an id that is not in the list changes nothing in it, though the
    request is sent. *)
Theorem handleSwap_answered (session : Parsed Session.t)
    (l : list (Parsed Exercise.t)) (exerciseId : string) (ok : bool)
    (newExercise : Parsed Exercise.t) (w : World Srv) :
  currentSession (store w) = Some session ->
  exercises (session_screen w) = Some l ->
  fst (api_swap backend (swap_body session exerciseId) (server w))
    = Json ok newExercise ->
  let w' := execState (handleSwap backend exerciseId) w in
  exists l',
    exercises (session_screen w') = Some l'
    /\ length l' = length l
    /\ (forall k ex, nth_error l k = Some ex ->
          field Exercise.id ex <> Some exerciseId ->
          nth_error l' k = Some ex)
    /\ (forall k ex, nth_error l k = Some ex ->
          field Exercise.id ex = Some exerciseId ->
          nth_error l' k = Some newExercise)
    /\ (Forall (fun ex => field Exercise.id ex <> Some exerciseId) l -> l' = l)
    /\ http_log w' =
         (http_log w ++ [POST_swap (swap_body session exerciseId)])%list.
Proof.
  intros Hs Hl Hout w'.
  destruct (@handleSwap_outcome session l exerciseId w Hs Hl)
    as (_ & _ & _ & _ & _ & Hlog & He & _).
  fold w' in Hlog, He. rewrite Hout in He.
  exists (replace_by_id exerciseId newExercise l).
  split; [exact He|]. split; [apply replace_by_id_length|].
  split; [|split; [|split; [apply replace_by_id_miss|exact Hlog]]].
  - intros k ex Hk Hid. rewrite replace_by_id_nth, Hk. cbn.
    destruct (field Exercise.id ex) as [j|]; cbn; [|reflexivity].
    destruct (String.eqb_spec exerciseId j); [subst; contradiction|reflexivity].
  - intros k ex Hk Hid. rewrite replace_by_id_nth, Hk. cbn.
    rewrite Hid. cbn. rewrite String.eqb_refl. reflexivity.
Qed.

(** X6. After a swap answered with a body of another id, no exercise of
    the swapped id is left in the list, so swapping that id again, however
    the request is answered, leaves the list as the first swap made it. *)
Theorem handleSwap_twice (session : Parsed Session.t)
    (l : list (Parsed Exercise.t)) (exerciseId : string) (ok : bool)
    (newExercise : Parsed Exercise.t) (w : World Srv) :
  currentSession (store w) = Some session ->
  exercises (session_screen w) = Some l ->
  fst (api_swap backend (swap_body session exerciseId) (server w))
    = Json ok newExercise ->
  field Exercise.id newExercise <> Some exerciseId ->
  let w1 := execState (handleSwap backend exerciseId) w in
  let w2 := execState (handleSwap backend exerciseId) w1 in
  exists l1,
    exercises (session_screen w1) = Some l1
    /\ Forall (fun ex => field Exercise.id ex <> Some exerciseId) l1
    /\ exercises (session_screen w2) = Some l1.
Proof.
  intros Hs Hl Hout Hid w1 w2.
  destruct (@handleSwap_outcome session l exerciseId w Hs Hl)
    as (Hst & _ & _ & _ & _ & _ & He & _).
  fold w1 in Hst, He. rewrite Hout in He.
  exists (replace_by_id exerciseId newExercise l).
  split; [exact He|]. split; [apply replace_by_id_gone; exact Hid|].
  assert (Hs1 : currentSession (store w1) = Some session)
    by (rewrite Hst; exact Hs).
  destruct (@handleSwap_outcome session _ exerciseId w1 Hs1 He)
    as (_ & _ & _ & _ & _ & _ & He2 & _).
  fold w2 in He2. rewrite He2.
  destruct (fst (api_swap backend (swap_body session exerciseId) (server w1)));
    try reflexivity.
  rewrite replace_by_id_miss; [reflexivity|].
  apply replace_by_id_gone; exact Hid.
Qed.

(** What the session screen shows when it mounts depends on the store
    alone. *)
Lemma mount_session_screen_run (w : World Srv) :
  let w' := execState (mount_session_screen Srv) w in
  store w' = store w
  /\ http_log w' = http_log w
  /\ ss_loading (session_screen w') = false
  /\ swappingId (session_screen w') = None
  /\ exercises (session_screen w') =
       Some match currentSession (store w) with
            | Some (Shaped s) => map (@Shaped Exercise.t) (Session.exercises s)
            | Some (ErrorDetail _) | None => []
            end.
Proof.
  run_handler mount_session_screen.
  destruct (currentSession (store w)) as [[s|d]|]; repeat split; destruct (store w); reflexivity.
Qed.

(** X7. A swap changes the list on screen only: [currentSession] in the
    store keeps the exercises it came with, whatever the answer, so a
    session screen mounted afresh shows the list from before the swap. *)
Theorem handleSwap_not_in_store (exerciseId : string) (w : World Srv) :
  let w1 := execState (handleSwap backend exerciseId) w in
  store w1 = store w
  /\ exercises (session_screen (execState (mount_session_screen Srv) w1))
     = exercises (session_screen (execState (mount_session_screen Srv) w)).
Proof.
  intros w1.
  assert (Hst : store w1 = store w).
  { unfold w1. run_handler handleSwap.
    destruct (currentSession (store w)) as [session|]; cbn; [|reflexivity].
    destruct (api_swap backend (swap_body session exerciseId) (server w))
      as [res srv'].
    destruct res; cbn; try (destruct (store w); reflexivity).
    destruct (exercises (session_screen w)); cbn; destruct (store w); reflexivity. }
  split; [exact Hst|].
  destruct (mount_session_screen_run w1) as (_ & _ & _ & _ & H1).
  destruct (mount_session_screen_run w) as (_ & _ & _ & _ & H0).
  rewrite H1, H0, Hst. reflexivity.
Qed.

End SessionFacts.

(** ** Session screen: reroll and complete *)

Section RerollCompleteFacts.

Variable Srv : Type.
Variable backend : Backend Srv.

(** With no questionnaire kept in the store, [handleReroll] returns
    at once: no request is sent and the world is what it was. *)
Theorem handleReroll_without_questionnaire (w : World Srv) :
  lastQuestionnaire (store w) = None ->
  execState (handleReroll backend) w = w.
Proof.
  intros Hq. run_handler handleReroll. rewrite Hq. destruct w; reflexivity.
Qed.

(** Everything [handleReroll] leaves behind, with a questionnaire kept. *)
Lemma handleReroll_outcome (q : QuestionnaireState.t) (w : World Srv) :
  lastQuestionnaire (store w) = Some q ->
  let w' := execState (handleReroll backend) w in
  let res := fst (api_reroll backend (reroll_body q) (server w)) in
  ss_loading (session_screen w') = false
  /\ swappingId (session_screen w') = swappingId (session_screen w)
  /\ nav_log w' = nav_log w
  /\ home_screen w' = home_screen w
  /\ http_log w' = (http_log w ++ [POST_reroll (reroll_body q)])%list
  /\ lastQuestionnaire (store w') = Some q
  /\ userState (store w') = userState (store w)
  /\ overrideBucket (store w') = overrideBucket (store w)
  /\ currentSession (store w') =
       match res with
       | Json _ session => Some session
       | NetworkError | NotJson _ => currentSession (store w)
       end
  /\ exercises (session_screen w') =
       match res with
       | Json _ session => session_exercises session
       | NetworkError | NotJson _ => exercises (session_screen w)
       end
  /\ console w' =
       match res with
       | Json _ _ => console w
       | NetworkError | NotJson _ =>
           (console w ++ ["Error rerolling session:"])%list
       end.
Proof.
  intros Hq. run_handler handleReroll. rewrite Hq. cbn.
  destruct (api_reroll backend (reroll_body q) (server w)) as [res srv'].
  destruct res; cbn; repeat split; auto.
Qed.

(** X8. When the reroll request fails before a JSON body is read, the
    session in the store and the list on screen are the ones before, the
    error is logged and the spinner is off. *)
Theorem handleReroll_throws (q : QuestionnaireState.t) (w : World Srv) :
  lastQuestionnaire (store w) = Some q ->
  (fst (api_reroll backend (reroll_body q) (server w)) = NetworkError
   \/ exists ok, fst (api_reroll backend (reroll_body q) (server w)) = NotJson ok) ->
  let w' := execState (handleReroll backend) w in
  currentSession (store w') = currentSession (store w)
  /\ exercises (session_screen w') = exercises (session_screen w)
  /\ lastQuestionnaire (store w') = Some q
  /\ ss_loading (session_screen w') = false
  /\ console w' = (console w ++ ["Error rerolling session:"])%list.
Proof.
  intros Hq Hout w'.
  destruct (@handleReroll_outcome q w Hq)
    as (Hld & _ & _ & _ & _ & Hlq & _ & _ & Hcur & Hex & Hc).
  fold w' in Hld, Hlq, Hcur, Hex, Hc.
  destruct Hout as [Hout|[ok Hout]]; rewrite Hout in Hcur, Hex, Hc; auto.
Qed.

(** X9. After a reroll answered with a session, the list on screen is
    exactly the list of the session now in the store: swaps made before
    are gone, the questionnaire kept is the same, and the app stays on the
    session screen with the spinner off. *)
Theorem handleReroll_answered (q : QuestionnaireState.t) (ok : bool)
    (s : Session.t) (w : World Srv) :
  lastQuestionnaire (store w) = Some q ->
  fst (api_reroll backend (reroll_body q) (server w)) = Json ok (Shaped s) ->
  let w' := execState (handleReroll backend) w in
  currentSession (store w') = Some (Shaped s)
  /\ exercises (session_screen w')
     = Some (map (@Shaped Exercise.t) (Session.exercises s))
  /\ exercises (session_screen w')
     = exercises (session_screen (execState (mount_session_screen Srv) w'))
  /\ lastQuestionnaire (store w') = Some q
  /\ nav_log w' = nav_log w
  /\ ss_loading (session_screen w') = false.
Proof.
  intros Hq Hout w'.
  destruct (@handleReroll_outcome q w Hq)
    as (Hld & _ & Hnav & _ & _ & Hlq & _ & _ & Hcur & Hex & _).
  fold w' in Hld, Hnav, Hlq, Hcur, Hex. rewrite Hout in Hcur, Hex.
  destruct (mount_session_screen_run w') as (_ & _ & _ & _ & Hm).
  rewrite Hm, Hcur, Hex. repeat split; auto.
Qed.

(** Everything [handleComplete] leaves behind, on a screen with a
    session. *)
Lemma handleComplete_outcome (session : Parsed Session.t) (feedback : Feedback)
    (w : World Srv) :
  currentSession (store w) = Some session ->
  let w' := execState (handleComplete backend feedback) w in
  let res := fst (api_complete backend (complete_body session feedback) (server w)) in
  ss_loading (session_screen w') = false
  /\ exercises (session_screen w') = exercises (session_screen w)
  /\ http_log w' =
       (http_log w ++ [POST_complete (complete_body session feedback)])%list
  /\ userState (store w') = userState (store w)
  /\ lastQuestionnaire (store w') = lastQuestionnaire (store w)
  /\ match res with
     | NetworkError =>
         store w' = store w
         /\ nav_log w' = nav_log w
         /\ console w' = (console w ++ ["Error completing session:"])%list
     | NotJson _ | Json _ _ =>
         currentSession (store w') = None
         /\ overrideBucket (store w') = None
         /\ nav_log w' = (nav_log w ++ [router_replace "/"])%list
         /\ console w' = console w
     end.
Proof.
  intros Hs. run_handler handleComplete. rewrite Hs. cbn.
  destruct (api_complete backend (complete_body session feedback) (server w))
    as [res srv'].
  destruct res; cbn; repeat split; destruct (store w); auto.
Qed.

(** X10. When the Complete request is rejected by the network, the
    session and the override stay in the store, the app stays on the
    session screen, and the error is logged: the user can press Done
    again. *)
Theorem handleComplete_network_failure (session : Parsed Session.t)
    (feedback : Feedback) (w : World Srv) :
  currentSession (store w) = Some session ->
  fst (api_complete backend (complete_body session feedback) (server w))
    = NetworkError ->
  let w' := execState (handleComplete backend feedback) w in
  store w' = store w
  /\ nav_log w' = nav_log w
  /\ ss_loading (session_screen w') = false
  /\ console w' = (console w ++ ["Error completing session:"])%list.
Proof.
  intros Hs Hout w'.
  destruct (@handleComplete_outcome session feedback w Hs)
    as (Hld & _ & _ & _ & _ & H).
  fold w' in Hld, H. rewrite Hout in H. destruct H as (H1 & H2 & H3). auto.
Qed.

(** X11. Whenever the Complete request is answered at all, with any
    status and any body, JSON or not, the session is dropped from the
    store and the app returns to the home screen without logging
    anything: the answer is never looked at.  The questionnaire kept for
    Reroll stays. *)
Theorem handleComplete_answered (session : Parsed Session.t)
    (feedback : Feedback) (w : World Srv) :
  currentSession (store w) = Some session ->
  fst (api_complete backend (complete_body session feedback) (server w))
    <> NetworkError ->
  let w' := execState (handleComplete backend feedback) w in
  currentSession (store w') = None
  /\ nav_log w' = (nav_log w ++ [router_replace "/"])%list
  /\ console w' = console w
  /\ lastQuestionnaire (store w') = lastQuestionnaire (store w)
  /\ userState (store w') = userState (store w)
  /\ ss_loading (session_screen w') = false.
Proof.
  intros Hs Hout w'.
  destruct (@handleComplete_outcome session feedback w Hs)
    as (Hld & _ & _ & Hus & Hlq & H).
  fold w' in Hld, Hus, Hlq, H.
  destruct (fst (api_complete backend (complete_body session feedback) (server w)));
    [contradiction| |]; destruct H as (H1 & _ & H3 & H4); auto 7.
Qed.

End RerollCompleteFacts.

(** ** The store: state fetch and override toggle *)

Section StoreFacts.

Variable Srv : Type.
Variable backend : Backend Srv.

(** Everything [toggleCooldownOverride] leaves behind, with a state in
    the store. *)
Lemma toggleCooldownOverride_outcome (us : Parsed UserState.t) (w : World Srv) :
  userState (store w) = Some us ->
  let w' := execState (toggleCooldownOverride backend) w in
  let res := fst (api_settings backend (toggle_body us) (server w)) in
  server w' = snd (api_settings backend (toggle_body us) (server w))
  /\ http_log w' = (http_log w ++ [PUT_settings (toggle_body us)])%list
  /\ currentSession (store w') = currentSession (store w)
  /\ lastQuestionnaire (store w') = lastQuestionnaire (store w)
  /\ overrideBucket (store w') = overrideBucket (store w)
  /\ nav_log w' = nav_log w
  /\ userState (store w') =
       match res with
       | Json _ data => Some data
       | NetworkError | NotJson _ => Some us
       end
  /\ console w' =
       match res with
       | Json _ _ => console w
       | NetworkError | NotJson _ =>
           (console w ++ ["Error toggling cooldown override:"])%list
       end.
Proof.
  intros Hus. run_handler toggleCooldownOverride. rewrite Hus. cbn.
  destruct (api_settings backend (toggle_body us) (server w)) as [res srv'].
  destruct res; cbn; repeat split; auto.
Qed.

(** X12. The toggle negates what the server last answered, not what the
    user last asked for: after a toggle answered with a user state, the
    next toggle writes the negation of the flag in that answer.  So when
    the server echoes the written flag, two toggles write the negation
    and then the original value; when it answers with the old flag, the
    same value is written again. *)
Theorem toggleCooldownOverride_twice (u0 u1 : UserState.t) (ok : bool)
    (w : World Srv) :
  userState (store w) = Some (Shaped u0) ->
  fst (api_settings backend
         (override_write (negb (UserState.cooldown_override u0))) (server w))
    = Json ok (Shaped u1) ->
  let w1 := execState (toggleCooldownOverride backend) w in
  let w2 := execState (toggleCooldownOverride backend) w1 in
  http_log w2 =
    (http_log w
     ++ [PUT_settings (override_write (negb (UserState.cooldown_override u0)));
         PUT_settings (override_write (negb (UserState.cooldown_override u1)))])%list
  /\ (UserState.cooldown_override u1 = negb (UserState.cooldown_override u0) ->
      nth_error (http_log w2) (S (length (http_log w)))
      = Some (PUT_settings (override_write (UserState.cooldown_override u0))))
  /\ (UserState.cooldown_override u1 = UserState.cooldown_override u0 ->
      nth_error (http_log w2) (S (length (http_log w)))
      = nth_error (http_log w2) (length (http_log w))).
Proof.
  intros Hus Hout w1 w2.
  destruct (@toggleCooldownOverride_outcome (Shaped u0) w Hus)
    as (_ & Hlog1 & _ & _ & _ & _ & Hus1 & _).
  fold w1 in Hlog1, Hus1.
  change (toggle_body (Shaped u0))
    with (override_write (negb (UserState.cooldown_override u0))) in *.
  rewrite Hout in Hus1.
  destruct (@toggleCooldownOverride_outcome (Shaped u1) w1 Hus1)
    as (_ & Hlog2 & _).
  fold w2 in Hlog2.
  change (toggle_body (Shaped u1))
    with (override_write (negb (UserState.cooldown_override u1))) in *.
  assert (Hlog : http_log w2 =
    (http_log w
     ++ [PUT_settings (override_write (negb (UserState.cooldown_override u0)));
         PUT_settings (override_write (negb (UserState.cooldown_override u1)))])%list).
  { rewrite Hlog2, Hlog1, <- app_assoc. reflexivity. }
  split; [exact Hlog|]. rewrite Hlog.
  split; intros E.
  - rewrite nth_error_app2 by lia.
    replace (S (length (http_log w)) - length (http_log w))%nat with 1%nat by lia.
    cbn. rewrite E, negb_involutive. reflexivity.
  - rewrite !nth_error_app2 by lia.
    replace (S (length (http_log w)) - length (http_log w))%nat with 1%nat by lia.
    replace (length (http_log w) - length (http_log w))%nat with 0%nat by lia.
    cbn. rewrite E. reflexivity.
Qed.

(** X13. When the settings request fails before a JSON body is read, the
    user state in the store is the one before and the error is logged;
    nothing else in the store moves either way. *)
Theorem toggleCooldownOverride_throws (us : Parsed UserState.t) (w : World Srv) :
  userState (store w) = Some us ->
  (fst (api_settings backend (toggle_body us) (server w)) = NetworkError
   \/ exists ok, fst (api_settings backend (toggle_body us) (server w)) = NotJson ok) ->
  let w' := execState (toggleCooldownOverride backend) w in
  store w' = store w
  /\ console w' = (console w ++ ["Error toggling cooldown override:"])%list
  /\ nav_log w' = nav_log w.
Proof.
  intros Hus Hout w'.
  destruct (@toggleCooldownOverride_outcome us w Hus)
    as (_ & _ & Hcur & Hlq & Hov & Hnav & Hus' & Hc).
  fold w' in Hcur, Hlq, Hov, Hnav, Hus', Hc.
  assert (E : userState (store w') = userState (store w)
              /\ console w' = (console w ++ ["Error toggling cooldown override:"])%list).
  { destruct Hout as [Hout|[ok Hout]]; rewrite Hout in Hus', Hc;
      rewrite Hus; auto. }
  destruct E as [E1 E2]. split; [|auto].
  destruct (store w'), (store w); cbn in *; congruence.
Qed.

(** X14. Fetching the state twice from an endpoint that answers the same
    both times leaves the store as one fetch does; a fetch never touches
    the session, the questionnaire kept or the override. *)
Theorem fetchUserState_idempotent (w : World Srv) :
  let w1 := execState (fetchUserState backend) w in
  let w2 := execState (fetchUserState backend) w1 in
  currentSession (store w1) = currentSession (store w)
  /\ lastQuestionnaire (store w1) = lastQuestionnaire (store w)
  /\ overrideBucket (store w1) = overrideBucket (store w)
  /\ nav_log w1 = nav_log w
  /\ (fst (api_state backend (server w1)) = fst (api_state backend (server w)) ->
      store w2 = store w1).
Proof.
  intros w1 w2.
  destruct (fetchUserState_run backend w) as (_ & _ & Hc & Hl & Ho & Hu).
  destruct (fetchUserState_run backend w1) as (_ & _ & Hc2 & Hl2 & Ho2 & Hu2).
  fold w1 in Hc, Hl, Ho, Hu, Hc2, Hl2, Ho2, Hu2. fold w2 in Hc2, Hl2, Ho2, Hu2.
  repeat split; auto.
  - unfold w1. run_handler fetchUserState.
    destruct (api_state backend (server w)) as [res srv']. destruct res; reflexivity.
  - intros E. rewrite E in Hu2.
    assert (Hu' : userState (store w2) = userState (store w1)).
    { rewrite Hu2, Hu. destruct (fst (api_state backend (server w))); reflexivity. }
    destruct (store w2), (store w1); cbn in *; congruence.
Qed.

End StoreFacts.

(** ** Traces of user actions *)

Section TraceFacts.

Variable Srv : Type.
Variable backend : Backend Srv.

Lemma run_trace_app (t1 t2 : list Action) (w : World Srv) :
  execState (run_trace backend (t1 ++ t2)) w
  = execState (run_trace backend t2) (execState (run_trace backend t1) w).
Proof.
  revert w. induction t1 as [|a t1 IH]; intros w.
  - destruct w; reflexivity.
  - cbn [app run_trace]. rewrite !execState_seq. apply IH.
Qed.

(** The store stays well formed when the questionnaire kept is the old
    one or a complete one, and the override is the old one, null, or one
    of [BUCKET_ORDER]. *)
Lemma store_well_formed_step (s s' : TrainingStore) :
  store_well_formed s = true ->
  (lastQuestionnaire s' = lastQuestionnaire s
   \/ exists q, lastQuestionnaire s' = Some q /\ isComplete q = true) ->
  (overrideBucket s' = overrideBucket s
   \/ overrideBucket s' = None
   \/ exists b, overrideBucket s' = Some b
                /\ existsb (String.eqb b) BUCKET_ORDER = true) ->
  store_well_formed s' = true.
Proof.
  unfold store_well_formed. intros Hs Hq Ho.
  apply andb_prop in Hs. destruct Hs as [Hs1 Hs2].
  apply andb_true_intro. split.
  - destruct Hq as [->|(q & -> & Hc)]; assumption.
  - destruct Ho as [->|[->|(b & -> & Hb)]]; auto.
Qed.

(** One more request, a well-formed one. *)
Lemma log_well_formed_step (l : list Request) (r : Request) :
  forallb well_formed_request l = true ->
  well_formed_request r = true ->
  forallb well_formed_request (l ++ [r]) = true.
Proof.
  intros Hl Hr. rewrite forallb_app, Hl. cbn. rewrite Hr. reflexivity.
Qed.

(** The payload of Generate is well formed in a well-formed store. *)
Lemma generate_payload_well_formed (w : World Srv) :
  store_well_formed (store w) = true ->
  isComplete (questionnaire (home_screen w)) = true ->
  well_formed_request (POST_generate (generate_payload w)) = true.
Proof.
  intros Hs Hc. cbn. rewrite Hc. cbn.
  unfold store_well_formed in Hs. apply andb_prop in Hs. destruct Hs as [_ Ho].
  destruct (overrideBucket (store w)) as [b|]; cbn; [|reflexivity].
  destruct (String.eqb b EmptyString); [reflexivity|exact Ho].
Qed.

(** A swap never writes the store and sends at most its one request. *)
Lemma handleSwap_store_log (exerciseId : string) (w : World Srv) :
  let w' := execState (handleSwap backend exerciseId) w in
  store w' = store w
  /\ (http_log w' = http_log w
      \/ exists body, http_log w' = (http_log w ++ [POST_swap body])%list).
Proof.
  run_handler handleSwap.
  destruct (currentSession (store w)) as [session|]; cbn; [|auto].
  destruct (api_swap backend (swap_body session exerciseId) (server w))
    as [res srv'].
  destruct res; cbn; try (split; [destruct (store w); reflexivity|eauto]).
  destruct (exercises (session_screen w)); cbn;
    (split; [destruct (store w); reflexivity|eauto]).
Qed.

(** Every action keeps the store and the request log well formed. *)
Lemma run_action_well_formed (a : Action) (w : World Srv) :
  store_well_formed (store w) = true ->
  forallb well_formed_request (http_log w) = true ->
  store_well_formed (store (execState (run_action backend a) w)) = true
  /\ forallb well_formed_request (http_log (execState (run_action backend a) w))
     = true.
Proof.
  intros Hs Hl. destruct a; cbn [run_action].
  - (* MountHome *)
    unfold mount_home_screen. rewrite execState_seq.
    destruct (fetchUserState_run backend
                (execState (with_home_screen Srv (fun _ => fresh_home_screen)) w))
      as (_ & Hlog & _ & Hq & Ho & _).
    split.
    + eapply store_well_formed_step; [exact Hs|left; exact Hq|left; exact Ho].
    + rewrite Hlog. apply log_well_formed_step; [exact Hl|reflexivity].
  - (* Select *)
    split; [exact Hs|exact Hl].
  - (* TapGenerate *)
    destruct (isComplete (questionnaire (home_screen w))) eqn:Hc.
    + destruct (generateSession_run backend w Hc) as (_ & _ & Ho & _ & Hq).
      split.
      * eapply store_well_formed_step; [exact Hs| |left; exact Ho].
        destruct (fst (api_generate backend (generate_payload w) (server w)));
          [left; exact Hq|left; exact Hq|right; eauto].
      * rewrite generateSession_log, Hc.
        apply log_well_formed_step;
          [exact Hl|apply generate_payload_well_formed; assumption].
    + assert (E : execState (generateSession backend) w = w)
        by (run_handler generateSession; rewrite Hc; destruct w; reflexivity).
      rewrite E. auto.
  - (* TapFocusOption *)
    unfold tapFocusOption.
    destruct (nth_error BUCKET_ORDER i) as [bucket|] eqn:Hb; [|auto].
    rewrite handleBucketSelect_run. cbn [store http_log]. split; [|exact Hl].
    eapply store_well_formed_step; [exact Hs|left; reflexivity|].
    cbn [overrideBucket].
    destruct (strict_eq bucket _); [right; left; reflexivity|].
    right; right. exists bucket. split; [reflexivity|].
    apply existsb_exists. exists bucket. split;
      [eapply nth_error_In; exact Hb|apply String.eqb_refl].
  - (* TapResetFocus *)
    run_handler resetFocus.
    destruct (truthy_string (overrideBucket (store w))); cbn; [|auto].
    split; [|exact Hl].
    eapply store_well_formed_step; [exact Hs|left; reflexivity|right; left; reflexivity].
  - (* TapToggleOverride *)
    destruct (userState (store w)) as [us|] eqn:Hus.
    + destruct (@toggleCooldownOverride_outcome Srv backend us w Hus)
        as (_ & Hlog & _ & Hq & Ho & _).
      split.
      * eapply store_well_formed_step; [exact Hs|left; exact Hq|left; exact Ho].
      * rewrite Hlog. apply log_well_formed_step; [exact Hl|reflexivity].
    + assert (E : execState (toggleCooldownOverride backend) w = w)
        by (run_handler toggleCooldownOverride; rewrite Hus; destruct w;
            reflexivity).
      rewrite E. auto.
  - (* MountSession *)
    destruct (mount_session_screen_run w) as (Hst & Hlog & _).
    rewrite Hst, Hlog. auto.
  - (* TapReroll *)
    destruct (lastQuestionnaire (store w)) as [q|] eqn:Hq.
    + destruct (@handleReroll_outcome Srv backend q w Hq)
        as (_ & _ & _ & _ & Hlog & Hq' & _ & Ho & _).
      split.
      * eapply store_well_formed_step;
          [exact Hs|left; rewrite Hq', Hq; reflexivity|left; exact Ho].
      * rewrite Hlog. apply log_well_formed_step; [exact Hl|].
        cbn. unfold store_well_formed in Hs. rewrite Hq in Hs.
        apply andb_prop in Hs. destruct Hs as [Hc _]. rewrite Hc. reflexivity.
    + assert (E : execState (handleReroll backend) w = w)
        by (run_handler handleReroll; rewrite Hq; destruct w; reflexivity).
      rewrite E. auto.
  - (* TapSwap *)
    destruct (handleSwap_store_log exerciseId w) as [Hst Hlog].
    rewrite Hst. split; [exact Hs|].
    destruct Hlog as [->|[body ->]]; [exact Hl|].
    apply log_well_formed_step; [exact Hl|reflexivity].
  - (* TapDone *)
    assert (Hdone : forall feedback,
      store_well_formed (store (execState (handleComplete backend feedback) w))
      = true
      /\ forallb well_formed_request
           (http_log (execState (handleComplete backend feedback) w)) = true).
    { intros feedback.
      destruct (currentSession (store w)) as [session|] eqn:Hcur.
      - destruct (@handleComplete_outcome Srv backend session feedback w Hcur)
          as (_ & _ & Hlog & _ & Hq & H).
        split; [|rewrite Hlog; apply log_well_formed_step; [exact Hl|reflexivity]].
        eapply store_well_formed_step; [exact Hs|left; exact Hq|].
        destruct (fst (api_complete backend _ (server w)));
          [destruct H as (-> & _); left; reflexivity
          |destruct H as (_ & -> & _); right; left; reflexivity
          |destruct H as (_ & -> & _); right; left; reflexivity].
      - assert (E : execState (handleComplete backend feedback) w = w)
          by (run_handler handleComplete; rewrite Hcur; destruct w; reflexivity).
        rewrite E. auto. }
    destruct choice; [apply Hdone|apply Hdone|].
    rewrite confirmComplete_cancel. auto.
  - (* TapDiscard *)
    destruct choice; cbn; auto.
Qed.

End TraceFacts.

Section TraceTheorems.

Variable Srv : Type.
Variable backend : Backend Srv.

(** Well-formedness is kept along any trace. *)
Lemma run_trace_well_formed (t : list Action) :
  forall w : World Srv,
    store_well_formed (store w) = true ->
    forallb well_formed_request (http_log w) = true ->
    store_well_formed (store (execState (run_trace backend t) w)) = true
    /\ forallb well_formed_request (http_log (execState (run_trace backend t) w))
       = true.
Proof.
  induction t as [|a t IH]; intros w Hs Hl.
  - destruct w; auto.
  - cbn [run_trace]. rewrite execState_seq.
    destruct (run_action_well_formed backend a w Hs Hl) as [Hs1 Hl1].
    apply IH; assumption.
Qed.

(** X15. Whatever the user does on the home and session screens, from the
    start of the app and against any backend, every Generate and Reroll
    request carries a questionnaire with all five answers, a Reroll
    request carries no flag, an override_bucket sent with Generate is one
    of [BUCKET_ORDER], and a settings write carries the override flag and
    nothing else. *)
Theorem requests_well_formed (srv : Srv) (t : list Action) :
  let w := execState (run_trace backend t) (boot srv) in
  (forall body, In (POST_generate body) (http_log w) ->
     isComplete (gp_questionnaire body) = true
     /\ (gp_override_bucket body = None
         \/ exists b, gp_override_bucket body = Some b /\ In b BUCKET_ORDER))
  /\ (forall body, In (POST_reroll body) (http_log w) ->
        isComplete (rb_questionnaire body) = true
        /\ rb_preserve_day_type body = None
        /\ rb_preserve_priority_bucket body = None)
  /\ (forall body, In (PUT_settings body) (http_log w) ->
        sb_week_mode body = None /\ sb_power_frequency body = None
        /\ sb_cooldown_override body <> None)
  /\ (forall q, lastQuestionnaire (store w) = Some q -> isComplete q = true)
  /\ (forall b, overrideBucket (store w) = Some b -> In b BUCKET_ORDER).
Proof.
  intros w.
  destruct (run_trace_well_formed t (boot srv) eq_refl eq_refl) as [Hs Hl].
  fold w in Hs, Hl. rewrite forallb_forall in Hl.
  assert (Hin : forall b, existsb (String.eqb b) BUCKET_ORDER = true ->
                          In b BUCKET_ORDER).
  { intros b Hb. apply existsb_exists in Hb. destruct Hb as (x & Hx & E).
    apply String.eqb_eq in E. subst. exact Hx. }
  unfold store_well_formed in Hs. apply andb_prop in Hs. destruct Hs as [Hq Ho].
  split; [|split; [|split; [|split]]].
  - intros body Hb. specialize (Hl _ Hb). cbn in Hl.
    apply andb_prop in Hl. destruct Hl as [Hc Hov]. split; [exact Hc|].
    destruct (gp_override_bucket body) as [b|]; [right; eauto|left; reflexivity].
  - intros body Hb. specialize (Hl _ Hb). cbn in Hl.
    apply andb_prop in Hl. destruct Hl as [Hc Hf]. split; [exact Hc|].
    destruct (rb_preserve_day_type body), (rb_preserve_priority_bucket body);
      try discriminate; auto.
  - intros body Hb. specialize (Hl _ Hb). cbn in Hl.
    destruct (sb_week_mode body), (sb_power_frequency body),
      (sb_cooldown_override body); try discriminate.
    repeat split; discriminate.
  - intros q E. rewrite E in Hq. exact Hq.
  - intros b E. rewrite E in Ho. apply Hin. exact Ho.
Qed.

Lemma generate_comes_first_app (l : list Request) (r : Request) :
  generate_comes_first l = true ->
  (existsb is_generate_request l = true
   \/ match r with
      | POST_reroll _ | POST_swap _ | POST_complete _ => False
      | _ => True
      end) ->
  generate_comes_first (l ++ [r]) = true.
Proof.
  induction l as [|x l IH]; cbn; intros Hl Hr.
  - destruct Hr as [Hr|Hr]; [discriminate|]. destruct r; auto; contradiction.
  - destruct x; cbn in *; auto; discriminate.
Qed.

Lemma existsb_generate_app (l : list Request) (r : Request) :
  existsb is_generate_request l = true ->
  existsb is_generate_request (l ++ [r]) = true.
Proof. intros H. rewrite existsb_app, H. reflexivity. Qed.

(** Either nothing has been generated yet, no session and no
    questionnaire in the store, or a Generate request is in the log. *)
Lemma run_action_generate_first (a : Action) (w : World Srv) :
  generate_comes_first (http_log w) = true ->
  ((currentSession (store w) = None /\ lastQuestionnaire (store w) = None)
   \/ existsb is_generate_request (http_log w) = true) ->
  let w' := execState (run_action backend a) w in
  generate_comes_first (http_log w') = true
  /\ ((currentSession (store w') = None /\ lastQuestionnaire (store w') = None)
      \/ existsb is_generate_request (http_log w') = true).
Proof.
  intros Hg Hj. destruct a; cbn [run_action]; cbv zeta.
  - (* MountHome *)
    unfold mount_home_screen. rewrite execState_seq.
    destruct (fetchUserState_run backend
                (execState (with_home_screen Srv (fun _ => fresh_home_screen)) w))
      as (_ & Hlog & Hc & Hq & _).
    rewrite Hlog, Hc, Hq. cbn [http_log store execState].
    split; [apply generate_comes_first_app; [exact Hg|right; exact I]|].
    destruct Hj as [Hj|Hj]; [left; exact Hj|right].
    apply existsb_generate_app. exact Hj.
  - (* Select *)
    split; [exact Hg|exact Hj].
  - (* TapGenerate *)
    rewrite generateSession_log.
    destruct (isComplete (questionnaire (home_screen w))) eqn:Hc.
    + split; [apply generate_comes_first_app; [exact Hg|right; exact I]|].
      right. rewrite existsb_app. cbn. apply orb_true_r.
    + assert (E : execState (generateSession backend) w = w)
        by (run_handler generateSession; rewrite Hc; destruct w; reflexivity).
      rewrite E. auto.
  - (* TapFocusOption *)
    unfold tapFocusOption.
    destruct (nth_error BUCKET_ORDER i) as [bucket|]; [|auto].
    rewrite handleBucketSelect_run. cbn. auto.
  - (* TapResetFocus *)
    run_handler resetFocus.
    destruct (truthy_string (overrideBucket (store w))); cbn; auto.
  - (* TapToggleOverride *)
    destruct (userState (store w)) as [us|] eqn:Hus.
    + destruct (@toggleCooldownOverride_outcome Srv backend us w Hus)
        as (_ & Hlog & Hc & Hq & _).
      rewrite Hlog, Hc, Hq.
      split; [apply generate_comes_first_app; [exact Hg|right; exact I]|].
      destruct Hj as [Hj|Hj]; [left; exact Hj|right].
      apply existsb_generate_app. exact Hj.
    + assert (E : execState (toggleCooldownOverride backend) w = w)
        by (run_handler toggleCooldownOverride; rewrite Hus; destruct w;
            reflexivity).
      rewrite E. auto.
  - (* MountSession *)
    destruct (mount_session_screen_run w) as (Hst & Hlog & _).
    rewrite Hst, Hlog. auto.
  - (* TapReroll *)
    destruct (lastQuestionnaire (store w)) as [q|] eqn:Hq.
    + destruct Hj as [[_ Hj]|Hj]; [discriminate|].
      destruct (@handleReroll_outcome Srv backend q w Hq)
        as (_ & _ & _ & _ & Hlog & _).
      rewrite Hlog.
      split; [apply generate_comes_first_app; [exact Hg|left; exact Hj]|].
      right. apply existsb_generate_app. exact Hj.
    + assert (E : execState (handleReroll backend) w = w)
        by (run_handler handleReroll; rewrite Hq; destruct w; reflexivity).
      rewrite E. rewrite Hq. auto.
  - (* TapSwap *)
    destruct (currentSession (store w)) as [session|] eqn:Hcur.
    + destruct Hj as [[Hj _]|Hj]; [discriminate|].
      destruct (@handleSwap_store_log Srv backend exerciseId w) as [Hst Hlog].
      rewrite Hst, Hcur.
      destruct Hlog as [->|[body ->]]; [auto|].
      split; [apply generate_comes_first_app; [exact Hg|left; exact Hj]|].
      right. apply existsb_generate_app. exact Hj.
    + assert (E : execState (handleSwap backend exerciseId) w = w)
        by (run_handler handleSwap; rewrite Hcur; destruct w; reflexivity).
      rewrite E, Hcur. auto.
  - (* TapDone *)
    assert (Hdone : forall feedback,
      let w' := execState (handleComplete backend feedback) w in
      generate_comes_first (http_log w') = true
      /\ ((currentSession (store w') = None /\ lastQuestionnaire (store w') = None)
          \/ existsb is_generate_request (http_log w') = true)).
    { intros feedback. cbv zeta.
      destruct (currentSession (store w)) as [session|] eqn:Hcur.
      - destruct Hj as [[Hj _]|Hj]; [discriminate|].
        destruct (@handleComplete_outcome Srv backend session feedback w Hcur)
          as (_ & _ & Hlog & _).
        rewrite Hlog.
        split; [apply generate_comes_first_app; [exact Hg|left; exact Hj]|].
        right. apply existsb_generate_app. exact Hj.
      - assert (E : execState (handleComplete backend feedback) w = w)
          by (run_handler handleComplete; rewrite Hcur; destruct w; reflexivity).
        rewrite E, Hcur. auto. }
    destruct choice; [apply Hdone|apply Hdone|].
    rewrite confirmComplete_cancel. auto.
  - (* TapDiscard *)
    destruct choice; cbn; auto.
    split; [exact Hg|]. destruct Hj as [[_ Hj]|Hj]; [|right; exact Hj].
    destruct (existsb is_generate_request (http_log w)) eqn:E; [auto|].
    left. split; [reflexivity|exact Hj].
Qed.

(** X16. Whatever the user does, from the start of the app and against
    any backend, no Reroll, Swap or Complete request is sent before a
    Generate request has been sent; and while none has been sent the
    store holds no session and no questionnaire. *)
Theorem generate_request_comes_first (srv : Srv) (t : list Action) :
  let w := execState (run_trace backend t) (boot srv) in
  generate_comes_first (http_log w) = true
  /\ (existsb is_generate_request (http_log w) = false ->
      currentSession (store w) = None
      /\ lastQuestionnaire (store w) = None
      /\ Forall (fun r => r = GET_state \/ exists body, r = PUT_settings body)
           (http_log w)).
Proof.
  intros w.
  assert (H : forall (t : list Action) (w0 : World Srv),
    generate_comes_first (http_log w0) = true ->
    ((currentSession (store w0) = None /\ lastQuestionnaire (store w0) = None)
     \/ existsb is_generate_request (http_log w0) = true) ->
    generate_comes_first (http_log (execState (run_trace backend t) w0)) = true
    /\ ((currentSession (store (execState (run_trace backend t) w0)) = None
         /\ lastQuestionnaire (store (execState (run_trace backend t) w0)) = None)
        \/ existsb is_generate_request
             (http_log (execState (run_trace backend t) w0)) = true)).
  { clear w t. induction t as [|a t IH]; intros w0 Hg Hj.
    - destruct w0; auto.
    - cbn [run_trace]. rewrite execState_seq.
      destruct (run_action_generate_first a w0 Hg Hj) as [Hg1 Hj1].
      apply IH; assumption. }
  destruct (H t (boot srv) eq_refl (or_introl (conj eq_refl eq_refl)))
    as [Hg Hj].
  fold w in Hg, Hj. split; [exact Hg|].
  intros Hno. destruct Hj as [[Hc Hq]|Hj]; [|congruence].
  split; [exact Hc|]. split; [exact Hq|].
  clear Hc Hq. induction (http_log w) as [|r l IHl]; [constructor|].
  cbn in Hg, Hno. destruct r; cbn in Hno; try discriminate.
  - constructor; [left; reflexivity|apply IHl; assumption].
  - constructor; [right; eauto|apply IHl; assumption].
Qed.

End TraceTheorems.

(** * Properties of the admin screen *)

(** ** The equipment chips *)

Section EquipmentFacts.

Lemma includes_In (l : list string) (x : string) :
  Admin.includes l x = true <-> In x l.
Proof.
  unfold Admin.includes. rewrite existsb_exists. split.
  - intros (y & Hy & E). apply String.eqb_eq in E. subst. exact Hy.
  - intros H. exists x. split; [exact H|apply String.eqb_refl].
Qed.

Lemma includes_not_In (l : list string) (x : string) :
  Admin.includes l x = false <-> ~ In x l.
Proof.
  rewrite <- includes_In. destruct (Admin.includes l x); split; intros H;
    try discriminate; try reflexivity; try (intros E; discriminate).
  exfalso. apply H. reflexivity.
Qed.

Lemma with_equipment_same (form : Admin.ExerciseForm.t) :
  Admin.with_equipment (Admin.ExerciseForm.equipment form) form = form.
Proof. destruct form. reflexivity. Qed.

Lemma dropped_In (equip e : string) (l : list string) :
  In e (filter (fun e => negb (String.eqb e equip)) l) <-> In e l /\ e <> equip.
Proof.
  rewrite filter_In. split; intros [H1 H2]; split; try exact H1.
  - intros E. subst. rewrite String.eqb_refl in H2. discriminate.
  - destruct (String.eqb_spec e equip); [contradiction|reflexivity].
Qed.

Lemma dropped_absent (equip : string) (l : list string) :
  ~ In equip l -> filter (fun e => negb (String.eqb e equip)) l = l.
Proof.
  induction l as [|x l IH]; intros H; [reflexivity|].
  cbn. destruct (String.eqb_spec x equip) as [E|E].
  - exfalso. apply H. left. exact E.
  - cbn. f_equal. apply IH. intros Hin. apply H. right. exact Hin.
Qed.

Lemma dropped_permutation (equip : string) (l : list string) :
  NoDup l -> In equip l ->
  Permutation (filter (fun e => negb (String.eqb e equip)) l ++ [equip]) l.
Proof.
  induction l as [|x l IH]; intros Hnd Hin; [destruct Hin|].
  inversion Hnd as [|? ? Hx Hl]; subst.
  cbn. destruct (String.eqb_spec x equip) as [E|E].
  - subst. cbn. rewrite dropped_absent by exact Hx.
    apply Permutation_sym, Permutation_cons_append.
  - cbn. apply perm_skip. apply IH; [exact Hl|].
    destruct Hin as [Hin|Hin]; [contradiction|exact Hin].
Qed.

(** X17. [toggleEquipment] on a duplicate-free, non-empty equipment list
    leaves a duplicate-free, non-empty list; it changes nothing but the
    equipment, touches no chip other than the one tapped, leaves a
    lone chip on, and otherwise flips the chip tapped. *)
Theorem toggle_equipment_keeps_one (equip : string) (form : Admin.ExerciseForm.t) :
  NoDup (Admin.ExerciseForm.equipment form) ->
  Admin.ExerciseForm.equipment form <> [] ->
  let form' := Admin.toggle_equipment equip form in
  NoDup (Admin.ExerciseForm.equipment form')
  /\ Admin.ExerciseForm.equipment form' <> []
  /\ form' = Admin.with_equipment (Admin.ExerciseForm.equipment form') form
  /\ (forall e, e <> equip ->
        (In e (Admin.ExerciseForm.equipment form')
         <-> In e (Admin.ExerciseForm.equipment form)))
  /\ (Admin.ExerciseForm.equipment form = [equip] -> form' = form)
  /\ (Admin.ExerciseForm.equipment form <> [equip] ->
        (In equip (Admin.ExerciseForm.equipment form')
         <-> ~ In equip (Admin.ExerciseForm.equipment form))).
Proof.
  intros Hnd Hne. cbv zeta. unfold Admin.toggle_equipment.
  destruct (Admin.includes (Admin.ExerciseForm.equipment form) equip) eqn:Hinc.
  - apply includes_In in Hinc.
    destruct (Nat.ltb_spec 1 (length (Admin.ExerciseForm.equipment form)))
      as [Hlen|Hlen].
    + destruct form as [i n c l b a p pw]. cbn in *.
      assert (Hother : exists y, In y l /\ y <> equip).
      { destruct l as [|x [|y l]]; cbn in Hlen; try lia.
        destruct (String.eqb_spec x equip) as [E|E].
        - exists y. split; [right; left; reflexivity|].
          intros E'. subst. inversion Hnd as [|? ? Hx _]. apply Hx. left.
          reflexivity.
        - exists x. split; [left; reflexivity|exact E]. }
      split; [apply NoDup_filter; exact Hnd|].
      split.
      { destruct Hother as (y & Hy & Hyne). intros E.
        assert (Hin : In y (filter (fun e => negb (String.eqb e equip)) l))
          by (apply dropped_In; auto).
        rewrite E in Hin. destruct Hin. }
      split; [reflexivity|].
      split; [intros e He; rewrite dropped_In; tauto|].
      split; [intros E; subst l; cbn in Hlen; lia|].
      intros _. rewrite dropped_In. tauto.
    + split; [exact Hnd|]. split; [exact Hne|].
      split; [symmetry; apply with_equipment_same|].
      split; [tauto|]. split; [reflexivity|].
      intros Hn. exfalso. apply Hn.
      destruct (Admin.ExerciseForm.equipment form) as [|x [|y l]];
        cbn in Hlen; try lia; try congruence.
      destruct Hinc as [E|[]]. subst. reflexivity.
  - apply includes_not_In in Hinc.
    destruct form as [i n c l b a p pw]. cbn in *.
    split.
    { apply NoDup_app; [exact Hnd|repeat constructor; intros []|].
      intros x Hx [E|[]]. subst. contradiction. }
    split; [destruct l; discriminate|].
    split; [reflexivity|].
    split.
    { intros e He. rewrite in_app_iff. cbn. split; [|tauto].
      intros [H|[H|[]]]; [exact H|]. subst. contradiction. }
    split; [intros E; subst l; exfalso; apply Hinc; left; reflexivity|].
    intros _. rewrite in_app_iff. cbn. tauto.
Qed.

Lemma toggle_equipment_keeps_one_witness :
  NoDup (Admin.ExerciseForm.equipment
           (Admin.toggle_equipment "minimal" Admin.blank_exercise_form))
  /\ Admin.ExerciseForm.equipment
       (Admin.toggle_equipment "minimal" Admin.blank_exercise_form)
     = ["home"; "minimal"].
Proof.
  split; [|reflexivity].
  apply (@toggle_equipment_keeps_one "minimal" Admin.blank_exercise_form).
  - repeat constructor. intros [].
  - discriminate.
Defined.

(** X18. [toggleEquipment] empties the equipment list exactly when the
    list has at least two entries and every entry is the chip tapped: the
    [length > 1] guard does not protect a list with duplicates, such as
    one loaded from the server. *)
Theorem toggle_equipment_empty_iff (equip : string) (form : Admin.ExerciseForm.t) :
  Admin.ExerciseForm.equipment (Admin.toggle_equipment equip form) = []
  <-> (1 < length (Admin.ExerciseForm.equipment form)
       /\ forall e, In e (Admin.ExerciseForm.equipment form) -> e = equip).
Proof.
  unfold Admin.toggle_equipment.
  destruct (Admin.includes (Admin.ExerciseForm.equipment form) equip) eqn:Hinc.
  - destruct (Nat.ltb_spec 1 (length (Admin.ExerciseForm.equipment form)))
      as [Hlen|Hlen].
    + destruct form as [i n c l b a p pw]. cbn in *. split.
      * intros E. split; [exact Hlen|]. intros e He.
        destruct (String.eqb_spec e equip) as [Heq|Hne]; [exact Heq|].
        assert (Hin : In e (filter (fun e => negb (String.eqb e equip)) l))
          by (apply dropped_In; auto).
        rewrite E in Hin. destruct Hin.
      * intros [_ Hall].
        destruct (filter (fun e => negb (String.eqb e equip)) l) as [|x r] eqn:E;
          [reflexivity|].
        assert (Hin : In x (filter (fun e => negb (String.eqb e equip)) l))
          by (rewrite E; left; reflexivity).
        apply dropped_In in Hin. destruct Hin as [Hin Hne].
        exfalso. apply Hne. apply Hall. exact Hin.
    + split; [|intros [H _]; lia].
      intros E. rewrite E in Hinc. discriminate.
  - destruct form as [i n c l b a p pw]. cbn in *. split.
    + intros E. destruct l; discriminate.
    + intros [Hlen Hall]. exfalso. apply includes_not_In in Hinc.
      destruct l as [|x l]; [cbn in Hlen; lia|].
      apply Hinc. left. apply Hall. left. reflexivity.
Qed.

(** X19. Tapping the same chip twice on a duplicate-free, non-empty
    equipment list gives back the same chips; the list itself comes back
    when the chip was off, and with the chip moved to the end when it was
    on among others. *)
Theorem toggle_equipment_twice (equip : string) (form : Admin.ExerciseForm.t) :
  NoDup (Admin.ExerciseForm.equipment form) ->
  Admin.ExerciseForm.equipment form <> [] ->
  let form'' := Admin.toggle_equipment equip (Admin.toggle_equipment equip form) in
  Permutation (Admin.ExerciseForm.equipment form'')
              (Admin.ExerciseForm.equipment form)
  /\ (~ In equip (Admin.ExerciseForm.equipment form) -> form'' = form)
  /\ (In equip (Admin.ExerciseForm.equipment form) ->
      1 < length (Admin.ExerciseForm.equipment form) ->
      Admin.ExerciseForm.equipment form''
      = (filter (fun e => negb (String.eqb e equip))
           (Admin.ExerciseForm.equipment form) ++ [equip])%list).
Proof.
  intros Hnd Hne. cbv zeta.
  destruct form as [i n c l b a p pw]. cbn in Hnd, Hne.
  destruct (Admin.includes l equip) eqn:Hinc.
  - pose proof Hinc as Hin. apply includes_In in Hin.
    destruct (Nat.ltb_spec 1 (length l)) as [Hlen|Hlen].
    + assert (E1 : Admin.toggle_equipment equip
                     (Admin.ExerciseForm.mk i n c l b a p pw)
                   = Admin.ExerciseForm.mk i n c
                       (filter (fun e => negb (String.eqb e equip)) l) b a p pw).
      { unfold Admin.toggle_equipment. cbn [Admin.ExerciseForm.equipment].
        rewrite Hinc.
        destruct (Nat.ltb_spec 1 (length l)); [reflexivity|lia]. }
      rewrite E1.
      assert (Hout : Admin.includes
                       (filter (fun e => negb (String.eqb e equip)) l) equip
                     = false).
      { apply includes_not_In. rewrite dropped_In. tauto. }
      unfold Admin.toggle_equipment. cbn [Admin.ExerciseForm.equipment].
      rewrite Hout. cbn.
      split; [apply dropped_permutation; assumption|].
      split; [intros H; contradiction|reflexivity].
    + assert (E1 : Admin.toggle_equipment equip
                     (Admin.ExerciseForm.mk i n c l b a p pw)
                   = Admin.ExerciseForm.mk i n c l b a p pw).
      { unfold Admin.toggle_equipment. cbn [Admin.ExerciseForm.equipment].
        rewrite Hinc.
        destruct (Nat.ltb_spec 1 (length l)); [lia|reflexivity]. }
      rewrite !E1. split; [apply Permutation_refl|].
      split; [intros H; contradiction|intros _ H; cbn in H; lia].
  - pose proof Hinc as Hout. apply includes_not_In in Hout.
    assert (E1 : Admin.toggle_equipment equip
                   (Admin.ExerciseForm.mk i n c l b a p pw)
                 = Admin.ExerciseForm.mk i n c (l ++ [equip])%list b a p pw).
    { unfold Admin.toggle_equipment. cbn [Admin.ExerciseForm.equipment]. rewrite Hinc. reflexivity. }
    rewrite E1.
    assert (Hin : Admin.includes (l ++ [equip])%list equip = true).
    { apply includes_In. apply in_or_app. right. left. reflexivity. }
    assert (Hlen : 1 < length (l ++ [equip])%list).
    { rewrite length_app. cbn. destruct l; [congruence|cbn; lia]. }
    assert (Hback : filter (fun e => negb (String.eqb e equip)) (l ++ [equip])%list
                    = l).
    { rewrite filter_app. cbn. rewrite String.eqb_refl. cbn.
      rewrite app_nil_r. apply dropped_absent. exact Hout. }
    unfold Admin.toggle_equipment. cbn [Admin.ExerciseForm.equipment]. rewrite Hin.
    destruct (Nat.ltb_spec 1 (length (l ++ [equip])%list)); [|lia].
    unfold Admin.with_equipment. cbn. rewrite Hback.
    split; [apply Permutation_refl|].
    split; [reflexivity|intros H0; contradiction].
Qed.

Lemma toggle_equipment_twice_witness :
  Admin.toggle_equipment "minimal"
    (Admin.toggle_equipment "minimal" Admin.blank_exercise_form)
  = Admin.blank_exercise_form.
Proof.
  apply (@toggle_equipment_twice "minimal" Admin.blank_exercise_form).
  - repeat constructor. intros [].
  - discriminate.
  - cbn. intros [E|[]]. discriminate.
Defined.

End EquipmentFacts.

(** ** The lists of the dashboard *)

Section DashboardFacts.

Lemma filter_disjoint_perm (T : Type) (p q : T -> bool) (l : list T) :
  (forall x, In x l -> p x = true -> q x = false) ->
  Permutation (filter p l ++ filter q l) (filter (fun x => p x || q x) l).
Proof.
  induction l as [|x l IH]; intros H; [constructor|].
  cbn. destruct (p x) eqn:Hp.
  - rewrite (H x (or_introl eq_refl) Hp). cbn. apply perm_skip.
    apply IH. intros y Hy. apply H. right. exact Hy.
  - cbn. destruct (q x).
    + apply Permutation_sym. apply Permutation_cons_app. apply Permutation_sym.
      apply IH. intros y Hy. apply H. right. exact Hy.
    + apply IH. intros y Hy. apply H. right. exact Hy.
Qed.

(** The groups of a duplicate-free list of keys, one after the other,
    hold the items with a known key, each once. *)
Lemma groups_permutation (T : Type) (key : T -> string) (keys : list string)
    (items : list T) :
  NoDup keys ->
  Permutation
    (concat (map (fun k => filter (fun x => String.eqb (key x) k) items) keys))
    (filter (fun x => Admin.includes keys (key x)) items).
Proof.
  induction keys as [|k keys IH]; intros Hnd.
  - cbn. induction items as [|x items IHi]; [constructor|exact IHi].
  - inversion Hnd as [|? ? Hk Hks]; subst. cbn [map concat].
    eapply Permutation_trans.
    + apply Permutation_app_head. apply IH. exact Hks.
    + apply (filter_disjoint_perm (fun x => String.eqb (key x) k)
               (fun x => Admin.includes keys (key x))).
      intros x _ E. apply String.eqb_eq in E. apply includes_not_In.
      rewrite E. exact Hk.
Qed.

Lemma cards_groups (T : Type) (section_of : string -> option (string * list T))
    (group : string -> list T) (keys : list string) :
  (forall k, section_of k
             = if (length (group k) =? 0)%nat then None else Some (k, group k)) ->
  Admin.cards (map section_of keys) = concat (map group keys).
Proof.
  intros H. induction keys as [|k keys IH]; [reflexivity|].
  cbn. rewrite H, IH. destruct (group k); reflexivity.
Qed.

Lemma filter_length_all (T : Type) (p : T -> bool) (l : list T) :
  length (filter p l) <= length l
  /\ (length (filter p l) = length l <-> forall x, In x l -> p x = true).
Proof.
  induction l as [|x l [IH1 IH2]]; cbn.
  - split; [lia|]. split; [intros _ x []|reflexivity].
  - destruct (p x) eqn:Hp; cbn.
    + split; [lia|]. split.
      * intros E y [Hy|Hy]; [subst; exact Hp|]. apply IH2; [lia|exact Hy].
      * intros H. f_equal. apply IH2. intros y Hy. apply H. right. exact Hy.
    + split; [lia|]. split; [lia|].
      intros H. specialize (H x (or_introl eq_refl)). congruence.
Qed.

Lemma cards_of_known (T : Type) (key : T -> string) (keys : list string)
    (items shown : list T) :
  Permutation shown (filter (fun x => Admin.includes keys (key x)) items) ->
  (forall x, In x shown <-> In x items /\ In (key x) keys)
  /\ length shown <= length items
  /\ (length shown = length items <-> forall x, In x items -> In (key x) keys).
Proof.
  intros Hp. split; [|split].
  - intros x. split.
    + intros Hx. apply (Permutation_in _ Hp) in Hx. apply filter_In in Hx.
      destruct Hx as [Hx Hk]. apply includes_In in Hk. auto.
    + intros [Hx Hk]. apply (Permutation_in _ (Permutation_sym Hp)).
      apply filter_In. split; [exact Hx|]. apply includes_In. exact Hk.
  - rewrite (Permutation_length Hp). apply filter_length_all.
  - rewrite (Permutation_length Hp).
    destruct (filter_length_all (fun x => Admin.includes keys (key x)) items)
      as [_ H].
    rewrite H. split; intros Hall x Hx.
    + apply includes_In. apply Hall. exact Hx.
    + apply includes_In. apply Hall. exact Hx.
Qed.

Lemma CATEGORIES_NoDup : NoDup Admin.CATEGORIES.
Proof.
  unfold Admin.CATEGORIES.
  repeat (constructor; [cbn; intuition discriminate|]). constructor.
Qed.

Lemma PRESCRIPTION_TYPES_NoDup : NoDup PRESCRIPTION_TYPES.
Proof.
  unfold PRESCRIPTION_TYPES.
  repeat (constructor; [cbn; intuition discriminate|]). constructor.
Qed.

(** The exercise cards are the exercises whose category is one of
    [CATEGORIES], each once. *)
Lemma exercise_cards_known (exercises : list ExerciseDef.t) :
  Permutation (Admin.exercise_cards exercises)
    (filter (fun e => Admin.includes Admin.CATEGORIES (ExerciseDef.category e))
       exercises)
  /\ (forall e, In e (Admin.exercise_cards exercises)
                <-> In e exercises /\ In (ExerciseDef.category e) Admin.CATEGORIES)
  /\ length (Admin.exercise_cards exercises) <= length exercises
  /\ (length (Admin.exercise_cards exercises) = length exercises
      <-> forall e, In e exercises -> In (ExerciseDef.category e) Admin.CATEGORIES).
Proof.
  assert (Hp : Permutation (Admin.exercise_cards exercises)
    (filter (fun e => Admin.includes Admin.CATEGORIES (ExerciseDef.category e))
       exercises)).
  { unfold Admin.exercise_cards.
    rewrite (cards_groups (Admin.exercise_section exercises)
               (fun k => filter (fun e => String.eqb (ExerciseDef.category e) k)
                           exercises))
      by reflexivity.
    apply groups_permutation. exact CATEGORIES_NoDup. }
  split; [exact Hp|]. exact (cards_of_known ExerciseDef.category _ _ Hp).
Qed.

(** The protocol cards are the protocols whose prescription type is one
    of [PRESCRIPTION_TYPES], each once. *)
Lemma protocol_cards_known (protocols : list ProtocolDef.t) :
  Permutation (Admin.protocol_cards protocols)
    (filter (fun p => Admin.includes PRESCRIPTION_TYPES
                        (ProtocolDef.prescription_type p)) protocols)
  /\ (forall p, In p (Admin.protocol_cards protocols)
                <-> In p protocols
                    /\ In (ProtocolDef.prescription_type p) PRESCRIPTION_TYPES)
  /\ length (Admin.protocol_cards protocols) <= length protocols
  /\ (length (Admin.protocol_cards protocols) = length protocols
      <-> forall p, In p protocols ->
                    In (ProtocolDef.prescription_type p) PRESCRIPTION_TYPES).
Proof.
  assert (Hp : Permutation (Admin.protocol_cards protocols)
    (filter (fun p => Admin.includes PRESCRIPTION_TYPES
                        (ProtocolDef.prescription_type p)) protocols)).
  { unfold Admin.protocol_cards.
    rewrite (cards_groups (Admin.protocol_section protocols)
               (fun k => filter
                           (fun p => String.eqb (ProtocolDef.prescription_type p) k)
                           protocols))
      by reflexivity.
    apply groups_permutation. exact PRESCRIPTION_TYPES_NoDup. }
  split; [exact Hp|]. exact (cards_of_known ProtocolDef.prescription_type _ _ Hp).
Qed.

(** X20. With both lists loaded, the cards of the exercises tab are the
    exercises whose category is one of [CATEGORIES], each shown once, and
    the cards of the protocols tab the protocols whose prescription type
    is one of [PRESCRIPTION_TYPES].  An item with any other key has no
    card, although the tab counts it: the cards are as many as the tab
    says exactly when every key is known. *)
Theorem dashboard_cards_partition (s : Admin.Screen)
    (exercises : list ExerciseDef.t) (protocols : list ProtocolDef.t) :
  Admin.exercises s = Shaped exercises ->
  Admin.protocols s = Shaped protocols ->
  exists cards,
    Admin.dashboard_cards s = Some cards
    /\ match Admin.activeTab s with
       | Admin.exercises_tab =>
           Permutation cards
             (map Admin.ExerciseCard
                (filter (fun e => Admin.includes Admin.CATEGORIES
                                    (ExerciseDef.category e)) exercises))
           /\ length cards <= length exercises
           /\ (length cards = length exercises
               <-> forall e, In e exercises ->
                             In (ExerciseDef.category e) Admin.CATEGORIES)
       | Admin.protocols_tab =>
           Permutation cards
             (map Admin.ProtocolCard
                (filter (fun p => Admin.includes PRESCRIPTION_TYPES
                                    (ProtocolDef.prescription_type p)) protocols))
           /\ length cards <= length protocols
           /\ (length cards = length protocols
               <-> forall p, In p protocols ->
                             In (ProtocolDef.prescription_type p) PRESCRIPTION_TYPES)
       end.
Proof.
  intros He Hp. unfold Admin.dashboard_cards. rewrite He, Hp.
  destruct (Admin.activeTab s).
  - destruct (exercise_cards_known exercises) as (H1 & _ & H3 & H4).
    eexists. split; [reflexivity|]. rewrite length_map.
    split; [apply Permutation_map; exact H1|]. split; [exact H3|exact H4].
  - destruct (protocol_cards_known protocols) as (H1 & _ & H3 & H4).
    eexists. split; [reflexivity|]. rewrite length_map.
    split; [apply Permutation_map; exact H1|]. split; [exact H3|exact H4].
Qed.

End DashboardFacts.

(** ** Handlers of the admin screen *)

Section AdminFacts.

Variable Srv : Type.
Variable Dev : Type.
Variable backend : Admin.Backend Srv.
Variable storage : Admin.AsyncStorage Dev.
Variable lower_snake : string -> string.

Local Abbreviation World := (Admin.World Srv Dev).
Local Abbreviation fetchData := (@Admin.fetchData Srv Dev backend).
Local Abbreviation checkAuth := (@Admin.checkAuth Srv Dev backend storage).
Local Abbreviation handleLogin := (@Admin.handleLogin Srv Dev backend storage).
Local Abbreviation handleLogout := (@Admin.handleLogout Srv Dev storage).
Local Abbreviation login_effect := (@Admin.login_effect Srv Dev backend).
Local Abbreviation saveExercise := (@Admin.saveExercise Srv Dev backend).
Local Abbreviation saveProtocol := (@Admin.saveProtocol Srv Dev backend).
Local Abbreviation deleteExercise := (@Admin.deleteExercise Srv Dev backend).
Local Abbreviation deleteProtocol := (@Admin.deleteProtocol Srv Dev backend).
Local Abbreviation openExerciseModal := (@Admin.openExerciseModal Srv Dev).
Local Abbreviation openProtocolModal := (@Admin.openProtocolModal Srv Dev).
Local Abbreviation editsExercise := (@Admin.editsExercise Srv Dev lower_snake).
Local Abbreviation editsProtocol := (@Admin.editsProtocol Srv Dev lower_snake).

Lemma admin_seq (A B : Type) (a : Admin.M Srv Dev A) (b : Admin.M Srv Dev B)
    (w : World) :
  execState (a ;; b) w = execState b (execState a w).
Proof.
  unfold execState. cbn. destruct (runState a w); reflexivity.
Qed.

(** Everything [fetchData] leaves behind. *)
Lemma fetchData_outcome (w : World) :
  let r1 := Admin.api_exercises backend (Admin.server w) in
  let r2 := Admin.api_protocols backend (snd r1) in
  let w' := execState fetchData w in
  Admin.http_log w'
  = (Admin.http_log w ++ [Admin.GET_exercises; Admin.GET_protocols])%list
  /\ Admin.server w' = snd r2
  /\ Admin.device w' = Admin.device w
  /\ Admin.storage_log w' = Admin.storage_log w
  /\ Admin.alerts w' = Admin.alerts w
  /\ Admin.screen w'
     = match fst r1, fst r2 with
       | Json _ exercisesBody, Json _ protocolsBody =>
           Admin.set_protocols protocolsBody
             (Admin.set_exercises exercisesBody (Admin.screen w))
       | Json _ exercisesBody, NotJson _ =>
           Admin.set_exercises exercisesBody (Admin.screen w)
       | _, _ => Admin.screen w
       end
  /\ Admin.console w'
     = match fst r1, fst r2 with
       | Json _ _, Json _ _ => Admin.console w
       | _, _ => (Admin.console w ++ ["Fetch failed:"])%list
       end.
Proof.
  run_handler Admin.fetchData.
  destruct (Admin.api_exercises backend (Admin.server w)) as [r1 s1]. cbn.
  destruct (Admin.api_protocols backend s1) as [r2 s2]. cbn.
  destruct r1, r2; cbn; rewrite <- app_assoc; repeat split.
Qed.



(** X22. [fetchData] does not read [response.ok]: when the exercises
    request is answered with an error object, the object becomes the
    list, the tab has no count to show and rendering the exercises tab
    throws. *)
Theorem fetchData_error_body (ok : bool) (detail : string) (w : World) :
  fst (Admin.api_exercises backend (Admin.server w)) = Json ok (ErrorDetail detail) ->
  fst (Admin.api_protocols backend
         (snd (Admin.api_exercises backend (Admin.server w)))) <> NetworkError ->
  let w' := execState fetchData w in
  Admin.exercises (Admin.screen w') = ErrorDetail detail
  /\ Admin.exercises_count (Admin.screen w') = None
  /\ (Admin.activeTab (Admin.screen w) = Admin.exercises_tab ->
      Admin.dashboard_cards (Admin.screen w') = None).
Proof.
  intros H1 H2.
  destruct (fetchData_outcome w) as (_ & _ & _ & _ & _ & Hsc & _).
  cbv zeta in *. rewrite H1 in Hsc.
  destruct (fst (Admin.api_protocols backend
                   (snd (Admin.api_exercises backend (Admin.server w)))))
    as [|ok2|ok2 b2]; [congruence| |];
    unfold Admin.exercises_count, Admin.dashboard_cards; rewrite Hsc; cbn;
    (split; [reflexivity|]); (split; [reflexivity|]); intros ->; reflexivity.
Qed.

Lemma login_effect_run (w : World) :
  execState login_effect w
  = match Admin.isLoggedIn (Admin.screen w),
          truthy_string (Admin.token (Admin.screen w)) with
    | true, Some _ => execState fetchData w
    | _, _ => w
    end.
Proof.
  unfold Admin.login_effect, execState. cbn.
  destruct (Admin.isLoggedIn (Admin.screen w));
    destruct (truthy_string (Admin.token (Admin.screen w))); reflexivity.
Qed.

Lemma rendered_run (h : Admin.M Srv Dev unit) (w : World) :
  execState (Admin.rendered backend h) w
  = if Bool.eqb (Admin.isLoggedIn (Admin.screen w))
         (Admin.isLoggedIn (Admin.screen (execState h w)))
       && Admin.option_string_eqb (Admin.token (Admin.screen w))
            (Admin.token (Admin.screen (execState h w)))
    then execState h w
    else execState login_effect (execState h w).
Proof.
  unfold Admin.rendered, execState. cbn.
  destruct (runState h w) as [u w1]. cbn.
  destruct (Bool.eqb (Admin.isLoggedIn (Admin.screen w))
              (Admin.isLoggedIn (Admin.screen w1))
            && Admin.option_string_eqb (Admin.token (Admin.screen w))
                 (Admin.token (Admin.screen w1))); reflexivity.
Qed.

Lemma truthy_string_not_empty (x : option string) (s : string) :
  truthy_string x = Some s -> x = Some s /\ s <> EmptyString.
Proof.
  destruct x as [t|]; cbn; [|discriminate].
  destruct (String.eqb_spec t EmptyString); [discriminate|].
  intros E. inversion E. subst. auto.
Qed.

(** X23. [checkAuth] always ends the loading state and shows no alert.
    It logs in only with the token found in storage, non-empty, and
    verified by an ok response; it sends at most the one verify request,
    and none without a token; it removes the token only after a verify
    answered with a status that is not ok, so a network failure keeps
    the token; it never writes the storage. *)
Theorem checkAuth_verified_only (w : World) :
  let saved := fst (Admin.storage_getItem storage "admin_token" (Admin.device w)) in
  let w' := execState checkAuth w in
  Admin.loading (Admin.screen w') = false
  /\ Admin.alerts w' = Admin.alerts w
  /\ (Admin.screen w' = Admin.set_loading false (Admin.screen w)
      \/ exists tok,
           saved = Some (Some tok) /\ tok <> EmptyString
           /\ Admin.response_ok (fst (Admin.api_verify backend tok (Admin.server w)))
              = Some true
           /\ Admin.screen w'
              = Admin.set_loading false
                  (Admin.set_isLoggedIn true
                     (Admin.set_token (Some tok) (Admin.screen w))))
  /\ (Admin.http_log w' = Admin.http_log w
      \/ exists tok,
           saved = Some (Some tok) /\ tok <> EmptyString
           /\ Admin.http_log w' = (Admin.http_log w ++ [Admin.GET_verify tok])%list)
  /\ (Admin.storage_log w'
      = (Admin.storage_log w ++ [Admin.GetItem "admin_token"])%list
      \/ exists tok,
           saved = Some (Some tok)
           /\ Admin.response_ok (fst (Admin.api_verify backend tok (Admin.server w)))
              = Some false
           /\ Admin.storage_log w'
              = (Admin.storage_log w
                 ++ [Admin.GetItem "admin_token"; Admin.RemoveItem "admin_token"])%list).
Proof.
  cbv zeta. unfold Admin.checkAuth, Admin.getItem, Admin.removeItem,
    Admin.storage_call, execState. cbn.
  destruct (Admin.storage_getItem storage "admin_token" (Admin.device w))
    as [saved dev1]. cbn.
  destruct saved as [savedToken|]; cbn; [|repeat split; auto].
  destruct (truthy_string savedToken) as [tok|] eqn:Ht; cbn;
    [|repeat split; auto].
  apply truthy_string_not_empty in Ht. destruct Ht as [-> Hne].
  destruct (Admin.api_verify backend tok (Admin.server w)) as [res srv1] eqn:Hv.
  assert (Hok : forall b, Admin.response_ok res = Some b ->
    Admin.response_ok (fst (Admin.api_verify backend tok (Admin.server w)))
    = Some b) by (rewrite Hv; auto).
  assert (Hreq : exists tok0, Some (Some tok) = Some (Some tok0)
    /\ tok0 <> EmptyString
    /\ (Admin.http_log w ++ [Admin.GET_verify tok])%list
       = (Admin.http_log w ++ [Admin.GET_verify tok0])%list)
    by (exists tok; auto).
  clear Hv. cbn.
  destruct (Admin.response_ok res) as [[|]|] eqn:Hres; cbn.
  - split; [reflexivity|]. split; [reflexivity|].
    split; [right; exists tok; auto|]. split; [right; exact Hreq|].
    left. reflexivity.
  - destruct (Admin.storage_removeItem storage "admin_token" dev1)
      as [removed dev2]. cbn.
    destruct removed; cbn;
      (split; [reflexivity|]); (split; [reflexivity|]);
      (split; [left; reflexivity|]);
      (split; [right; exact Hreq|]);
      right; exists tok; rewrite <- app_assoc; auto.
  - split; [reflexivity|]. split; [reflexivity|].
    split; [left; reflexivity|]. split; [right; exact Hreq|].
    left. reflexivity.
Qed.

(** Everything [handleLogin] leaves behind. *)
Lemma handleLogin_outcome (w : World) :
  let pw := Admin.password (Admin.screen w) in
  let res := fst (Admin.api_login backend pw (Admin.server w)) in
  let w' := execState handleLogin w in
  Admin.http_log w' = (Admin.http_log w ++ [Admin.POST_login pw])%list
  /\ Admin.console w' = Admin.console w
  /\ match res with
     | Json true data =>
         Admin.storage_log w'
         = (Admin.storage_log w
            ++ [Admin.SetItem "admin_token" (Admin.data_token data)])%list
         /\ if fst (Admin.storage_setItem storage "admin_token"
                      (Admin.data_token data) (Admin.device w))
            then Admin.screen w'
                 = Admin.set_password EmptyString
                     (Admin.set_isLoggedIn true
                        (Admin.set_token (Admin.data_token data) (Admin.screen w)))
                 /\ Admin.alerts w' = Admin.alerts w
            else Admin.screen w' = Admin.screen w
                 /\ Admin.alerts w'
                    = (Admin.alerts w ++ [("Error", "Login failed")])%list
     | NotJson false | Json false _ =>
         Admin.storage_log w' = Admin.storage_log w
         /\ Admin.screen w' = Admin.screen w
         /\ Admin.alerts w'
            = (Admin.alerts w ++ [("Error", "Invalid password")])%list
     | NetworkError | NotJson true =>
         Admin.storage_log w' = Admin.storage_log w
         /\ Admin.screen w' = Admin.screen w
         /\ Admin.alerts w' = (Admin.alerts w ++ [("Error", "Login failed")])%list
     end.
Proof.
  cbv zeta. unfold Admin.handleLogin, Admin.setItem, Admin.storage_call,
    execState. cbn.
  destruct (Admin.api_login backend (Admin.password (Admin.screen w))
              (Admin.server w)) as [res srv1]. cbn.
  destruct res as [|ok|ok data]; cbn; [auto| |].
  - destruct ok; cbn; auto.
  - destruct ok; cbn; [|auto].
    destruct (Admin.storage_setItem storage "admin_token" (Admin.data_token data)
                (Admin.device w)) as [stored dev1]. cbn.
    destruct stored; cbn; auto.
Qed.

(** X24. Tapping Login from the login screen sends the password typed.
    The screen is logged in exactly when the response is ok, its body is
    JSON and the token is stored; the token kept is the one handed to
    the storage, the password is cleared, and the lists are requested
    only if that token is not empty.  Otherwise the screen is as before,
    one alert is shown, and it says 'Invalid password' exactly when a
    response came back with a status that is not ok. *)
Theorem tapLogin_outcome (w : World) :
  Admin.isLoggedIn (Admin.screen w) = false ->
  let pw := Admin.password (Admin.screen w) in
  let res := fst (Admin.api_login backend pw (Admin.server w)) in
  let w' := execState (Admin.tapLogin backend storage) w in
  (Admin.isLoggedIn (Admin.screen w') = true
   <-> exists data,
         res = Json true data
         /\ fst (Admin.storage_setItem storage "admin_token"
                   (Admin.data_token data) (Admin.device w)) = true)
  /\ (forall data,
        res = Json true data ->
        Admin.isLoggedIn (Admin.screen w') = true ->
        Admin.token (Admin.screen w') = Admin.data_token data
        /\ Admin.password (Admin.screen w') = EmptyString
        /\ Admin.alerts w' = Admin.alerts w
        /\ Admin.storage_log w'
           = (Admin.storage_log w
              ++ [Admin.SetItem "admin_token" (Admin.data_token data)])%list
        /\ Admin.http_log w'
           = (Admin.http_log w
              ++ Admin.POST_login pw
                 :: match truthy_string (Admin.data_token data) with
                    | Some _ => [Admin.GET_exercises; Admin.GET_protocols]
                    | None => []
                    end)%list)
  /\ (Admin.isLoggedIn (Admin.screen w') = false ->
      Admin.screen w' = Admin.screen w
      /\ Admin.http_log w' = (Admin.http_log w ++ [Admin.POST_login pw])%list
      /\ exists message,
           Admin.alerts w' = (Admin.alerts w ++ [("Error", message)])%list
           /\ (message = "Invalid password" \/ message = "Login failed")
           /\ (message = "Invalid password"
               <-> Admin.response_ok res = Some false)).
Proof.
  intros Hout. cbv zeta. unfold Admin.tapLogin. rewrite rendered_run.
  destruct (handleLogin_outcome w) as (Hlog & _ & Hres). cbv zeta in Hres, Hlog.
  set (w1 := execState handleLogin w) in *.
  assert (Hsame : Admin.screen w1 = Admin.screen w ->
    (if Bool.eqb (Admin.isLoggedIn (Admin.screen w))
          (Admin.isLoggedIn (Admin.screen w1))
        && Admin.option_string_eqb (Admin.token (Admin.screen w))
             (Admin.token (Admin.screen w1))
     then w1 else execState login_effect w1) = w1).
  { intros ->. rewrite Bool.eqb_reflx. cbn.
    destruct (Admin.token (Admin.screen w)) as [t|]; cbn;
      [rewrite String.eqb_refl|]; reflexivity. }
  assert (Hfail : forall message,
    Admin.screen w1 = Admin.screen w ->
    Admin.alerts w1 = (Admin.alerts w ++ [("Error", message)])%list ->
    (message = "Invalid password" \/ message = "Login failed") ->
    (message = "Invalid password"
     <-> Admin.response_ok
           (fst (Admin.api_login backend (Admin.password (Admin.screen w))
                   (Admin.server w))) = Some false) ->
    (forall data,
       fst (Admin.api_login backend (Admin.password (Admin.screen w))
              (Admin.server w)) = Json true data ->
       fst (Admin.storage_setItem storage "admin_token"
              (Admin.data_token data) (Admin.device w)) = false) ->
    (Admin.isLoggedIn (Admin.screen w1) = true
     <-> exists data,
           fst (Admin.api_login backend (Admin.password (Admin.screen w))
                  (Admin.server w)) = Json true data
           /\ fst (Admin.storage_setItem storage "admin_token"
                     (Admin.data_token data) (Admin.device w)) = true)
    /\ (forall data,
          fst (Admin.api_login backend (Admin.password (Admin.screen w))
                 (Admin.server w)) = Json true data ->
          Admin.isLoggedIn (Admin.screen w1) = true ->
          Admin.token (Admin.screen w1) = Admin.data_token data
          /\ Admin.password (Admin.screen w1) = EmptyString
          /\ Admin.alerts w1 = Admin.alerts w
          /\ Admin.storage_log w1
             = (Admin.storage_log w
                ++ [Admin.SetItem "admin_token" (Admin.data_token data)])%list
          /\ Admin.http_log w1
             = (Admin.http_log w
                ++ Admin.POST_login (Admin.password (Admin.screen w))
                   :: match truthy_string (Admin.data_token data) with
                      | Some _ => [Admin.GET_exercises; Admin.GET_protocols]
                      | None => []
                      end)%list)
    /\ (Admin.isLoggedIn (Admin.screen w1) = false ->
        Admin.screen w1 = Admin.screen w
        /\ Admin.http_log w1
           = (Admin.http_log w
              ++ [Admin.POST_login (Admin.password (Admin.screen w))])%list
        /\ exists message,
             Admin.alerts w1 = (Admin.alerts w ++ [("Error", message)])%list
             /\ (message = "Invalid password" \/ message = "Login failed")
             /\ (message = "Invalid password"
                 <-> Admin.response_ok
                       (fst (Admin.api_login backend
                               (Admin.password (Admin.screen w))
                               (Admin.server w))) = Some false))).
  { intros message Hs Ha Hm Hiff Hno. rewrite Hs, Hout.
    split; [|split].
    - split; [discriminate|]. intros (data & E & Hst).
      rewrite (Hno data E) in Hst. discriminate.
    - intros data _ H. discriminate.
    - intros _. split; [reflexivity|]. split; [exact Hlog|].
      exists message. auto. }
  destruct (fst (Admin.api_login backend (Admin.password (Admin.screen w))
                   (Admin.server w))) as [|ok|ok data] eqn:Eres.
  - destruct Hres as (_ & Hs & Ha). rewrite (Hsame Hs).
    apply (Hfail "Login failed"); auto.
    + split; [discriminate|]. cbn. discriminate.
    + intros data E. discriminate.
  - destruct ok.
    + destruct Hres as (_ & Hs & Ha). rewrite (Hsame Hs).
      apply (Hfail "Login failed"); auto.
      * split; [discriminate|]. cbn. discriminate.
      * intros data E. discriminate.
    + destruct Hres as (_ & Hs & Ha). rewrite (Hsame Hs).
      apply (Hfail "Invalid password"); auto.
      * split; reflexivity.
      * intros data E. discriminate.
  - destruct ok.
    + destruct Hres as (Hst & Hres).
      destruct (fst (Admin.storage_setItem storage "admin_token"
                       (Admin.data_token data) (Admin.device w))) eqn:Estored.
      * destruct Hres as (Hs & Ha).
        rewrite Hs. cbn [Admin.isLoggedIn Admin.token Admin.set_password
                           Admin.set_isLoggedIn Admin.set_token].
        rewrite Hout. cbn [Bool.eqb andb].
        rewrite login_effect_run, Hs.
        cbn [Admin.isLoggedIn Admin.token Admin.set_password
               Admin.set_isLoggedIn Admin.set_token].
        destruct (truthy_string (Admin.data_token data)) as [t|] eqn:Et.
        -- destruct (fetchData_outcome w1) as (Hl2 & _ & _ & Hst2 & Ha2 & Hs2 & _).
           cbv zeta in Hl2, Hst2, Ha2, Hs2.
           assert (Hcells :
             Admin.isLoggedIn (Admin.screen (execState fetchData w1)) = true
             /\ Admin.token (Admin.screen (execState fetchData w1))
                = Admin.data_token data
             /\ Admin.password (Admin.screen (execState fetchData w1))
                = EmptyString).
           { rewrite Hs2, Hs.
             destruct (fst (Admin.api_exercises backend (Admin.server w1)));
               destruct (fst (Admin.api_protocols backend
                                (snd (Admin.api_exercises backend
                                        (Admin.server w1)))));
               cbn; auto. }
           destruct Hcells as (Hc1 & Hc2 & Hc3).
           split; [|split].
           ++ split; [intros _; exists data; auto|intros _; exact Hc1].
           ++ intros data0 E _. inversion E; subst data0.
              split; [exact Hc2|]. split; [exact Hc3|].
              split; [congruence|]. split; [congruence|].
              rewrite Et, Hl2, Hlog, <- app_assoc. reflexivity.
           ++ intros H. congruence.
        -- split; [|split].
           ++ split; [intros _; exists data; auto|intros _; rewrite Hs; reflexivity].
           ++ intros data0 E _. inversion E; subst data0. rewrite Hs.
              split; [reflexivity|]. split; [reflexivity|].
              split; [exact Ha|]. split; [exact Hst|].
              rewrite Et. exact Hlog.
           ++ rewrite Hs. cbn. discriminate.
      * destruct Hres as (Hs & Ha). rewrite (Hsame Hs).
        apply (Hfail "Login failed"); auto.
        -- split; [discriminate|]. cbn. discriminate.
        -- intros data0 E. inversion E; subst data0. exact Estored.
    + destruct Hres as (_ & Hs & Ha). rewrite (Hsame Hs).
      apply (Hfail "Invalid password"); auto.
      * split; reflexivity.
      * intros data0 E. discriminate.
Qed.

(** X25. Logging out sends no request and clears token and login
    state only if [AsyncStorage.removeItem] resolves; when it rejects the
    screen stays logged in as before.  The lists already loaded stay in
    the screen either way. *)
Theorem tapLogout_outcome (w : World) :
  let removed := fst (Admin.storage_removeItem storage "admin_token" (Admin.device w)) in
  let w' := execState (Admin.tapLogout backend storage) w in
  Admin.http_log w' = Admin.http_log w
  /\ Admin.alerts w' = Admin.alerts w
  /\ Admin.storage_log w'
     = (Admin.storage_log w ++ [Admin.RemoveItem "admin_token"])%list
  /\ Admin.screen w'
     = (if removed
        then Admin.set_isLoggedIn false (Admin.set_token None (Admin.screen w))
        else Admin.screen w)
  /\ Admin.exercises (Admin.screen w') = Admin.exercises (Admin.screen w)
  /\ Admin.protocols (Admin.screen w') = Admin.protocols (Admin.screen w).
Proof.
  cbv zeta. unfold Admin.tapLogout. rewrite rendered_run.
  assert (H : let w1 := execState handleLogout w in
    Admin.http_log w1 = Admin.http_log w
    /\ Admin.alerts w1 = Admin.alerts w
    /\ Admin.storage_log w1
       = (Admin.storage_log w ++ [Admin.RemoveItem "admin_token"])%list
    /\ Admin.screen w1
       = (if fst (Admin.storage_removeItem storage "admin_token" (Admin.device w))
          then Admin.set_isLoggedIn false (Admin.set_token None (Admin.screen w))
          else Admin.screen w)).
  { cbv zeta. unfold Admin.handleLogout, Admin.removeItem, Admin.storage_call,
      execState. cbn.
    destruct (Admin.storage_removeItem storage "admin_token" (Admin.device w))
      as [removed dev1]. cbn.
    destruct removed; cbn; auto. }
  cbv zeta in H. destruct H as (Hlog & Hal & Hst & Hsc).
  set (w1 := execState handleLogout w) in *.
  assert (E : (if Bool.eqb (Admin.isLoggedIn (Admin.screen w))
                    (Admin.isLoggedIn (Admin.screen w1))
                  && Admin.option_string_eqb (Admin.token (Admin.screen w))
                       (Admin.token (Admin.screen w1))
               then w1 else execState login_effect w1) = w1).
  { destruct (Bool.eqb (Admin.isLoggedIn (Admin.screen w))
                (Admin.isLoggedIn (Admin.screen w1))
              && Admin.option_string_eqb (Admin.token (Admin.screen w))
                   (Admin.token (Admin.screen w1))) eqn:Ed; [reflexivity|].
    rewrite login_effect_run, Hsc.
    destruct (fst (Admin.storage_removeItem storage "admin_token"
                     (Admin.device w))) eqn:Er.
    - reflexivity.
    - rewrite Hsc in Ed. rewrite Bool.eqb_reflx in Ed. cbn in Ed.
      destruct (Admin.token (Admin.screen w)) as [t|]; cbn in Ed;
        [rewrite String.eqb_refl in Ed|]; discriminate. }
  rewrite E. split; [exact Hlog|]. split; [exact Hal|]. split; [exact Hst|].
  split; [exact Hsc|]. rewrite Hsc.
  destruct (fst (Admin.storage_removeItem storage "admin_token" (Admin.device w)));
    split; reflexivity.
Qed.

(** Everything a save leaves behind, given what [fetchData] does. *)
Lemma save_outcome (w : World) (request : Admin.Request)
    (endpoint : Srv -> FetchResult unit * Srv) (close : Admin.Screen -> Admin.Screen) :
  let res := fst (endpoint (Admin.server w)) in
  let w' :=
    execState
      (response <- @Admin.fetch Srv Dev unit request endpoint ;;
       match response with
       | NetworkError => @Admin.alert Srv Dev "Error" "Save failed"
       | NotJson true | Json true _ => @Admin.with_screen Srv Dev close ;; fetchData
       | NotJson false => @Admin.alert Srv Dev "Error" "Save failed"
       | Json false error =>
           @Admin.alert Srv Dev "Error" (or_else (Admin.detail_of error) "Save failed")
       end) w in
  match Admin.response_ok res with
  | Some true =>
      Admin.alerts w' = Admin.alerts w
      /\ Admin.http_log w'
         = (Admin.http_log w
            ++ [request; Admin.GET_exercises; Admin.GET_protocols])%list
      /\ Admin.screen w'
         = Admin.set_protocols (Admin.protocols (Admin.screen w'))
             (Admin.set_exercises (Admin.exercises (Admin.screen w'))
                (close (Admin.screen w)))
  | _ =>
      Admin.screen w' = Admin.screen w
      /\ Admin.http_log w' = (Admin.http_log w ++ [request])%list
      /\ Admin.alerts w'
         = (Admin.alerts w
            ++ [("Error",
                 match res with
                 | Json false error => or_else (Admin.detail_of error) "Save failed"
                 | _ => "Save failed"
                 end)])%list
  end.
Proof.
  cbv zeta. unfold Admin.fetch, execState. cbn -[Admin.fetchData].
  destruct (endpoint (Admin.server w)) as [res srv1]. cbn -[Admin.fetchData].
  assert (Hok : forall w0 : World,
    let w2 := snd (runState fetchData w0) in
    Admin.alerts w2 = Admin.alerts w0
    /\ Admin.http_log w2
       = (Admin.http_log w0 ++ [Admin.GET_exercises; Admin.GET_protocols])%list
    /\ Admin.screen w2
       = Admin.set_protocols (Admin.protocols (Admin.screen w2))
           (Admin.set_exercises (Admin.exercises (Admin.screen w2))
              (Admin.screen w0))).
  { intros w0. destruct (fetchData_outcome w0) as (Hl & _ & _ & _ & Ha & Hs & _).
    cbv zeta in *. unfold execState in *. split; [exact Ha|]. split; [exact Hl|].
    rewrite Hs.
    destruct (fst (Admin.api_exercises backend (Admin.server w0)));
      destruct (fst (Admin.api_protocols backend
                       (snd (Admin.api_exercises backend (Admin.server w0)))));
      cbn; destruct (Admin.screen w0); reflexivity. }
  destruct res as [|ok|ok error]; cbn -[Admin.fetchData]; [auto| |].
  - destruct ok; cbn -[Admin.fetchData]; [|auto].
    match goal with
    | |- context [runState fetchData ?x] =>
        destruct (Hok x) as (Ha & Hl & Hs)
    end.
    cbn [Admin.alerts Admin.http_log Admin.screen] in Ha, Hl, Hs.
    rewrite Ha, Hl, <- app_assoc. split; [reflexivity|]. split; [reflexivity|].
    exact Hs.
  - destruct ok; cbn -[Admin.fetchData]; [|auto].
    match goal with
    | |- context [runState fetchData ?x] =>
        destruct (Hok x) as (Ha & Hl & Hs)
    end.
    cbn [Admin.alerts Admin.http_log Admin.screen] in Ha, Hl, Hs.
    rewrite Ha, Hl, <- app_assoc. split; [reflexivity|]. split; [reflexivity|].
    exact Hs.
Qed.

Lemma saveExercise_cases (w : World) :
  let request := Admin.save_exercise_request (Admin.screen w) in
  let res := fst (Admin.save_exercise_endpoint backend (Admin.screen w)
                    (Admin.server w)) in
  let w' := execState saveExercise w in
  match Admin.response_ok res with
  | Some true =>
      Admin.alerts w' = Admin.alerts w
      /\ Admin.http_log w'
         = (Admin.http_log w
            ++ [request; Admin.GET_exercises; Admin.GET_protocols])%list
      /\ Admin.screen w'
         = Admin.set_protocols (Admin.protocols (Admin.screen w'))
             (Admin.set_exercises (Admin.exercises (Admin.screen w'))
                (Admin.set_showExerciseModal false (Admin.screen w)))
  | _ =>
      Admin.screen w' = Admin.screen w
      /\ Admin.http_log w' = (Admin.http_log w ++ [request])%list
      /\ Admin.alerts w'
         = (Admin.alerts w
            ++ [("Error",
                 match res with
                 | Json false error => or_else (Admin.detail_of error) "Save failed"
                 | _ => "Save failed"
                 end)])%list
  end.
Proof.
  exact (save_outcome w (Admin.save_exercise_request (Admin.screen w))
           (Admin.save_exercise_endpoint backend (Admin.screen w))
           (Admin.set_showExerciseModal false)).
Qed.

Lemma saveProtocol_cases (w : World) :
  let request := Admin.save_protocol_request (Admin.screen w) in
  let res := fst (Admin.save_protocol_endpoint backend (Admin.screen w)
                    (Admin.server w)) in
  let w' := execState saveProtocol w in
  match Admin.response_ok res with
  | Some true =>
      Admin.alerts w' = Admin.alerts w
      /\ Admin.http_log w'
         = (Admin.http_log w
            ++ [request; Admin.GET_exercises; Admin.GET_protocols])%list
      /\ Admin.screen w'
         = Admin.set_protocols (Admin.protocols (Admin.screen w'))
             (Admin.set_exercises (Admin.exercises (Admin.screen w'))
                (Admin.set_showProtocolModal false (Admin.screen w)))
  | _ =>
      Admin.screen w' = Admin.screen w
      /\ Admin.http_log w' = (Admin.http_log w ++ [request])%list
      /\ Admin.alerts w'
         = (Admin.alerts w
            ++ [("Error",
                 match res with
                 | Json false error => or_else (Admin.detail_of error) "Save failed"
                 | _ => "Save failed"
                 end)])%list
  end.
Proof.
  exact (save_outcome w (Admin.save_protocol_request (Admin.screen w))
           (Admin.save_protocol_endpoint backend (Admin.screen w))
           (Admin.set_showProtocolModal false)).
Qed.

(** X26. [saveExercise] closes the modal exactly on an ok response, and
    then shows no alert and requests both lists again.  On any other
    outcome the screen is as before, with the modal open and the form as
    typed, nothing but the save request was sent, and one alert is
    shown: its message is the [detail] of the JSON error body when the
    body has one that is not empty, and 'Save failed' in every other
    case (no response, a body that is no JSON, a body without detail or
    with an empty one). *)
Theorem saveExercise_outcome (w : World) :
  let request := Admin.save_exercise_request (Admin.screen w) in
  let res := fst (Admin.save_exercise_endpoint backend (Admin.screen w)
                    (Admin.server w)) in
  let w' := execState saveExercise w in
  let message :=
    match res with
    | Json _ (ErrorDetail detail) =>
        if String.eqb detail EmptyString then "Save failed" else detail
    | _ => "Save failed"
    end in
  (Admin.response_ok res = Some true ->
   Admin.showExerciseModal (Admin.screen w') = false
   /\ Admin.exerciseForm (Admin.screen w') = Admin.exerciseForm (Admin.screen w)
   /\ Admin.editingExercise (Admin.screen w')
      = Admin.editingExercise (Admin.screen w)
   /\ Admin.alerts w' = Admin.alerts w
   /\ Admin.http_log w'
      = (Admin.http_log w
         ++ [request; Admin.GET_exercises; Admin.GET_protocols])%list)
  /\ (Admin.response_ok res <> Some true ->
      Admin.screen w' = Admin.screen w
      /\ Admin.http_log w' = (Admin.http_log w ++ [request])%list
      /\ Admin.alerts w' = (Admin.alerts w ++ [("Error", message)])%list
      /\ (forall ok detail,
            res = Json ok (ErrorDetail detail) -> detail <> EmptyString ->
            message = detail)
      /\ (message = "Save failed"
          \/ (message <> EmptyString
              /\ exists ok, res = Json ok (ErrorDetail message)))).
Proof.
  cbv zeta. pose proof (saveExercise_cases w) as H. cbv zeta in H.
  destruct (fst (Admin.save_exercise_endpoint backend (Admin.screen w)
                   (Admin.server w))) as [|ok|ok error]; cbn in H |- *.
  - split; [discriminate|]. intros _. destruct H as (Hs & Hl & Ha).
    split; [exact Hs|]. split; [exact Hl|]. split; [exact Ha|].
    split; [intros ok detail E; discriminate|left; reflexivity].
  - destruct ok.
    + split; [|congruence]. intros _. destruct H as (Ha & Hl & Hs).
      rewrite Hs. cbn. auto.
    + split; [discriminate|]. intros _. destruct H as (Hs & Hl & Ha).
      split; [exact Hs|]. split; [exact Hl|]. split; [exact Ha|].
      split; [intros ok detail E; discriminate|left; reflexivity].
  - destruct ok.
    + split; [|congruence]. intros _. destruct H as (Ha & Hl & Hs).
      rewrite Hs. cbn. auto.
    + split; [discriminate|]. intros _. destruct H as (Hs & Hl & Ha).
      split; [exact Hs|]. split; [exact Hl|].
      destruct error as [v|detail]; cbn in Ha |- *.
      * split; [exact Ha|].
        split; [intros ok detail E; discriminate|left; reflexivity].
      * unfold or_else in Ha. cbn in Ha.
        destruct (String.eqb_spec detail EmptyString) as [E|E].
        -- split; [exact Ha|]. split; [|left; reflexivity].
           intros ok d Hd Hne. inversion Hd; subst. contradiction.
        -- split; [exact Ha|]. split.
           ++ intros ok d Hd _. inversion Hd; subst. reflexivity.
           ++ right. split; [exact E|]. exists false. reflexivity.
Qed.

Lemma toggle_equipment_ok (equip : string) (form : Admin.ExerciseForm.t) :
  In equip Admin.EQUIPMENT_OPTIONS ->
  Admin.exercise_form_ok form ->
  Admin.exercise_form_ok (Admin.toggle_equipment equip form).
Proof.
  intros Hopt (Hc & Hp & Hne & Hnd & Hincl). unfold Admin.toggle_equipment.
  destruct (Admin.includes (Admin.ExerciseForm.equipment form) equip) eqn:Hinc.
  - destruct (Nat.ltb_spec 1 (length (Admin.ExerciseForm.equipment form)))
      as [Hlen|Hlen]; [|repeat split; assumption].
    apply includes_In in Hinc.
    destruct form as [i n c l b a p pw]. unfold Admin.exercise_form_ok. cbn in *.
    split; [exact Hc|]. split; [exact Hp|]. split; [|split].
    + destruct l as [|x [|y l]]; cbn in Hlen; try lia.
      inversion Hnd as [|? ? Hx _]; subst.
      cbn. destruct (String.eqb_spec x equip) as [E|E]; cbn; [|discriminate].
      destruct (String.eqb_spec y equip) as [E'|E']; cbn; [|discriminate].
      exfalso. apply Hx. left. congruence.
    + apply NoDup_filter. exact Hnd.
    + intros e He. apply dropped_In in He. apply Hincl. tauto.
  - apply includes_not_In in Hinc.
    destruct form as [i n c l b a p pw]. unfold Admin.exercise_form_ok. cbn in *.
    split; [exact Hc|]. split; [exact Hp|]. split; [|split].
    + destruct l; discriminate.
    + apply NoDup_app; [exact Hnd|repeat constructor; intros []|].
      intros x Hx [E|[]]. subst. contradiction.
    + intros e He. apply in_app_or in He. destruct He as [He|[He|[]]].
      * apply Hincl. exact He.
      * subst. exact Hopt.
Qed.

Lemma blank_exercise_form_ok : Admin.exercise_form_ok Admin.blank_exercise_form.
Proof.
  unfold Admin.exercise_form_ok. cbn.
  split; [auto|]. split; [auto|]. split; [discriminate|].
  split; [repeat constructor; intros []|].
  intros e [E|[]]. subst. left. reflexivity.
Qed.

Lemma edit_exercise_ok (editing : bool) (a : Admin.ExerciseEdit)
    (form : Admin.ExerciseForm.t) :
  Admin.exercise_form_ok form ->
  Admin.exercise_form_ok (Admin.edit_exercise lower_snake editing a form).
Proof.
  intros H. destruct a; cbn.
  - destruct editing; [exact H|]. exact H.
  - exact H.
  - destruct (nth_error Admin.CATEGORIES i) as [cat|] eqn:E; [|exact H].
    apply nth_error_In in E. destruct H as (_ & Hp & Hrest).
    split; [exact E|]. split; [exact Hp|exact Hrest].
  - destruct (nth_error Admin.EQUIPMENT_OPTIONS i) as [equip|] eqn:E; [|exact H].
    apply nth_error_In in E. apply toggle_equipment_ok; assumption.
  - destruct (nth_error PRESCRIPTION_TYPES i) as [type|] eqn:E; [|exact H].
    apply nth_error_In in E. destruct H as (Hc & _ & Hrest).
    split; [exact Hc|]. split; [exact E|exact Hrest].
  - exact H.
  - exact H.
  - exact H.
Qed.

Lemma edit_exercise_id (a : Admin.ExerciseEdit) (form : Admin.ExerciseForm.t) :
  Admin.ExerciseForm.id (Admin.edit_exercise lower_snake true a form)
  = Admin.ExerciseForm.id form.
Proof.
  destruct a; cbn; try reflexivity.
  - destruct (nth_error Admin.CATEGORIES i); reflexivity.
  - destruct (nth_error Admin.EQUIPMENT_OPTIONS i); [|reflexivity].
    unfold Admin.toggle_equipment.
    destruct (Admin.includes (Admin.ExerciseForm.equipment form) s);
      [destruct (1 <? length (Admin.ExerciseForm.equipment form))%nat|];
      reflexivity.
  - destruct (nth_error PRESCRIPTION_TYPES i); reflexivity.
Qed.

(** What a run of edits leaves: the form is edited, nothing else moves. *)
Lemma editsExercise_run (edits : list Admin.ExerciseEdit) :
  forall w : World,
    let w' := execState (editsExercise edits) w in
    Admin.http_log w' = Admin.http_log w
    /\ Admin.server w' = Admin.server w
    /\ Admin.token (Admin.screen w') = Admin.token (Admin.screen w)
    /\ Admin.editingExercise (Admin.screen w')
       = Admin.editingExercise (Admin.screen w)
    /\ Admin.exerciseForm (Admin.screen w')
       = fold_left
           (fun form a =>
              Admin.edit_exercise lower_snake
                (Admin.is_some (Admin.editingExercise (Admin.screen w))) a form)
           edits (Admin.exerciseForm (Admin.screen w)).
Proof.
  induction edits as [|a edits IH]; intros w; cbv zeta.
  - cbn. auto.
  - cbn [Admin.editsExercise]. rewrite admin_seq.
    destruct (IH (execState (@Admin.editExercise Srv Dev lower_snake a) w))
      as (Hl & Hs & Ht & He & Hf).
    rewrite Hl, Hs, Ht, He, Hf. cbn. auto.
Qed.

Lemma fold_edit_exercise_ok (editing : bool) (edits : list Admin.ExerciseEdit) :
  forall form,
    Admin.exercise_form_ok form ->
    Admin.exercise_form_ok
      (fold_left (fun form a => Admin.edit_exercise lower_snake editing a form)
         edits form).
Proof.
  induction edits as [|a edits IH]; intros form H; [exact H|].
  cbn. apply IH. apply edit_exercise_ok. exact H.
Qed.

Lemma fold_edit_exercise_id (edits : list Admin.ExerciseEdit) :
  forall form,
    Admin.ExerciseForm.id
      (fold_left (fun form a => Admin.edit_exercise lower_snake true a form)
         edits form)
    = Admin.ExerciseForm.id form.
Proof.
  induction edits as [|a edits IH]; intros form; [reflexivity|].
  cbn. rewrite IH. apply edit_exercise_id.
Qed.

Lemma saveExercise_first_request (w : World) :
  exists rest,
    Admin.http_log (execState saveExercise w)
    = (Admin.http_log w
       ++ Admin.save_exercise_request (Admin.screen w) :: rest)%list.
Proof.
  pose proof (saveExercise_cases w) as H. cbv zeta in H.
  destruct (Admin.response_ok
              (fst (Admin.save_exercise_endpoint backend (Admin.screen w)
                      (Admin.server w)))) as [[|]|];
    destruct H as (H1 & H2 & H3).
  - exists [Admin.GET_exercises; Admin.GET_protocols]. exact H2.
  - exists []. exact H2.
  - exists []. exact H2.
Qed.

(** X27. Whatever is typed and tapped in the exercise modal, the request
    of [saveExercise] is, for a modal opened with Add Exercise, a [POST]
    whose body has a category of [CATEGORIES], a prescription type of
    [PRESCRIPTION_TYPES] and a non-empty, duplicate-free equipment list
    within [EQUIPMENT_OPTIONS]; for a modal opened on an exercise, a
    [PUT] to that exercise's id whose body carries the same id.  The
    header is the token of the screen, or the empty string. *)
Theorem saveExercise_request_after_edits (exercise : option ExerciseDef.t)
    (edits : list Admin.ExerciseEdit) (w : World) :
  let w' :=
    execState (openExerciseModal exercise ;; editsExercise edits ;; saveExercise) w in
  let tok := or_else (Admin.token (Admin.screen w)) EmptyString in
  exists body rest,
    match exercise with
    | None =>
        Admin.http_log w'
        = (Admin.http_log w ++ Admin.POST_exercise tok body :: rest)%list
        /\ Admin.exercise_form_ok body
    | Some e =>
        Admin.http_log w'
        = (Admin.http_log w
           ++ Admin.PUT_exercise (ExerciseDef.id e) tok body :: rest)%list
        /\ Admin.ExerciseForm.id body = ExerciseDef.id e
        /\ (Admin.exercise_form_ok (Admin.exercise_form_of e) ->
            Admin.exercise_form_ok body)
    end.
Proof.
  cbv zeta. rewrite !admin_seq.
  set (w1 := execState (openExerciseModal exercise) w).
  assert (H1 : Admin.http_log w1 = Admin.http_log w
               /\ Admin.token (Admin.screen w1) = Admin.token (Admin.screen w)
               /\ Admin.editingExercise (Admin.screen w1) = exercise
               /\ Admin.exerciseForm (Admin.screen w1)
                  = match exercise with
                    | Some e => Admin.exercise_form_of e
                    | None => Admin.blank_exercise_form
                    end).
  { subst w1. destruct exercise; cbn; auto. }
  destruct H1 as (Hl1 & Ht1 & He1 & Hf1).
  destruct (editsExercise_run edits w1) as (Hl2 & _ & Ht2 & He2 & Hf2).
  cbv zeta in Hl2, Ht2, He2, Hf2.
  set (w2 := execState (editsExercise edits) w1) in *.
  destruct (saveExercise_first_request w2) as (rest & Hl3).
  exists (Admin.exerciseForm (Admin.screen w2)), rest.
  rewrite Hl3, Hl2, Hl1. unfold Admin.save_exercise_request.
  rewrite He2, He1, Ht2, Ht1, Hf2, He1, Hf1.
  destruct exercise as [e|]; cbn [Admin.is_some].
  - split; [reflexivity|]. split.
    + rewrite fold_edit_exercise_id. reflexivity.
    + apply fold_edit_exercise_ok.
  - split; [reflexivity|]. apply fold_edit_exercise_ok.
    exact blank_exercise_form_ok.
Qed.

Lemma truthy_or_else_empty (x : option string) :
  truthy_string (Some (or_else x EmptyString)) = truthy_string x.
Proof.
  unfold or_else. destruct x as [s|]; cbn; [|reflexivity].
  destruct (String.eqb_spec s EmptyString) as [E|E]; cbn; [reflexivity|].
  destruct (String.eqb_spec s EmptyString); [contradiction|reflexivity].
Qed.

Lemma or_else_or_else_empty (x : option string) (fallback : string) :
  or_else (Some (or_else x EmptyString)) fallback = or_else x fallback.
Proof.
  unfold or_else at 1 3. rewrite truthy_or_else_empty. reflexivity.
Qed.

Lemma saveProtocol_first_request (w : World) :
  exists rest,
    Admin.http_log (execState saveProtocol w)
    = (Admin.http_log w
       ++ Admin.save_protocol_request (Admin.screen w) :: rest)%list.
Proof.
  pose proof (saveProtocol_cases w) as H. cbv zeta in H.
  destruct (Admin.response_ok
              (fst (Admin.save_protocol_endpoint backend (Admin.screen w)
                      (Admin.server w)))) as [[|]|];
    destruct H as (H1 & H2 & H3).
  - exists [Admin.GET_exercises; Admin.GET_protocols]. exact H2.
  - exists []. exact H2.
  - exists []. exact H2.
Qed.

(** X28. Opening a protocol in the modal and saving it unedited sends a
    [PUT] to the protocol's id.  The object sent has the protocol's
    required fields, and every optional field that was populated; an
    optional field that was absent or empty is sent as the empty string.
    The session screen shows the same volume for an exercise carrying
    the volume fields of the object sent as for one carrying those of
    the protocol. *)
Theorem saveProtocol_unedited (protocol : ProtocolDef.t) (w : World) :
  let w' := execState (openProtocolModal (Some protocol) ;; saveProtocol) w in
  let tok := or_else (Admin.token (Admin.screen w)) EmptyString in
  let sent := Admin.sent_protocol (Admin.protocol_form_of protocol) in
  (exists rest,
     Admin.http_log w'
     = (Admin.http_log w
        ++ Admin.PUT_protocol (ProtocolDef.id protocol) tok
             (Admin.protocol_form_of protocol) :: rest)%list)
  /\ ProtocolDef.id sent = ProtocolDef.id protocol
  /\ ProtocolDef.name sent = ProtocolDef.name protocol
  /\ ProtocolDef.prescription_type sent = ProtocolDef.prescription_type protocol
  /\ ProtocolDef.description_short sent = ProtocolDef.description_short protocol
  /\ ProtocolDef.sets sent = ProtocolDef.sets protocol
  /\ ProtocolDef.rest sent = ProtocolDef.rest protocol
  /\ ProtocolDef.is_easy_day sent = ProtocolDef.is_easy_day protocol
  /\ truthy_string (ProtocolDef.example sent)
     = truthy_string (ProtocolDef.example protocol)
  /\ truthy_string (ProtocolDef.reps sent)
     = truthy_string (ProtocolDef.reps protocol)
  /\ truthy_string (ProtocolDef.hold_time sent)
     = truthy_string (ProtocolDef.hold_time protocol)
  /\ truthy_string (ProtocolDef.time sent)
     = truthy_string (ProtocolDef.time protocol)
  /\ truthy_string (ProtocolDef.tempo sent)
     = truthy_string (ProtocolDef.tempo protocol)
  /\ (forall e e' : Exercise.t,
        Exercise.prescription_type e' = Exercise.prescription_type e ->
        Exercise.reps e = ProtocolDef.reps protocol ->
        Exercise.hold_time e = ProtocolDef.hold_time protocol ->
        Exercise.time e = ProtocolDef.time protocol ->
        Exercise.reps e' = ProtocolDef.reps sent ->
        Exercise.hold_time e' = ProtocolDef.hold_time sent ->
        Exercise.time e' = ProtocolDef.time sent ->
        getVolumeDisplay e' = getVolumeDisplay e).
Proof.
  cbv zeta. split.
  - rewrite admin_seq.
    destruct (saveProtocol_first_request
                (execState (openProtocolModal (Some protocol)) w)) as (rest & H).
    exists rest. rewrite H. reflexivity.
  - repeat (split; [first [reflexivity | apply truthy_or_else_empty]|]).
    intros e e' Hp Hr Hh Ht Hr' Hh' Ht'. unfold getVolumeDisplay.
    rewrite Hp, Hr, Hh, Ht, Hr', Hh', Ht'. cbn.
    rewrite !or_else_or_else_empty. reflexivity.
Qed.

(** X29. The object [saveProtocol] sends never has an absent volume
    field: reps, hold_time and time are always strings, empty when not
    filled in.  So no protocol sent from the form has exactly one volume
    field populated and the other two absent, although a field reads as
    populated exactly when its input is not empty. *)
Theorem sent_protocol_placeholders (form : Admin.ProtocolForm.t) :
  let sent := Admin.sent_protocol form in
  absent (ProtocolDef.reps sent) = false
  /\ absent (ProtocolDef.hold_time sent) = false
  /\ absent (ProtocolDef.time sent) = false
  /\ protocol_volume_ok sent = false
  /\ populated (ProtocolDef.reps sent)
     = negb (String.eqb (Admin.ProtocolForm.reps form) EmptyString)
  /\ populated (ProtocolDef.hold_time sent)
     = negb (String.eqb (Admin.ProtocolForm.hold_time form) EmptyString)
  /\ populated (ProtocolDef.time sent)
     = negb (String.eqb (Admin.ProtocolForm.time form) EmptyString).
Proof.
  cbv zeta. split; [reflexivity|]. split; [reflexivity|]. split; [reflexivity|].
  split.
  - unfold protocol_volume_ok, volume_fields_ok.
    destruct (volume_field_of (ProtocolDef.prescription_type
                                 (Admin.sent_protocol form))) as [[| |]|];
      cbn [absent Admin.sent_protocol ProtocolDef.reps ProtocolDef.hold_time
             ProtocolDef.time];
      rewrite ?andb_false_r; reflexivity.
  - unfold populated. cbn.
    destruct (String.eqb (Admin.ProtocolForm.reps form) EmptyString);
      destruct (String.eqb (Admin.ProtocolForm.hold_time form) EmptyString);
      destruct (String.eqb (Admin.ProtocolForm.time form) EmptyString);
      auto.
Qed.

(** Everything a delete leaves behind once Delete is pressed. *)
Lemma delete_outcome (w : World) (request : Admin.Request)
    (endpoint : Srv -> FetchResult unit * Srv) :
  let res := fst (endpoint (Admin.server w)) in
  let w' :=
    execState
      (response <- @Admin.fetch Srv Dev unit request endpoint ;;
       match Admin.response_ok response with
       | None => @Admin.alert Srv Dev "Error" "Delete failed"
       | Some true => fetchData
       | Some false => ret tt
       end) w in
  match Admin.response_ok res with
  | Some true =>
      Admin.alerts w' = Admin.alerts w
      /\ Admin.http_log w'
         = (Admin.http_log w
            ++ [request; Admin.GET_exercises; Admin.GET_protocols])%list
  | Some false =>
      Admin.alerts w' = Admin.alerts w
      /\ Admin.http_log w' = (Admin.http_log w ++ [request])%list
      /\ Admin.screen w' = Admin.screen w
      /\ Admin.console w' = Admin.console w
  | None =>
      Admin.alerts w' = (Admin.alerts w ++ [("Error", "Delete failed")])%list
      /\ Admin.http_log w' = (Admin.http_log w ++ [request])%list
      /\ Admin.screen w' = Admin.screen w
      /\ Admin.console w' = Admin.console w
  end.
Proof.
  cbv zeta. unfold Admin.fetch, execState. cbn -[Admin.fetchData].
  destruct (endpoint (Admin.server w)) as [res srv1]. cbn -[Admin.fetchData].
  destruct (Admin.response_ok res) as [[|]|]; cbn -[Admin.fetchData]; auto.
  match goal with
  | |- context [runState fetchData ?x] =>
      destruct (fetchData_outcome x) as (Hl & _ & _ & _ & Ha & _)
  end.
  cbv zeta in Hl, Ha. unfold execState in Hl, Ha.
  cbn [Admin.alerts Admin.http_log] in Ha, Hl.
  rewrite Ha, Hl, <- app_assoc. auto.
Qed.

(** X30. [deleteExercise] and [deleteProtocol] first ask; without the
    Delete button nothing is sent and the screen is as before.  With it,
    one [DELETE] request carries the id and the token; the lists are
    requested again only on an ok response; a response that is not ok is
    silent, the screen is as before and no alert says so; a request that
    fails to be sent shows 'Delete failed'. *)
Theorem delete_outcomes (id : string) (choice : Admin.DeleteChoice) (w : World) :
  let tok := or_else (Admin.token (Admin.screen w)) EmptyString in
  let outcome (title : string) (request : Admin.Request)
        (res : FetchResult unit) (w' : World) :=
    match choice with
    | Admin.Delete =>
        match Admin.response_ok res with
        | Some true =>
            Admin.alerts w' = (Admin.alerts w ++ [(title, "Are you sure?")])%list
            /\ Admin.http_log w'
               = (Admin.http_log w
                  ++ [request; Admin.GET_exercises; Admin.GET_protocols])%list
        | Some false =>
            Admin.alerts w' = (Admin.alerts w ++ [(title, "Are you sure?")])%list
            /\ Admin.http_log w' = (Admin.http_log w ++ [request])%list
            /\ Admin.screen w' = Admin.screen w
            /\ Admin.console w' = Admin.console w
        | None =>
            Admin.alerts w'
            = (Admin.alerts w
               ++ [(title, "Are you sure?"); ("Error", "Delete failed")])%list
            /\ Admin.http_log w' = (Admin.http_log w ++ [request])%list
            /\ Admin.screen w' = Admin.screen w
            /\ Admin.console w' = Admin.console w
        end
    | Admin.CancelDelete | Admin.DismissedDelete =>
        Admin.alerts w' = (Admin.alerts w ++ [(title, "Are you sure?")])%list
        /\ Admin.http_log w' = Admin.http_log w
        /\ Admin.screen w' = Admin.screen w
        /\ Admin.console w' = Admin.console w
    end in
  outcome "Delete Exercise" (Admin.DELETE_exercise id tok)
    (fst (Admin.api_delete_exercise backend id tok (Admin.server w)))
    (execState (deleteExercise id choice) w)
  /\ outcome "Delete Protocol" (Admin.DELETE_protocol id tok)
       (fst (Admin.api_delete_protocol backend id tok (Admin.server w)))
       (execState (deleteProtocol id choice) w).
Proof.
  cbv zeta. split.
  - unfold Admin.deleteExercise. rewrite admin_seq.
    destruct choice; [cbn; auto| |cbn; auto].
    set (w1 := execState (@Admin.alert Srv Dev "Delete Exercise" "Are you sure?") w).
    pose proof (delete_outcome w1
                  (Admin.DELETE_exercise id (or_else (Admin.token (Admin.screen w))
                                               EmptyString))
                  (Admin.api_delete_exercise backend id
                     (or_else (Admin.token (Admin.screen w)) EmptyString))) as H.
    cbv zeta in H.
    change (Admin.server w1) with (Admin.server w) in H.
    destruct (Admin.response_ok
                (fst (Admin.api_delete_exercise backend id
                        (or_else (Admin.token (Admin.screen w)) EmptyString)
                        (Admin.server w)))) as [[|]|];
      cbn in H |- *; rewrite <- ?app_assoc in H; exact H.
  - unfold Admin.deleteProtocol. rewrite admin_seq.
    destruct choice; [cbn; auto| |cbn; auto].
    set (w1 := execState (@Admin.alert Srv Dev "Delete Protocol" "Are you sure?") w).
    pose proof (delete_outcome w1
                  (Admin.DELETE_protocol id (or_else (Admin.token (Admin.screen w))
                                               EmptyString))
                  (Admin.api_delete_protocol backend id
                     (or_else (Admin.token (Admin.screen w)) EmptyString))) as H.
    cbv zeta in H.
    change (Admin.server w1) with (Admin.server w) in H.
    destruct (Admin.response_ok
                (fst (Admin.api_delete_protocol backend id
                        (or_else (Admin.token (Admin.screen w)) EmptyString)
                        (Admin.server w)))) as [[|]|];
      cbn in H |- *; rewrite <- ?app_assoc in H; exact H.
Qed.

End AdminFacts.

(** * The properties on concrete inputs *)

(** A great day against a backend that cannot be reached. *)
Lemma generateSession_throws_witness :
  let w := Sample.world Sample.fresh_server Sample.great_day in
  let w' := execState (generateSession (unreachable _)) w in
  store w' = store w /\ console w' = ["Error generating session:"].
Proof.
  intros w w'.
  destruct (@generateSession_throws _ (unreachable _) w) as (H1 & _ & H3 & _).
  - reflexivity.
  - left. reflexivity.
  - split; [exact H1|exact H3].
Defined.

(** A great day against the engine. *)
Lemma generateSession_answered_witness :
  let w := Sample.world Sample.fresh_server Sample.great_day in
  let w' := execState (generateSession Sample.engine_backend) w in
  nav_log w' = [router_push "/session"]
  /\ lastQuestionnaire (store w') = Some Sample.great_day.
Proof.
  intros w w'.
  destruct (fst (api_generate Sample.engine_backend (generate_payload w) (server w)))
    as [|ok|ok body] eqn:E; [vm_compute in E; discriminate ..|].
  destruct (@generateSession_answered _ Sample.engine_backend w ok body eq_refl E)
    as (_ & H2 & _ & _ & H5 & _).
  split; [exact H5|exact H2].
Defined.

Lemma handleBucketSelect_shows_bucket_witness :
  currentBucket
    (store (execState (handleBucketSelect _ "pull")
              (Sample.world Sample.fresh_server Sample.no_answers)))
  = "pull".
Proof.
  apply (@handleBucketSelect_shows_bucket _ "pull"
           (Sample.world Sample.fresh_server Sample.no_answers)).
  discriminate.
Defined.

(** The session of a great day, then the network goes away. *)
Lemma handleSwap_throws_witness :
  let w :=
    execState (generateSession Sample.engine_backend ;; mount_session_screen _)
      (Sample.world Sample.fresh_server Sample.great_day) in
  let w' := execState (handleSwap (unreachable _) "kb_swing") w in
  exercises (session_screen w') = exercises (session_screen w)
  /\ console w' = ["Error swapping exercise:"].
Proof.
  intros w w'.
  destruct (currentSession (store w)) as [session|] eqn:Hs;
    [|vm_compute in Hs; discriminate].
  destruct (exercises (session_screen w)) as [l|] eqn:Hl;
    [|vm_compute in Hl; discriminate].
  destruct (@handleSwap_throws _ (unreachable _) session l "kb_swing" w Hs Hl)
    as (H1 & _ & _ & H4).
  - left. reflexivity.
  - split; [exact H1|exact H4].
Defined.

Lemma handleSwap_answered_witness :
  let w :=
    execState (generateSession Sample.engine_backend ;; mount_session_screen _)
      (Sample.world Sample.fresh_server Sample.great_day) in
  let w' := execState (handleSwap Sample.engine_backend "kb_swing") w in
  option_map (@length _) (exercises (session_screen w')) = Some 3%nat.
Proof.
  intros w w'.
  destruct (currentSession (store w)) as [session|] eqn:Hs;
    [|vm_compute in Hs; discriminate].
  destruct (exercises (session_screen w)) as [l|] eqn:Hl;
    [|vm_compute in Hl; discriminate].
  destruct (fst (api_swap Sample.engine_backend (swap_body session "kb_swing")
                   (server w))) as [|ok|ok body] eqn:E.
  - vm_compute in Hs. inversion Hs; subst. vm_compute in E. discriminate.
  - vm_compute in Hs. inversion Hs; subst. vm_compute in E. discriminate.
  - destruct (@handleSwap_answered _ Sample.engine_backend session l "kb_swing"
                ok body w Hs Hl E) as (l' & H1 & H2 & _).
    fold w' in H1. rewrite H1. cbn. rewrite H2.
    vm_compute in Hl. inversion Hl; subst. reflexivity.
Defined.

Lemma handleSwap_twice_witness :
  let w :=
    execState (generateSession Sample.engine_backend ;; mount_session_screen _)
      (Sample.world Sample.fresh_server Sample.great_day) in
  let w1 := execState (handleSwap Sample.engine_backend "goblet_squat") w in
  let w2 := execState (handleSwap Sample.engine_backend "goblet_squat") w1 in
  exercises (session_screen w2) = exercises (session_screen w1).
Proof.
  intros w w1 w2.
  destruct (currentSession (store w)) as [session|] eqn:Hs;
    [|vm_compute in Hs; discriminate].
  destruct (exercises (session_screen w)) as [l|] eqn:Hl;
    [|vm_compute in Hl; discriminate].
  destruct (@handleSwap_twice _ Sample.engine_backend session l "goblet_squat"
              false (ErrorDetail "NoAlternativeError") w Hs Hl)
    as (l1 & H1 & _ & H2).
  - vm_compute in Hs. inversion Hs; subst. reflexivity.
  - discriminate.
  - fold w1 in H1. fold w1 w2 in H2. rewrite H1, H2. reflexivity.
Defined.

Lemma handleReroll_throws_witness :
  let w :=
    execState (generateSession Sample.engine_backend ;; mount_session_screen _)
      (Sample.world Sample.fresh_server Sample.great_day) in
  let w' := execState (handleReroll (unreachable _)) w in
  currentSession (store w') = currentSession (store w)
  /\ console w' = ["Error rerolling session:"].
Proof.
  intros w w'.
  destruct (@handleReroll_throws _ (unreachable _) Sample.great_day w)
    as (H1 & _ & _ & _ & H5).
  - reflexivity.
  - left. reflexivity.
  - split; [exact H1|exact H5].
Defined.

Lemma handleReroll_answered_witness :
  let w :=
    execState (generateSession Sample.engine_backend ;; mount_session_screen _)
      (Sample.world Sample.fresh_server Sample.great_day) in
  let w' := execState (handleReroll Sample.engine_backend) w in
  exercises (session_screen w')
  = exercises (session_screen (execState (mount_session_screen _) w'))
  /\ lastQuestionnaire (store w') = Some Sample.great_day.
Proof.
  intros w w'.
  destruct (fst (api_reroll Sample.engine_backend (reroll_body Sample.great_day)
                   (server w))) as [|ok|ok [s|detail]] eqn:E;
    [vm_compute in E; discriminate ..| |vm_compute in E; discriminate].
  destruct (@handleReroll_answered _ Sample.engine_backend Sample.great_day ok s w
              eq_refl E) as (_ & _ & H3 & H4 & _).
  split; [exact H3|exact H4].
Defined.

Lemma handleComplete_network_failure_witness :
  let w :=
    execState (generateSession Sample.engine_backend ;; mount_session_screen _)
      (Sample.world Sample.fresh_server Sample.great_day) in
  let w' := execState (handleComplete (unreachable _) good) w in
  store w' = store w /\ nav_log w' = nav_log w.
Proof.
  intros w w'.
  destruct (currentSession (store w)) as [session|] eqn:Hs;
    [|vm_compute in Hs; discriminate].
  destruct (@handleComplete_network_failure _ (unreachable _) session good w Hs)
    as (H1 & H2 & _).
  - reflexivity.
  - split; [exact H1|exact H2].
Defined.

(** The gateway answers 502 with a page that is no JSON: the session is
    dropped all the same. *)
Lemma handleComplete_answered_witness :
  let w :=
    execState (generateSession Sample.engine_backend ;; mount_session_screen _)
      (Sample.world Sample.fresh_server Sample.great_day) in
  let w' := execState (handleComplete (bad_gateway _) good) w in
  currentSession (store w') = None /\ console w' = [].
Proof.
  intros w w'.
  destruct (currentSession (store w)) as [session|] eqn:Hs;
    [|vm_compute in Hs; discriminate].
  destruct (@handleComplete_answered _ (bad_gateway _) session good w Hs)
    as (H1 & _ & H3 & _).
  - discriminate.
  - split; [exact H1|exact H3].
Defined.

Lemma toggleCooldownOverride_twice_witness :
  let w :=
    execState (fetchUserState Sample.engine_backend)
      (Sample.world Sample.fresh_server Sample.no_answers) in
  let w2 :=
    execState (toggleCooldownOverride Sample.engine_backend ;;
               toggleCooldownOverride Sample.engine_backend) w in
  http_log w2
  = [GET_state; PUT_settings (override_write true);
     PUT_settings (override_write false)].
Proof.
  intros w w2.
  destruct (userState (store w)) as [[u0|detail]|] eqn:Hu;
    [|vm_compute in Hu; discriminate ..].
  assert (Hc : UserState.cooldown_override u0 = false)
    by (vm_compute in Hu; inversion Hu; subst; reflexivity).
  destruct (fst (api_settings Sample.engine_backend
                   (override_write (negb (UserState.cooldown_override u0)))
                   (server w))) as [|ok|ok [u1|detail]] eqn:E;
    [rewrite Hc in E; vm_compute in E; discriminate ..| |
     rewrite Hc in E; vm_compute in E; discriminate].
  assert (Hc1 : UserState.cooldown_override u1 = true)
    by (rewrite Hc in E; vm_compute in E; inversion E; subst; reflexivity).
  destruct (@toggleCooldownOverride_twice _ Sample.engine_backend u0 u1 ok w Hu E)
    as (H1 & _).
  unfold w2. rewrite execState_seq, H1, Hc, Hc1. reflexivity.
Defined.

Lemma toggleCooldownOverride_throws_witness :
  let w :=
    execState (fetchUserState Sample.engine_backend)
      (Sample.world Sample.fresh_server Sample.no_answers) in
  let w' := execState (toggleCooldownOverride (unreachable _)) w in
  store w' = store w
  /\ console w' = ["Error toggling cooldown override:"].
Proof.
  intros w w'.
  destruct (userState (store w)) as [us|] eqn:Hu;
    [|vm_compute in Hu; discriminate].
  destruct (@toggleCooldownOverride_throws _ (unreachable _) us w Hu)
    as (H1 & H2 & _).
  - left. reflexivity.
  - split; [exact H1|exact H2].
Defined.

(** The library of the sample installation on the exercises tab: four
    exercises, four cards. *)
Lemma dashboard_cards_partition_witness :
  let s :=
    Admin.set_protocols (Shaped (Engine.library_protocols Sample.small_library))
      (Admin.set_exercises (Shaped (Engine.library_exercises Sample.small_library))
         Admin.initial_screen) in
  option_map (@length _) (Admin.dashboard_cards s) = Some 4%nat.
Proof.
  intros s.
  destruct (@dashboard_cards_partition s
              (Engine.library_exercises Sample.small_library)
              (Engine.library_protocols Sample.small_library) eq_refl eq_refl)
    as (cards & H1 & _).
  rewrite H1. vm_compute in H1. inversion H1; subst. reflexivity.
Defined.

(** A backend in maintenance answers the list requests with an error
    object. *)
Lemma fetchData_error_body_witness :
  let w' :=
    execState (@Admin.fetchData _ _ AdminSample.maintenance)
      (AdminSample.world None) in
  Admin.exercises (Admin.screen w') = ErrorDetail "maintenance"
  /\ Admin.dashboard_cards (Admin.screen w') = None.
Proof.
  intros w'.
  destruct (@fetchData_error_body _ (option string) AdminSample.maintenance false
              "maintenance" (AdminSample.world None)) as (H1 & _ & H3).
  - reflexivity.
  - discriminate.
  - split; [exact H1|]. apply H3. reflexivity.
Defined.

(** Logging in on a backend that accepts and hands out a token. *)
Lemma tapLogin_outcome_witness :
  let w' :=
    execState (Admin.tapLogin AdminSample.open_backend AdminSample.memory_storage)
      (AdminSample.world None) in
  Admin.isLoggedIn (Admin.screen w') = true
  /\ Admin.token (Admin.screen w') = Some "letmein"
  /\ Admin.http_log w'
     = [Admin.POST_login EmptyString; Admin.GET_exercises; Admin.GET_protocols].
Proof.
  intros w'.
  destruct (@tapLogin_outcome _ _ AdminSample.open_backend
              AdminSample.memory_storage (AdminSample.world None) eq_refl)
    as (H1 & H2 & _).
  assert (Hin : Admin.isLoggedIn (Admin.screen w') = true).
  { apply H1. eexists. split; reflexivity. }
  destruct (H2 _ eq_refl Hin) as (Ht & _ & _ & _ & Hl).
  split; [exact Hin|]. split; [exact Ht|exact Hl].
Defined.

(** A backend in maintenance refuses the save with a detail: the alert
    shows that detail and the modal's state is kept. *)
Lemma saveExercise_outcome_witness :
  let w' :=
    execState (@Admin.saveExercise _ _ AdminSample.maintenance)
      (AdminSample.world None) in
  Admin.alerts w' = [("Error", "maintenance")]
  /\ Admin.screen w' = Admin.initial_screen.
Proof.
  intros w'.
  destruct (@saveExercise_outcome _ (option string) AdminSample.maintenance
              (AdminSample.world None)) as (_ & H).
  destruct H as (Hs & _ & Ha & _); [discriminate|].
  split; [exact Ha|exact Hs].
Defined.
